(** * NovaPress server: access control and issue lifecycle

    A shallow embedding of the request handlers of the NovaPress REST
    backend (the converged revision of [index.js]: [verifyToken],
    [requireRole], [checkBlocked], [VALID_STATUS_FLOW] and the issue and
    user routes), over an explicit model of the document store.

    Documents are JavaScript objects: finite maps from field names to
    values.  Handlers are programs in a small state-and-exception monad:
    the state is the database, [send] is an early [return res.send(..)],
    [throw] is a JavaScript exception, and [try_catch] is the handlers'
    [try { .. } catch (err) { .. }]. *)

From Stdlib Require Import ZArith String Ascii DecimalString.
From stdpp Require Import base option list gmap strings.

Set Warnings "-register-all".
Open Scope string_scope.
Open Scope list_scope.
Open Scope Z_scope.

(** ** JSON and store values *)

(** What [express.json()] hands to a handler.  Numbers are the integer
    JSON numbers; objects keep their fields in order. *)
Inductive json : Type :=
| JNull
| JBool (b : bool)
| JNum (n : Z)
| JStr (s : string)
| JArr (items : list json)
| JObj (fields : list (string * json)).

Lemma json_eq_dec : ∀ a b : json, {a = b} + {a ≠ b}.
Proof.
  fix IH 1. intros a b. decide equality.
  - apply bool_dec.
  - apply Z.eq_dec.
  - apply string_dec.
  - apply (List.list_eq_dec IH).
  - apply List.list_eq_dec. intros [k v] [k' v'].
    destruct (string_dec k k') as [->|Hk]; [|right; congruence].
    destruct (IH v v') as [->|Hv]; [left; reflexivity|right; congruence].
Defined.

#[global] Instance json_eq_decision : EqDecision json := json_eq_dec.

(** The 12-byte ObjectId of the driver, as its 24-digit lower-case hex
    string. *)
Definition oid := string.

(** A stored field holds JSON, a [Date] (milliseconds) or an [ObjectId]. *)
Inductive value : Type :=
| VJson (j : json)
| VDate (t : Z)
| VOid (o : oid).

#[global] Instance value_eq_decision : EqDecision value.
Proof. solve_decision. Defined.

Definition str (s : string) : value := VJson (JStr s).
Definition num (n : Z) : value := VJson (JNum n).
Definition boolean (b : bool) : value := VJson (JBool b).

(** A document, and a request body: JavaScript objects used as maps. *)
Abbreviation doc := (gmap string value).
Abbreviation jbody := (gmap string json).

(** ** JavaScript operators used by the handlers *)

(** [!!x] on a JSON value. *)
Definition truthy_json (j : json) : bool :=
  match j with
  | JNull => false
  | JBool b => b
  | JNum n => negb (n =? 0)
  | JStr s => negb (String.eqb s "")
  | JArr _ | JObj _ => true
  end.

(** [!!x] on a property read; [None] is [undefined]. *)
Definition truthy (x : option value) : bool :=
  match x with
  | None => false
  | Some (VJson j) => truthy_json j
  | Some (VDate _) | Some (VOid _) => true
  end.

Definition truthy_body (x : option json) : bool :=
  match x with None => false | Some j => truthy_json j end.

(** [x || d]. *)
Definition or_default (x : option value) (d : value) : value :=
  match x with
  | Some v => if truthy x then v else d
  | None => d
  end.

(** [x?.k] on a document that may be [null]. *)
Definition optional (x : option doc) (k : string) : option value :=
  match x with Some d => d !! k | None => None end.

(** [x === s] and [x !== s] against a string. *)
Definition is_string (x : option value) (s : string) : bool :=
  bool_decide (x = Some (str s)).

(** [String(x)] as used by template literals and property keys, on JSON. *)
Fixpoint json_to_string (j : json) : string :=
  match j with
  | JNull => "null"
  | JBool true => "true"
  | JBool false => "false"
  | JNum n => NilZero.string_of_int (Z.to_int n)
  | JStr s => s
  | JArr items =>
      (fix join (l : list json) : string :=
         match l with
         | [] => ""
         | x :: r =>
             let here := match x with JNull => "" | _ => json_to_string x end in
             match r with
             | [] => here
             | _ :: _ => here +:+ "," +:+ join r
             end
         end) items
  | JObj _ => "[object Object]"
  end.

Example json_to_string_array :
  json_to_string (JArr [JNum 1; JNull; JStr "a"; JArr [JBool true; JNum (-20)]])
  = "1,,a,true,-20".
Proof. reflexivity. Qed.

(** [x.includes(s)] for a string [s], with the optional chaining of
    [x?.includes(s)] folded in: [undefined] and [null] give [undefined]
    (falsy), an array is searched for an element [=== s], a string for the
    substring [s]; any other receiver has no [includes] method. *)
Inductive includes_result := includes_yes | includes_no | includes_not_a_function.

Definition optional_includes (x : option value) (s : string) : includes_result :=
  match x with
  | None | Some (VJson JNull) => includes_no
  | Some (VJson (JArr items)) =>
      if bool_decide (JStr s ∈ items) then includes_yes else includes_no
  | Some (VJson (JStr t)) =>
      match String.index 0 s t with Some _ => includes_yes | None => includes_no end
  | Some _ => includes_not_a_function
  end.

(** [l.join(sep)] on an array of strings. *)
Fixpoint join (sep : string) (l : list string) : string :=
  match l with
  | [] => ""
  | [x] => x
  | x :: r => x +:+ sep +:+ join sep r
  end.

(** ** The document store

    A collection is the list of its documents in insertion order.  The
    operations below are the driver calls the handlers make. *)

(** A filter [{k1: q1, k2: q2}]: every clause is an equality match. *)
Definition query := list (string * value).

(** An equality clause matches a field equal to the operand, or an array
    field with the operand among its elements; a missing field matches
    [null] only.  Operator documents ([{$ne: ..}]) as operands are not
    interpreted. *)
Definition field_eq (x : option value) (q : value) : bool :=
  match x with
  | None => bool_decide (q = VJson JNull)
  | Some v =>
      bool_decide (v = q)
      || match v, q with
         | VJson (JArr items), VJson qj => bool_decide (qj ∈ items)
         | _, _ => false
         end
  end.

Definition matches (f : query) (d : doc) : bool :=
  forallb (λ c, field_eq (d !! c.1) c.2) f.

Definition find_first (f : query) (c : list doc) : option doc :=
  List.find (matches f) c.

Definition count_matching (f : query) (c : list doc) : nat :=
  length (List.filter (matches f) c).

(** Update operators. *)
Inductive operator :=
| op_set (fields : doc)            (* $set: fields *)
| op_inc (k : string) (n : Z)      (* $inc: { k: n } *)
| op_push (k : string) (x : json). (* $push: { k: x } *)

(** A field name that addresses a top-level field.  A name with a dot is
    a path into embedded documents, and a name starting with a dollar sign
    is an operator; [$set] is modelled on top-level names only and the
    embedding rejects the others. *)
Definition plain_key (k : string) : bool :=
  negb (String.eqb k "") && negb (String.prefix "$" k)
  && match String.index 0 "." k with Some _ => false | None => true end.

(** One operator applied to one document; [None] when the server rejects
    the write: [_id] is immutable, [$inc] needs a number and [$push] an
    array; both create a missing field. *)
Definition apply_operator (o : operator) (d : doc) : option doc :=
  match o with
  | op_set fields =>
      if forallb plain_key (map_to_list fields).*1
         && match fields !! "_id" with
            | Some i => bool_decide (d !! "_id" = Some i)
            | None => true
            end
      then Some (fields ∪ d) else None
  | op_inc k n =>
      match d !! k with
      | None => Some (<[k := num n]> d)
      | Some (VJson (JNum m)) => Some (<[k := num (m + n)]> d)
      | Some _ => None
      end
  | op_push k x =>
      match d !! k with
      | None => Some (<[k := VJson (JArr [x])]> d)
      | Some (VJson (JArr items)) => Some (<[k := VJson (JArr (items ++ [x]))]> d)
      | Some _ => None
      end
  end.

Fixpoint apply_update (u : list operator) (d : doc) : option doc :=
  match u with
  | [] => Some d
  | o :: u' => d' ← apply_operator o d; apply_update u' d'
  end.

Record UpdateResult := { matchedCount : nat; modifiedCount : nat }.

(** What [updateOne] does to a collection: the first matching document is rewritten in place; the
    write is all-or-nothing. *)
Fixpoint update_first (f : query) (u : list operator) (c : list doc)
  : option (list doc * UpdateResult) :=
  match c with
  | [] => Some ([], {| matchedCount := 0; modifiedCount := 0 |})
  | d :: rest =>
      if matches f d then
        d' ← apply_update u d;
        Some (d' :: rest,
              {| matchedCount := 1;
                 modifiedCount := if bool_decide (d' = d) then 0 else 1 |}%nat)
      else
        r ← update_first f u rest; Some (d :: r.1, r.2)
  end.

(** What [deleteOne] does: the first matching document is removed; the result is the
    collection and [deletedCount]. *)
Fixpoint delete_first (f : query) (c : list doc) : list doc * nat :=
  match c with
  | [] => ([], 0%nat)
  | d :: rest =>
      if matches f d then (rest, 1%nat)
      else let r := delete_first f rest in (d :: r.1, r.2)
  end.

(** What [insertOne] does to a collection whose [_id] the handlers read: the
    driver adds a generated [_id] when the document has none (or [null]);
    the server rejects an array as [_id] and an [_id] already present. *)
Definition with_id (fresh : oid) (d : doc) : doc :=
  match d !! "_id" with
  | None | Some (VJson JNull) => <["_id" := VOid fresh]> d
  | Some _ => d
  end.

Definition insert_doc (fresh : oid) (d : doc) (c : list doc)
  : option (list doc * value) :=
  let d' := with_id fresh d in
  match d' !! "_id" with
  | Some (VJson (JArr _)) | None => None
  | Some i =>
      if existsb (λ e, bool_decide (e !! "_id" = Some i)) c then None
      else Some (c ++ [d'], i)
  end.

(** The five collections; [comments] is not touched by the routes
    modelled here.  The audit collections ([timeline], [payments]) and
    [users] are only ever appended to or matched by other fields, so their
    generated [_id] is left out. *)
Record db := {
  users : list doc;
  issues : list doc;
  timeline : list doc;
  payments : list doc;
}.

Definition set_users (c : list doc) (s : db) : db :=
  {| users := c; issues := issues s; timeline := timeline s; payments := payments s |}.
Definition set_issues (c : list doc) (s : db) : db :=
  {| users := users s; issues := c; timeline := timeline s; payments := payments s |}.
Definition set_timeline (c : list doc) (s : db) : db :=
  {| users := users s; issues := issues s; timeline := c; payments := payments s |}.
Definition set_payments (c : list doc) (s : db) : db :=
  {| users := users s; issues := issues s; timeline := timeline s; payments := c |}.

(** ** Responses and the handler monad *)

(** What a JavaScript [throw] carries, by the library that raises it. *)
Inductive exn :=
| TypeError          (* calling something that is not a function *)
| BSONError          (* new ObjectId(..) on a malformed id *)
| MongoServerError   (* a write the server rejects *)
| FirebaseAuthError. (* verifyIdToken rejects the token *)

(** The JSON bodies the handlers send. *)
Inductive payload :=
| message (m : string)                 (* { message: m } *)
| error (e : exn)                      (* { error: err.message } *)
| role_is (r : value)                  (* { role: r } *)
| inserted (insertedId : value)        (* { acknowledged: true, insertedId } *)
| success_modified (modified : nat)    (* { success: true, modifiedCount } *)
| success_result (r : UpdateResult)    (* { success: true, result } *)
| update_result (r : UpdateResult)     (* res.send(result) of an updateOne *)
| delete_result (deletedCount : nat).  (* res.send(result) of a deleteOne *)

Record response := { status : nat; sent : payload }.

(** [res.send(p)] and [res.status(n).send(p)]. *)
Definition ok (p : payload) : response := {| status := 200; sent := p |}.
Definition fail (n : nat) (p : payload) : response := {| status := n; sent := p |}.

Inductive outcome (A : Type) :=
| Val (a : A)            (* the code runs on *)
| Sent (r : response)    (* the response went out and the handler returned *)
| Thrown (e : exn).      (* an exception is in flight *)
Arguments Val {A} a.
Arguments Sent {A} r.
Arguments Thrown {A} e.

Definition M (A : Type) : Type := db → outcome A * db.

#[global] Instance M_ret : MRet M := λ A a s, (Val a, s).
#[global] Instance M_bind : MBind M := λ A B f m s,
  match m s with
  | (Val a, s') => f a s'
  | (Sent r, s') => (Sent r, s')
  | (Thrown e, s') => (Thrown e, s')
  end.

Definition send {A} (r : response) : M A := λ s, (Sent r, s).
Definition throw {A} (e : exn) : M A := λ s, (Thrown e, s).
Definition try_catch {A} (m : M A) (handler : exn → M A) : M A := λ s,
  match m s with
  | (Thrown e, s') => handler e s'
  | o => o
  end.
Definition when (c : bool) (m : M unit) : M unit := if c then m else mret ().

(** A collection handle, as [db.collection(name)] returns it. *)
Record collection := { docs : db → list doc; store : list doc → db → db }.
Definition usersCollection := {| docs := users; store := set_users |}.
Definition issuesCollection := {| docs := issues; store := set_issues |}.
Definition timelineCollection := {| docs := timeline; store := set_timeline |}.
Definition paymentsCollection := {| docs := payments; store := set_payments |}.

Module Collection.
Definition findOne (c : collection) (f : query) : M (option doc) :=
  λ s, (Val (find_first f (docs c s)), s).
Definition countDocuments (c : collection) (f : query) : M nat :=
  λ s, (Val (count_matching f (docs c s)), s).
Definition updateOne (c : collection) (f : query) (u : list operator) : M UpdateResult :=
  λ s, match update_first f u (docs c s) with
       | Some (c', r) => (Val r, store c c' s)
       | None => (Thrown MongoServerError, s)
       end.
Definition deleteOne (c : collection) (f : query) : M nat :=
  λ s, let r := delete_first f (docs c s) in (Val r.2, store c r.1 s).
(** [insertOne] on [users], [timeline] and [payments]. *)
Definition insertOne (c : collection) (d : doc) : M unit :=
  λ s, (Val (), store c (docs c s ++ [d]) s).
(** [insertOne] on [issues]; the value is [result.insertedId]. *)
Definition insertOne_id (c : collection) (fresh : oid) (d : doc) : M value :=
  λ s, match insert_doc fresh d (docs c s) with
       | Some (c', i) => (Val i, store c c' s)
       | None => (Thrown MongoServerError, s)
       end.
End Collection.

(** ** Requests *)

(** What one run of a handler reads: the request, and from its
    environment the clock of [new Date()] and the [_id] the driver
    generates for an insert. *)
Record request := {
  authorization : option string;   (* req.headers.authorization *)
  param : string;                  (* req.params.id, req.params.email *)
  body : jbody;                    (* req.body *)
  clock : Z;                       (* new Date() *)
  generated : oid;                 (* new ObjectId() inside insertOne *)
}.

(** The fields of a verified identity token. *)
Record decoded := {
  d_email : string;
  d_uid : string;
  d_name : option string;
  d_picture : option string;
}.

(** [req.user], as [verifyToken] leaves it. *)
Record user := {
  email : string;
  uid : string;
  role : option value;
  isBlocked : value;
  isPremium : value;
}.

(** [s.split(" ")], and the string or empty default of [x || ""]. *)
Fixpoint split_on (c : ascii) (s : string) : list string :=
  match s with
  | EmptyString => [""]
  | String a r =>
      if Ascii.eqb a c then "" :: split_on c r
      else match split_on c r with
           | h :: t => String a h :: t
           | [] => [String a ""]
           end
  end.

Definition string_or_empty (x : option string) : string :=
  match x with Some s => s | None => "" end.

(** Allowed status transitions (staff must follow; admin may bypass):
    the own properties of the object literal. *)
Definition VALID_STATUS_FLOW : list (string * list string) :=
  [ ("pending", ["in-progress"]);
    ("in-progress", ["resolved"]);
    ("resolved", ["closed"]) ].

(** The members an object literal inherits from [Object.prototype]; none
    of them is an array. *)
Definition Object_prototype : list string :=
  [ "constructor"; "__defineGetter__"; "__defineSetter__"; "hasOwnProperty";
    "__lookupGetter__"; "__lookupSetter__"; "isPrototypeOf";
    "propertyIsEnumerable"; "toString"; "valueOf"; "__proto__";
    "toLocaleString" ].

(** [VALID_STATUS_FLOW[key] || []]. *)
Inductive flow_property :=
| next_states (l : list string)   (* an own property, or the default [] *)
| inherited_member.               (* a truthy value without [includes] *)

Fixpoint own_property (key : string) (o : list (string * list string))
  : option (list string) :=
  match o with
  | [] => None
  | (k, v) :: o' => if String.eqb k key then Some v else own_property key o'
  end.

Definition flow_or_empty (key : string) : flow_property :=
  match own_property key VALID_STATUS_FLOW with
  | Some l => next_states l
  | None =>
      if bool_decide (key ∈ Object_prototype) then inherited_member
      else next_states []
  end.

(** [allowed.includes(status)]. *)
Definition flow_includes (allowed : flow_property) (status : json) : M bool :=
  match allowed with
  | next_states l =>
      mret (match status with JStr s => bool_decide (s ∈ l) | _ => false end)
  | inherited_member => throw TypeError
  end.

(** [allowed.join(', ') || 'none']. *)
Definition join_or_none (l : list string) : string :=
  let j := join ", " l in if String.eqb j "" then "none" else j.

(** A timeline document. *)
Definition timeline_entry (issueId status msg : value) (updatedBy : string) (time : Z) : doc :=
  {[ "issueId" := issueId; "status" := status; "message" := msg;
     "updatedBy" := str updatedBy; "time" := VDate time ]}.

(** The collaborators outside the repository: the identity provider's
    token check, the driver's ObjectId constructor (it throws on a
    malformed id) and the platform's rendering of a [Date]. *)
Class Platform := {
  verifyIdToken : string → option decoded;   (* admin.auth().verifyIdToken *)
  ObjectId : string → option oid;            (* new ObjectId(id) *)
  Date_toString : Z → string;                (* String(new Date(t)) *)
}.

Section Server.

Context `{Platform}.

(** [new ObjectId(id)] and [ObjectId.isValid(id)]. *)
Definition new_ObjectId (id : string) : M value :=
  match ObjectId id with
  | Some o => mret (VOid o)
  | None => throw BSONError
  end.

Definition ObjectId_isValid (id : string) : bool :=
  bool_decide (is_Some (ObjectId id)).

(** [String(x)] on a property read. *)
Definition to_string (x : option value) : string :=
  match x with
  | None => "undefined"
  | Some (VJson j) => json_to_string j
  | Some (VOid o) => o
  | Some (VDate t) => Date_toString t
  end.

(** *** Middleware *)

Definition verifyToken (req : request) : M user :=
  match authorization req with
  | None => send (fail 401 (message "Unauthorized"))
  | Some header =>
      if negb (String.prefix "Bearer " header)
      then send (fail 401 (message "Unauthorized"))
      else
        try_catch
          (decoded ← match split_on " "%char header !! 1%nat with
                     | Some token =>
                         match verifyIdToken token with
                         | Some d => mret d
                         | None => throw FirebaseAuthError
                         end
                     | None => throw FirebaseAuthError
                     end;
           found ← Collection.findOne usersCollection [("email", str (d_email decoded))];
           dbUser ← match found with
                    | Some u => mret u
                    | None =>
                        let newUser : doc :=
                          {[ "email" := str (d_email decoded);
                             "name" := str (string_or_empty (d_name decoded));
                             "image" := str (string_or_empty (d_picture decoded));
                             "role" := str "citizen";
                             "premium" := boolean false;
                             "isBlocked" := boolean false;
                             "hasPassword" := boolean false;
                             "createdAt" := VDate (clock req) ]} in
                        Collection.insertOne usersCollection newUser;;
                        mret newUser
                    end;
           mret {| email := d_email decoded;
                   uid := d_uid decoded;
                   role := dbUser !! "role";
                   isBlocked := or_default (dbUser !! "isBlocked") (boolean false);
                   isPremium := or_default (dbUser !! "premium") (boolean false) |})
          (λ err, send (fail 401 (message "Invalid token")))
  end.

(** role requirement helper *)
Definition requireRole (r : string) (u : user) : M unit :=
  when (negb (is_string (role u) r))
    (send (fail 403 (message ("Forbidden - Role required: " +:+ r)))).

(** Prevent blocked users from performing certain actions *)
Definition checkBlocked (u : user) : M unit :=
  when (truthy (Some (isBlocked u)))
    (send (fail 403 (message "Your account is blocked"))).

(** *** User routes *)

(** [GET /users/role/:email]: get role (used by client hooks). *)
Definition get_users_role (req : request) : M unit :=
  u ← verifyToken req;
  (* If user tries to access someone else's role → downgrade *)
  when (negb (String.eqb (email u) (param req)))
    (send (ok (role_is (str "citizen"))));;
  found ← Collection.findOne usersCollection [("email", str (param req))];
  (* Always return a role *)
  send (ok (role_is (or_default (optional found "role") (str "citizen")))).

(** [PATCH /users/membership/:email]: update membership after payment. *)
Definition patch_users_membership (req : request) : M unit :=
  u ← verifyToken req;
  let email_ := param req in
  let status_ := body req !! "status" in
  when (negb (truthy_body status_))
    (send (fail 400 (message "Missing status")));;
  when (negb (String.eqb (email u) email_))
    (send (fail 403 (message "Unauthorized")));;
  let isPremium_ := bool_decide (status_ = Some (JStr "premium")) in
  result ← Collection.updateOne usersCollection [("email", str email_)]
             [op_set {[ "premium" := boolean isPremium_ ]}];
  send (ok (success_result result)).

(** *** Issue routes *)

(** [POST /issues]: create issue (private). *)
Definition post_issues (req : request) : M unit :=
  u ← verifyToken req;
  checkBlocked u;;
  try_catch
    (let issue : doc := VJson <$> body req in
     let issue := <["reporterEmail" := str (email u)]> issue in
     let issue := <["userEmail" := str (email u)]> issue in
     found ← Collection.findOne usersCollection [("email", str (email u))];
     issueCount ← Collection.countDocuments issuesCollection
                    [("reporterEmail", str (email u))];
     when (negb (truthy (optional found "premium")) && bool_decide (3 ≤ issueCount)%nat)
       (send (fail 403 (message "Free user limit reached. Upgrade to premium.")));;
     let status_ := or_default (issue !! "status") (str "pending") in
     let issue := <["status" := status_]> issue in
     let issue := <["priority" := or_default (issue !! "priority") (str "normal")]> issue in
     let issue := <["reportedAt" := VDate (clock req)]> issue in
     let issue := <["upvotes" := or_default (issue !! "upvotes") (num 0)]> issue in
     let issue := <["upvoters" := or_default (issue !! "upvoters") (VJson (JArr []))]> issue in
     let issue := <["isHidden" := boolean false]> issue in
     insertedId ← Collection.insertOne_id issuesCollection (generated req) issue;
     Collection.insertOne timelineCollection
       (timeline_entry (str (to_string (Some insertedId))) status_
          (str "Issue reported") (email u) (clock req));;
     send (ok (inserted insertedId)))
    (λ err, send (fail 500 (error err))).

(** [PATCH /issues/assign/:id] (admin). *)
Definition patch_issues_assign (req : request) : M unit :=
  u ← verifyToken req;
  requireRole "admin" u;;
  try_catch
    (let id := param req in
     let staffEmail := body req !! "staffEmail" in
     when (negb (ObjectId_isValid id))
       (send (fail 400 (message "Invalid issue ID")));;
     staffEmail ← match staffEmail with
                  | Some e => if truthy_json e then mret e
                              else send (fail 400 (message "Staff email required"))
                  | None => send (fail 400 (message "Staff email required"))
                  end;
     (* verify staff *)
     staff ← Collection.findOne usersCollection
               [("email", VJson staffEmail); ("role", str "staff")];
     when (bool_decide (staff = None))
       (send (fail 404 (message "Staff not found")));;
     (* verify issue *)
     oid_ ← new_ObjectId id;
     issue ← Collection.findOne issuesCollection [("_id", oid_)];
     when (bool_decide (issue = None))
       (send (fail 404 (message "Issue not found")));;
     (* assign issue *)
     oid_ ← new_ObjectId id;
     result ← Collection.updateOne issuesCollection [("_id", oid_)]
                [op_set {[ "assignedStaff" := VJson staffEmail;
                           "status" := str "in-progress";
                           "assignedAt" := VDate (clock req) ]}];
     (* timeline log *)
     Collection.insertOne timelineCollection
       (timeline_entry (str id) (str "in-progress")
          (str ("Assigned to staff " +:+ json_to_string staffEmail))
          (email u) (clock req));;
     send (ok (success_modified (modifiedCount result))))
    (λ err, send (fail 500 (message "Failed to assign issue"))).

(** [PATCH /issues/upvote/:id]: upvote issue. *)
Definition patch_issues_upvote (req : request) : M unit :=
  u ← verifyToken req;
  try_catch
    (let issueId := param req in
     let userEmail := email u in
     oid_ ← new_ObjectId issueId;
     found ← Collection.findOne issuesCollection [("_id", oid_)];
     issue ← match found with
             | Some i => mret i
             | None => send (fail 404 (message "Issue not found"))
             end;
     when (is_string (issue !! "reporterEmail") userEmail)
       (send (fail 403 (message "You cannot upvote your own issue")));;
     already ← match optional_includes (issue !! "upvoters") userEmail with
               | includes_yes => mret true
               | includes_no => mret false
               | includes_not_a_function => throw TypeError
               end;
     when already
       (send (fail 400 (message "You already upvoted this issue")));;
     oid_ ← new_ObjectId issueId;
     result ← Collection.updateOne issuesCollection [("_id", oid_)]
                [op_inc "upvotes" 1; op_push "upvoters" (JStr userEmail)];
     send (ok (success_modified (modifiedCount result))))
    (λ err, send (fail 500 (error err))).

(** [PATCH /issues/:id/status]: update issue status (staff assigned or
    admin).  Admin may bypass flow; staff must follow
    [VALID_STATUS_FLOW]. *)
Definition patch_issues_status (req : request) : M unit :=
  u ← verifyToken req;
  try_catch
    (let id := param req in
     let note := body req !! "note" in
     status_ ← match body req !! "status" with
               | Some x => if truthy_json x then mret x
                           else send (fail 400 (message "Status is required"))
               | None => send (fail 400 (message "Status is required"))
               end;
     oid_ ← new_ObjectId id;
     found ← Collection.findOne issuesCollection [("_id", oid_)];
     issue ← match found with
             | Some i => mret i
             | None => send (fail 404 (message "Issue not found"))
             end;
     found ← Collection.findOne usersCollection [("email", str (email u))];
     dbUser ← match found with
              | Some x => mret x
              | None => send (fail 403 (message "Forbidden"))
              end;
     (* citizens cannot update status *)
     when (is_string (dbUser !! "role") "citizen" || is_string (dbUser !! "role") "user")
       (send (fail 403 (message "Forbidden: Citizens cannot update status")));;
     (* staff can only update issues assigned to them *)
     when (is_string (dbUser !! "role") "staff"
           && negb (is_string (issue !! "assignedStaff") (email u)))
       (send (fail 403 (message "Forbidden: Not assigned to you")));;
     (* validate flow (staff must follow allowed transitions) *)
     (if is_string (dbUser !! "role") "staff" then
        let allowed := flow_or_empty (to_string (issue !! "status")) in
        permitted ← flow_includes allowed status_;
        when (negb permitted)
          (send (fail 400 (message
             ("Invalid status update. Allowed: " +:+ to_string (issue !! "status")
              +:+ " → "
              +:+ match allowed with
                  | next_states l => join_or_none l
                  | inherited_member => ""
                  end))))
      else mret ());;
     (* admin may set any valid status *)
     (* perform update *)
     oid_ ← new_ObjectId id;
     result ← Collection.updateOne issuesCollection [("_id", oid_)]
                [op_set {[ "status" := VJson status_ ]}];
     Collection.insertOne timelineCollection
       (timeline_entry (str id) (VJson status_)
          (or_default (VJson <$> note)
             (str ("Status changed to " +:+ json_to_string status_)))
          (email u) (clock req));;
     send (ok (success_result result)))
    (λ err, send (fail 500 (error err))).

(** [POST /issues/:id/boost]: payment-based priority boost. *)
Definition post_issues_boost (req : request) : M unit :=
  u ← verifyToken req;
  checkBlocked u;;
  try_catch
    (let id := param req in
     paid ← match body req !! "paymentId", body req !! "amount" with
            | Some paymentId, Some amount =>
                if negb (truthy_json paymentId) || negb (truthy_json amount)
                then send (fail 400 (message "paymentId and amount required"))
                else mret (paymentId, amount)
            | _, _ => send (fail 400 (message "paymentId and amount required"))
            end;
     oid_ ← new_ObjectId id;
     found ← Collection.findOne issuesCollection [("_id", oid_)];
     issue ← match found with
             | Some i => mret i
             | None => send (fail 404 (message "Issue not found"))
             end;
     (* prevent double boost *)
     when (truthy (issue !! "isBoosted") || is_string (issue !! "priority") "high")
       (send (fail 400 (message "Issue already boosted")));;
     (* 1: save payment *)
     Collection.insertOne paymentsCollection
       {[ "issueId" := str id; "userEmail" := str (email u);
          "paymentId" := VJson paid.1; "amount" := VJson paid.2;
          "purpose" := str "issue_boost"; "date" := VDate (clock req) ]};;
     (* 2: update issue *)
     oid_ ← new_ObjectId id;
     updateResult ← Collection.updateOne issuesCollection [("_id", oid_)]
                      [op_set {[ "priority" := str "high";
                                 "isBoosted" := boolean true ]}];
     (* 3: timeline log *)
     Collection.insertOne timelineCollection
       (timeline_entry (str id) (str "boosted")
          (str "Priority boosted via payment") (email u) (clock req));;
     send (ok (success_result updateResult)))
    (λ err, send (fail 500 (error err))).

(** [PATCH /issues/edit/:id]: edit issue (reporter only). *)
Definition patch_issues_edit (req : request) : M unit :=
  u ← verifyToken req;
  try_catch
    (let id := param req in
     oid_ ← new_ObjectId id;
     found ← Collection.findOne issuesCollection [("_id", oid_)];
     issue ← match found with
             | Some i => mret i
             | None => send (fail 404 (message "Not found"))
             end;
     when (negb (is_string (issue !! "reporterEmail") (email u)))
       (send (fail 403 (message "Not your issue")));;
     oid_ ← new_ObjectId id;
     result ← Collection.updateOne issuesCollection [("_id", oid_)]
                [op_set (VJson <$> body req)];
     send (ok (update_result result)))
    (λ err, send (fail 500 (error err))).

(** [DELETE /issues/:id]. *)
Definition delete_issues (req : request) : M unit :=
  u ← verifyToken req;
  try_catch
    (let id := param req in
     oid_ ← new_ObjectId id;
     found ← Collection.findOne issuesCollection [("_id", oid_)];
     issue ← match found with
             | Some i => mret i
             | None => send (fail 404 (message "Not found"))
             end;
     found ← Collection.findOne usersCollection [("email", str (email u))];
     dbUser ← match found with
              | Some x => mret x
              | None => send (fail 403 (message "Forbidden"))
              end;
     (if is_string (issue !! "reporterEmail") (email u) then
        (* reporter: allowed only if pending *)
        when (negb (is_string (issue !! "status") "pending"))
          (send (fail 400 (message "Only pending issues can be deleted by reporter")))
      else if negb (is_string (dbUser !! "role") "admin") then
        (* not reporter and not admin *)
        send (fail 403 (message "Unauthorized"))
      else mret ());;
     oid_ ← new_ObjectId id;
     deleted ← Collection.deleteOne issuesCollection [("_id", oid_)];
     Collection.insertOne timelineCollection
       (timeline_entry (str id) (str "deleted")
          (str ("Issue deleted by " +:+ email u)) (email u) (clock req));;
     send (ok (delete_result deleted)))
    (λ err, send (fail 500 (error err))).

(** [PATCH /issues/priority/:id] (admin). *)
Definition patch_issues_priority (req : request) : M unit :=
  u ← verifyToken req;
  requireRole "admin" u;;
  try_catch
    (let id := param req in
     priority ← match body req !! "priority" with
                | Some (JStr p) =>
                    if bool_decide (p ∈ ["low"; "normal"; "high"]) then mret p
                    else send (fail 400 (message "Invalid priority"))
                | _ => send (fail 400 (message "Invalid priority"))
                end;
     (* 1: update issue priority *)
     oid_ ← new_ObjectId id;
     result ← Collection.updateOne issuesCollection [("_id", oid_)]
                [op_set {[ "priority" := str priority ]}];
     when (bool_decide (modifiedCount result = 0%nat))
       (send (fail 404 (message "Issue not found or unchanged")));;
     (* 2: add timeline entry (separate operation) *)
     Collection.insertOne timelineCollection
       (timeline_entry (str id) (str "priority-updated")
          (str ("Priority set to " +:+ priority)) (email u) (clock req));;
     send (ok (success_result result)))
    (λ err, send (fail 500 (error err))).

(** The routes modelled here, as registered on [app]; they include
    every route that writes to [issues]. *)
Inductive route :=
| GET_users_role
| PATCH_users_membership
| POST_issues
| PATCH_issues_assign
| PATCH_issues_upvote
| PATCH_issues_status
| POST_issues_boost
| PATCH_issues_edit
| DELETE_issues
| PATCH_issues_priority.

Definition dispatch (r : route) : request → M unit :=
  match r with
  | GET_users_role => get_users_role
  | PATCH_users_membership => patch_users_membership
  | POST_issues => post_issues
  | PATCH_issues_assign => patch_issues_assign
  | PATCH_issues_upvote => patch_issues_upvote
  | PATCH_issues_status => patch_issues_status
  | POST_issues_boost => post_issues_boost
  | PATCH_issues_edit => patch_issues_edit
  | DELETE_issues => delete_issues
  | PATCH_issues_priority => patch_issues_priority
  end.

End Server.

(** ** Account routes and reads

    The routes of the same file that manage user records, verify a
    premium payment and read one issue. *)

(** What [updateOne(filter, { $setOnInsert: fields }, { upsert: true })]
    does when [fields] repeats the filter's equality: a matching document
    is left as it is, and without one [fields] is inserted. *)
Definition upsert_on_insert (f : query) (fields : doc) (c : list doc)
  : list doc * UpdateResult :=
  match find_first f c with
  | Some _ => (c, {| matchedCount := 1; modifiedCount := 0 |})
  | None => (c ++ [fields], {| matchedCount := 0; modifiedCount := 0 |})
  end.

Definition upsertOne (c : collection) (f : query) (fields : doc) : M UpdateResult :=
  λ s, let r := upsert_on_insert f fields (docs c s) in (Val r.2, store c r.1 s).

(** The handlers of [GET /issues/:id], [GET /users/membership/:email] and
    [POST /payment/premium/verify] answer 200 only in their last
    statement; the value of a run is the body of that answer. *)
Inductive final_body :=
| issue_found (d : doc)            (* res.send(issue) *)
| membership_status (s : string)   (* res.send({ status: s }) *)
| premium_activated.               (* res.send({ success: true, message: "Premium Activated!" }) *)

Section Accounts.

Context `{Platform}.

(** [POST /users]: create or upsert user (used after client
    registers/logins).  The route takes no token. *)
Definition post_users (req : request) : M unit :=
  try_catch
    (email_ ← match body req !! "email" with
              | Some e => if truthy_json e then mret e
                          else send (fail 400 (message "Email required"))
              | None => send (fail 400 (message "Email required"))
              end;
     result ← upsertOne usersCollection [("email", VJson email_)]
                {[ "email" := VJson email_;
                   "name" := or_default (VJson <$> body req !! "name") (str "");
                   "image" := or_default (VJson <$> body req !! "image") (str "");
                   "role" := str "citizen";
                   "premium" := boolean false;
                   "isBlocked" := boolean false;
                   "hasPassword" := default (boolean false)
                                      (VJson <$> body req !! "hasPassword");
                   "createdAt" := VDate (clock req) ]};
     send (ok (success_result result)))
    (λ err, send (fail 500 (error err))).

(** [PATCH /users/profile]. *)
Definition patch_users_profile (req : request) : M unit :=
  u ← verifyToken req;
  try_catch
    (let email_ := email u in
     let updateDoc : doc := {[ "updatedAt" := VDate (clock req) ]} in
     let updateDoc :=
       match body req !! "name" with
       | Some name => if truthy_json name then <["name" := VJson name]> updateDoc
                      else updateDoc
       | None => updateDoc
       end in
     let updateDoc :=
       match body req !! "image" with
       | Some image => if truthy_json image then <["image" := VJson image]> updateDoc
                       else updateDoc
       | None => updateDoc
       end in
     result ← Collection.updateOne usersCollection [("email", str email_)]
                [op_set updateDoc];
     send (ok (success_result result)))
    (λ err, send (fail 500 (message "Profile update failed"))).

(** [PATCH /users/make-admin/:email] (admin). *)
Definition patch_users_make_admin (req : request) : M unit :=
  u ← verifyToken req;
  requireRole "admin" u;;
  try_catch
    (let email_ := param req in
     result ← Collection.updateOne usersCollection [("email", str email_)]
                [op_set {[ "role" := str "admin" ]}];
     send (ok (update_result result)))
    (λ err, send (fail 500 (error err))).

(** [PATCH /users/make-staff/:email] (admin). *)
Definition patch_users_make_staff (req : request) : M unit :=
  u ← verifyToken req;
  requireRole "admin" u;;
  try_catch
    (let email_ := param req in
     result ← Collection.updateOne usersCollection [("email", str email_)]
                [op_set {[ "role" := str "staff" ]}];
     send (ok (update_result result)))
    (λ err, send (fail 500 (error err))).

(** [PATCH /users/block/:email] (admin); the flag stored is [!!isBlocked]. *)
Definition patch_users_block (req : request) : M unit :=
  u ← verifyToken req;
  requireRole "admin" u;;
  try_catch
    (let email_ := param req in
     let isBlocked_ := body req !! "isBlocked" in
     result ← Collection.updateOne usersCollection [("email", str email_)]
                [op_set {[ "isBlocked" := boolean (truthy_body isBlocked_) ]}];
     send (ok (update_result result)))
    (λ err, send (fail 500 (error err))).

(** [PATCH /users/premium/:email]: make premium (user self). *)
Definition patch_users_premium (req : request) : M unit :=
  u ← verifyToken req;
  try_catch
    (when (negb (String.eqb (email u) (param req)))
       (send (fail 403 (message "Cannot modify other users")));;
     result ← Collection.updateOne usersCollection [("email", str (param req))]
                [op_set {[ "premium" := boolean true ]}];
     send (ok (update_result result)))
    (λ err, send (fail 500 (error err))).

(** [PATCH /users/role/:email]: update user role (admin only).  The catch
    sends the caught error beside its message. *)
Definition patch_users_role (req : request) : M unit :=
  u ← verifyToken req;
  try_catch
    (let requesterEmail := email u in
     (* only admin can update role *)
     adminUser ← Collection.findOne usersCollection [("email", str requesterEmail)];
     match adminUser with
     | None => send (fail 403 (message "Forbidden access"))
     | Some a =>
         when (negb (is_string (a !! "role") "admin"))
           (send (fail 403 (message "Forbidden access")))
     end;;
     let targetEmail := param req in
     role_ ← match body req !! "role" with
             | Some (JStr r) =>
                 if bool_decide (r ∈ ["citizen"; "staff"; "admin"]) then mret r
                 else send (fail 400 (message "Invalid role"))
             | _ => send (fail 400 (message "Invalid role"))
             end;
     result ← Collection.updateOne usersCollection [("email", str targetEmail)]
                [op_set {[ "role" := str role_ ]}];
     send (ok (update_result result)))
    (λ error, send (fail 500 (message "Role update failed"))).

(** [GET /issues/:id]: get single issue (private; enforce access by
    role). *)
Definition get_issues_id (req : request) : M final_body :=
  u ← verifyToken req;
  try_catch
    (let id := param req in
     oid_ ← new_ObjectId id;
     found ← Collection.findOne issuesCollection [("_id", oid_)];
     issue ← match found with
             | Some i => mret i
             | None => send (fail 404 (message "Issue not found"))
             end;
     found ← Collection.findOne usersCollection [("email", str (email u))];
     dbUser ← match found with
              | Some x => mret x
              | None => send (fail 403 (message "Forbidden"))
              end;
     (if is_string (dbUser !! "role") "citizen" || is_string (dbUser !! "role") "user" then
        when (negb (is_string (issue !! "reporterEmail") (email u)))
          (send (fail 403 (message "Forbidden: Not your issue")))
      else if is_string (dbUser !! "role") "staff" then
        when (negb (is_string (issue !! "assignedStaff") (email u)))
          (send (fail 403 (message "Forbidden: Not assigned to you")))
      else mret ());;
     (* admin allowed *)
     mret (issue_found issue))
    (λ err, send (fail 500 (error err))).

(** [GET /users/membership/:email]: get membership status. *)
Definition get_users_membership (req : request) : M final_body :=
  u ← verifyToken req;
  let email_ := param req in
  when (negb (String.eqb (email u) email_))
    (send (fail 403 (message "Unauthorized")));;
  found ← Collection.findOne usersCollection [("email", str email_)];
  mret (membership_status
          (if truthy (optional found "premium") then "premium" else "free")).

(** [POST /payment/premium/verify]: verify payment + mark user as
    premium. *)
Definition post_payment_premium_verify (req : request) : M final_body :=
  u ← verifyToken req;
  try_catch
    (paid ← match body req !! "transactionId", body req !! "amount" with
            | Some transactionId, Some amount =>
                if negb (truthy_json transactionId) || negb (truthy_json amount)
                then send (fail 400 (message "Missing transactionId or amount"))
                else mret (transactionId, amount)
            | _, _ => send (fail 400 (message "Missing transactionId or amount"))
            end;
     (* save payment record *)
     Collection.insertOne paymentsCollection
       {[ "type" := str "premium"; "email" := str (email u);
          "amount" := VJson paid.2; "transactionId" := VJson paid.1;
          "date" := VDate (clock req) ]};;
     (* activate premium *)
     Collection.updateOne usersCollection [("email", str (email u))]
       [op_set {[ "premium" := boolean true ]}];;
     mret premium_activated)
    (λ err, send (fail 500 (error err))).

(** Every route behind [verifyToken] answers [resp] and leaves the
    database as it is. *)
Definition every_route_answers (req : request) (s : db) (resp : response) : Prop :=
  (∀ rt, dispatch rt req s = (Sent resp, s))
  ∧ patch_users_profile req s = (Sent resp, s)
  ∧ patch_users_make_admin req s = (Sent resp, s)
  ∧ patch_users_make_staff req s = (Sent resp, s)
  ∧ patch_users_block req s = (Sent resp, s)
  ∧ patch_users_premium req s = (Sent resp, s)
  ∧ patch_users_role req s = (Sent resp, s)
  ∧ get_issues_id req s = (Sent resp, s)
  ∧ get_users_membership req s = (Sent resp, s)
  ∧ post_payment_premium_verify req s = (Sent resp, s).

End Accounts.


(** ** A sample deployment

    A concrete identity provider, ObjectId parser and database, on which
    the handlers are run. *)

Module Sample.

(** [new ObjectId(id)] of the current driver: 24 hex digits, read
    case-insensitively. *)
Definition hex_digit (c : ascii) : option ascii :=
  let n := nat_of_ascii c in
  if ((48 <=? n) && (n <=? 57))%nat then Some c
  else if ((97 <=? n) && (n <=? 102))%nat then Some c
  else if ((65 <=? n) && (n <=? 70))%nat then Some (ascii_of_nat (n + 32))
  else None.

Fixpoint hex_string (s : string) : option string :=
  match s with
  | EmptyString => Some EmptyString
  | String c r =>
      match hex_digit c, hex_string r with
      | Some c', Some r' => Some (String c' r')
      | _, _ => None
      end
  end.

Definition hex24 (s : string) : option oid :=
  if (String.length s =? 24)%nat then hex_string s else None.

Definition identity (e name : string) : decoded :=
  {| d_email := e; d_uid := "uid-" +:+ name; d_name := Some name; d_picture := None |}.

Definition tokens (token : string) : option decoded :=
  if String.eqb token "tok-alice" then Some (identity "alice@city.example" "alice")
  else if String.eqb token "tok-bob" then Some (identity "bob@city.example" "bob")
  else if String.eqb token "tok-carol" then Some (identity "carol@city.example" "carol")
  else if String.eqb token "tok-root" then Some (identity "root@city.example" "root")
  else None.

Definition platform : Platform :=
  {| verifyIdToken := tokens;
     ObjectId := hex24;
     Date_toString := λ _, "Thu Jan 01 1970 00:00:00 GMT+0000" |}.

Definition user_doc (e r : string) (premium : bool) : doc :=
  {[ "email" := str e; "name" := str ""; "image" := str ""; "role" := str r;
     "premium" := boolean premium; "isBlocked" := boolean false;
     "hasPassword" := boolean false; "createdAt" := VDate 1000 ]}.

Definition issue_doc (id reporter st : string) (assigned : option string)
    (voters : list string) : doc :=
  let d : doc :=
    {[ "_id" := VOid id; "title" := str "Pothole"; "reporterEmail" := str reporter;
       "userEmail" := str reporter; "status" := str st; "priority" := str "normal";
       "reportedAt" := VDate 2000; "upvotes" := num (Z.of_nat (length voters));
       "upvoters" := VJson (JArr (JStr <$> voters)); "isHidden" := boolean false ]} in
  match assigned with
  | Some a => <["assignedStaff" := str a]> d
  | None => d
  end.

Definition id1 := "64b000000000000000000001".
Definition id2 := "64b000000000000000000002".
Definition id3 := "64b000000000000000000003".
Definition id4 := "64b000000000000000000004".
Definition id9 := "64b000000000000000000009".

(** alice and bob are citizens (bob is premium), carol is staff and root
    is an admin; alice reported three issues and root one. *)
Definition city : db :=
  {| users := [ user_doc "alice@city.example" "citizen" false;
                user_doc "bob@city.example" "citizen" true;
                user_doc "carol@city.example" "staff" false;
                user_doc "root@city.example" "admin" false ];
     issues := [ issue_doc id1 "alice@city.example" "pending" None ["bob@city.example"];
                 issue_doc id2 "alice@city.example" "in-progress"
                   (Some "carol@city.example") [];
                 issue_doc id3 "alice@city.example" "resolved"
                   (Some "carol@city.example") [];
                 issue_doc id4 "root@city.example" "resolved" None [] ];
     timeline := [];
     payments := [] |}.

Definition request_of (token id : string) (b : jbody) : request :=
  {| authorization := Some ("Bearer " +:+ token); param := id; body := b;
     clock := 3000; generated := id9 |}.

Definition caller (e name r : string) (premium : bool) : user :=
  {| email := e; uid := "uid-" +:+ name; role := Some (str r);
     isBlocked := boolean false; isPremium := boolean premium |}.

Definition alice := caller "alice@city.example" "alice" "citizen" false.
Definition bob := caller "bob@city.example" "bob" "citizen" true.
Definition carol := caller "carol@city.example" "carol" "staff" false.
Definition root := caller "root@city.example" "root" "admin" false.

(** bob creates an issue and supplies lifecycle fields himself. *)
Definition eager_body : jbody :=
  {[ "title" := JStr "Broken streetlight"; "status" := JStr "closed";
     "priority" := JStr "high"; "upvotes" := JNum 7 ]}.

Definition after_eager_create : outcome unit * db :=
  @post_issues platform (request_of "tok-bob" "" eager_body) city.

(** alice edits her pending issue and names another reporter. *)
Definition handover_body : jbody :=
  {[ "reporterEmail" := JStr "bob@city.example" ]}.

Definition after_handover : outcome unit * db :=
  @patch_issues_edit platform (request_of "tok-alice" id1 handover_body) city.

End Sample.

(** ** Vocabulary of the specification *)

(** The lifecycle flow pending → in-progress → resolved → closed. *)
Inductive flow_step : string → string → Prop :=
| pending_to_in_progress : flow_step "pending" "in-progress"
| in_progress_to_resolved : flow_step "in-progress" "resolved"
| resolved_to_closed : flow_step "resolved" "closed".


(** The issues a user reported, and those of them still open (status
    neither closed nor deleted). *)
Definition owned_by (e : string) (d : doc) : bool :=
  is_string (d !! "reporterEmail") e.

Definition open_status (d : doc) : bool :=
  negb (is_string (d !! "status") "closed")
  && negb (is_string (d !! "status") "deleted").

Definition count_owned (e : string) (c : list doc) : nat :=
  length (List.filter (owned_by e) c).

Definition count_open (e : string) (c : list doc) : nat :=
  length (List.filter (λ d, owned_by e d && open_status d) c).

(** A field of a new issue: what the client supplied when that is truthy,
    the default otherwise. *)
Definition supplied_or (x : option json) (d : value) : value :=
  match x with
  | Some j => if truthy_json j then VJson j else d
  | None => d
  end.

(** The document [POST /issues] hands to [insertOne]. *)
Definition new_issue (req : request) (u : user) : doc :=
  <["isHidden" := boolean false]>
    (<["upvoters" := supplied_or (body req !! "upvoters") (VJson (JArr []))]>
       (<["upvotes" := supplied_or (body req !! "upvotes") (num 0)]>
          (<["reportedAt" := VDate (clock req)]>
             (<["priority" := supplied_or (body req !! "priority") (str "normal")]>
                (<["status" := supplied_or (body req !! "status") (str "pending")]>
                   (<["userEmail" := str (email u)]>
                      (<["reporterEmail" := str (email u)]>
                         (VJson <$> body req)))))))).

(** The payment document [POST /issues/:id/boost] records. *)
Definition boost_payment (req : request) (u : user) (paymentId amount : json) : doc :=
  {[ "issueId" := str (param req); "userEmail" := str (email u);
     "paymentId" := VJson paymentId; "amount" := VJson amount;
     "purpose" := str "issue_boost"; "date" := VDate (clock req) ]}.

(** A user record whose email and role are strings, as every route that
    writes [users] from a verified token leaves them. *)
Definition scalar_user (d : doc) : Prop :=
  ∃ e r, d !! "email" = Some (str e) ∧ d !! "role" = Some (str r).

(** [_id] is unique within [issues], as the store's index guarantees. *)
Definition unique_ids (c : list doc) : Prop := NoDup ((.!! "_id") <$> c).

(** Every issue that exists before and after, identified by its [_id],
    has the reporterEmail it had. *)
Definition reporters_kept (c c' : list doc) : Prop :=
  ∀ o d d',
    find_first [("_id", VOid o)] c = Some d →
    find_first [("_id", VOid o)] c' = Some d' →
    d' !! "reporterEmail" = d !! "reporterEmail".

(** An update that leaves [_id] and reporterEmail alone. *)
Definition keeps_reporter (u : list operator) : Prop :=
  ∀ d d', apply_update u d = Some d' →
          d' !! "_id" = d !! "_id" ∧ d' !! "reporterEmail" = d !! "reporterEmail".

(** The writes to [issues] a run of a route other than the edit makes:
    none, one update by [_id] that keeps reporterEmail, one delete by
    [_id], or one insert. *)
Inductive issues_write (c : list doc) : list doc → Prop :=
| write_none : issues_write c c
| write_update o u c' r :
    update_first [("_id", VOid o)] u c = Some (c', r) → keeps_reporter u →
    issues_write c c'
| write_delete o : issues_write c (delete_first [("_id", VOid o)] c).1
| write_insert fresh d c' i :
    insert_doc fresh d c = Some (c', i) → issues_write c c'.

(** What a committed status update leaves behind. *)
Definition status_committed (req : request) (u : user) (st : json)
    (pre : list doc) (issue : doc) (post : list doc) (s1 : db) : outcome unit * db :=
  let issue' : doc := {["status" := VJson st]} ∪ issue in
  (Sent (ok (success_result
               {| matchedCount := 1;
                  modifiedCount := if bool_decide (issue' = issue) then 0 else 1 |}%nat)),
   set_timeline
     (timeline s1 ++
      [timeline_entry (str (param req)) (VJson st)
         (or_default (VJson <$> body req !! "note")
            (str ("Status changed to " +:+ json_to_string st)))
         (email u) (clock req)])
     (set_issues (pre ++ issue' :: post) s1)).

(** ** Vocabulary of the further properties *)

(** The user record [verifyToken] inserts on first sight of an email. *)
Definition provisioned (d : decoded) (t : Z) : doc :=
  {[ "email" := str (d_email d);
     "name" := str (string_or_empty (d_name d));
     "image" := str (string_or_empty (d_picture d));
     "role" := str "citizen";
     "premium" := boolean false;
     "isBlocked" := boolean false;
     "hasPassword" := boolean false;
     "createdAt" := VDate t ]}.

(** The payment document [POST /payment/premium/verify] records. *)
Definition premium_payment (req : request) (u : user) (transactionId amount : json) : doc :=
  {[ "type" := str "premium"; "email" := str (email u);
     "amount" := VJson amount; "transactionId" := VJson transactionId;
     "date" := VDate (clock req) ]}.

(** ** Facts about the store *)

Lemma find_first_app q c x :
  find_first q (c ++ [x]) =
  match find_first q c with
  | Some d => Some d
  | None => if matches q x then Some x else None
  end.
Proof.
  unfold find_first. induction c as [|d c IH]; simpl.
  - reflexivity.
  - destruct (matches q d); [reflexivity | exact IH].
Qed.

Lemma matches_id o d :
  matches [("_id", VOid o)] d = bool_decide (d !! "_id" = Some (VOid o)).
Proof.
  unfold matches, field_eq; simpl. rewrite andb_true_r.
  destruct (d !! "_id") as [v|] eqn:E.
  - destruct v as [j| |]; try destruct j; rewrite ?orb_false_r;
      apply bool_decide_ext; split; congruence.
  - symmetry. apply bool_decide_eq_false_2. discriminate.
Qed.

Lemma matches_string k e d :
  d !! k = Some (str e) → matches [(k, str e)] d = true.
Proof.
  intros H. unfold matches, field_eq; simpl. rewrite H.
  rewrite bool_decide_eq_true_2 by reflexivity. reflexivity.
Qed.

(** The first match, with the documents before it. *)
Lemma find_first_split q c d :
  find_first q c = Some d →
  ∃ pre post, c = pre ++ d :: post
              ∧ find_first q pre = None ∧ matches q d = true.
Proof.
  unfold find_first. induction c as [|x c IH]; simpl; [discriminate|].
  destruct (matches q x) eqn:E.
  - intros [= ->]. exists [], c. auto.
  - intros H. destruct (IH H) as (pre & post & -> & Hpre & Hd).
    exists (x :: pre), post. simpl. rewrite E. auto.
Qed.

Lemma find_first_at q pre d post :
  find_first q pre = None → matches q d = true →
  find_first q (pre ++ d :: post) = Some d.
Proof.
  unfold find_first. induction pre as [|x pre IH]; simpl; intros Hpre Hd.
  - rewrite Hd. reflexivity.
  - destruct (matches q x); [discriminate | auto].
Qed.

Lemma find_first_skip q pre d post :
  matches q d = false →
  find_first q (pre ++ d :: post) = find_first q (pre ++ post).
Proof.
  unfold find_first. intros Hd. induction pre as [|x pre IH]; simpl.
  - rewrite Hd. reflexivity.
  - destruct (matches q x); [reflexivity | exact IH].
Qed.

Lemma update_first_at q u pre d post :
  find_first q pre = None → matches q d = true →
  update_first q u (pre ++ d :: post) =
  d' ← apply_update u d;
  Some (pre ++ d' :: post,
        {| matchedCount := 1;
           modifiedCount := if bool_decide (d' = d) then 0 else 1 |}%nat).
Proof.
  unfold find_first. induction pre as [|x pre IH]; simpl; intros Hpre Hd.
  - rewrite Hd. reflexivity.
  - destruct (matches q x); [discriminate|].
    rewrite (IH Hpre Hd). destruct (apply_update u d); reflexivity.
Qed.

Lemma update_first_none q u c :
  find_first q c = None →
  update_first q u c = Some (c, {| matchedCount := 0; modifiedCount := 0 |}).
Proof.
  unfold find_first. induction c as [|x c IH]; simpl; intros H.
  - reflexivity.
  - destruct (matches q x); [discriminate|]. rewrite (IH H). reflexivity.
Qed.

Lemma delete_first_none q c :
  find_first q c = None → delete_first q c = (c, 0%nat).
Proof.
  unfold find_first. induction c as [|x c IH]; simpl; intros Hc.
  - reflexivity.
  - destruct (matches q x); [discriminate|]. rewrite (IH Hc). reflexivity.
Qed.

Lemma delete_first_at q pre d post :
  find_first q pre = None → matches q d = true →
  delete_first q (pre ++ d :: post) = (pre ++ post, 1%nat).
Proof.
  unfold find_first. induction pre as [|x pre IH]; simpl; intros Hpre Hd.
  - rewrite Hd. reflexivity.
  - destruct (matches q x); [discriminate|]. rewrite (IH Hpre Hd). reflexivity.
Qed.

(** ** Properties of the handlers *)

Section Properties.
Context `{Platform}.

Ltac monad_unfold :=
  unfold when, new_ObjectId, flow_includes,
    Collection.findOne, Collection.countDocuments, Collection.updateOne,
    Collection.deleteOne, Collection.insertOne, Collection.insertOne_id in *;
  unfold mbind, M_bind, mret, M_ret, send, throw, try_catch in *.

(** What an authenticated request leaves behind: the caller has a user
    record, [req.user] mirrors it, and only [users] may have grown. *)
Lemma verifyToken_inv req s u s1 :
  verifyToken req s = (Val u, s1) →
  issues s1 = issues s ∧ timeline s1 = timeline s ∧ payments s1 = payments s
  ∧ ∃ dbUser,
      find_first [("email", str (email u))] (users s1) = Some dbUser
      ∧ role u = dbUser !! "role"
      ∧ isBlocked u = or_default (dbUser !! "isBlocked") (boolean false)
      ∧ isPremium u = or_default (dbUser !! "premium") (boolean false).
Proof.
  unfold verifyToken. monad_unfold.
  destruct (authorization req) as [header|]. 2: by intros E; discriminate E.
  destruct (String.prefix "Bearer " header); simpl; [|by intros E; discriminate E].
  destruct (split_on " " header !! 1%nat) as [token|]; [|by simpl; intros E; discriminate E].
  destruct (verifyIdToken token) as [d|]; [|by simpl; intros E; discriminate E].
  simpl. destruct (find_first _ (users s)) as [dbUser|] eqn:Efind; simpl.
  - intros [= <- <-]. repeat split; try reflexivity.
    exists dbUser. simpl. auto.
  - intros [= <- <-]. repeat split; try reflexivity.
    eexists. simpl. rewrite find_first_app, Efind.
    rewrite matches_string by reflexivity. repeat split; reflexivity.
Qed.

Lemma matches_single_ext k v (d d' : doc) :
  d !! k = d' !! k → matches [(k, v)] d = matches [(k, v)] d'.
Proof. intros E. unfold matches; simpl. rewrite E. reflexivity. Qed.

Lemma apply_set fields (d : doc) :
  forallb plain_key (map_to_list fields).*1 = true →
  fields !! "_id" = None →
  apply_update [op_set fields] d = Some (fields ∪ d).
Proof. intros Hk Hid. simpl. rewrite Hk, Hid. reflexivity. Qed.

(** C9: on the role-lookup route, an authenticated requester whose email
    differs from the target email gets a success response carrying the
    role "citizen", whatever the database holds: neither the requester's
    stored role nor the target's stored role reaches the response, and
    the handler writes nothing. *)
Theorem role_of_another_user_is_citizen req s u s1 :
  verifyToken req s = (Val u, s1) →
  email u ≠ param req →
  get_users_role req s = (Sent (ok (role_is (str "citizen"))), s1).
Proof.
  intros Hauth Hne. unfold get_users_role. monad_unfold.
  rewrite Hauth. apply String.eqb_neq in Hne. rewrite Hne. reflexivity.
Qed.

(** C10: on the membership-update route, when the requester is the target
    and the body carries a (truthy) status, the update succeeds and the
    caller's premium flag becomes true if the status is the string
    "premium" and false for every other status, whatever the flag was:
    the route unsets a premium flag, so the flag is not monotonic. *)
Theorem membership_update_sets_premium_from_status req s u s1 st :
  verifyToken req s = (Val u, s1) →
  email u = param req →
  body req !! "status" = Some st →
  truthy_json st = true →
  ∃ result s2,
    patch_users_membership req s = (Sent (ok (success_result result)), s2)
    ∧ (st = JStr "premium" →
       optional (find_first [("email", str (email u))] (users s2)) "premium"
       = Some (boolean true))
    ∧ (st ≠ JStr "premium" →
       optional (find_first [("email", str (email u))] (users s2)) "premium"
       = Some (boolean false))
    ∧ issues s2 = issues s ∧ timeline s2 = timeline s ∧ payments s2 = payments s.
Proof.
  intros Hauth Hself Hst Htruthy.
  destruct (verifyToken_inv _ _ _ _ Hauth) as (Hi & Ht & Hp & dbUser & Hfind & _).
  destruct (find_first_split _ _ _ Hfind) as (pre & post & Husers & Hpre & Hm).
  unfold patch_users_membership. monad_unfold.
  rewrite Hauth, Hst. unfold truthy_body. rewrite Htruthy. simpl.
  rewrite <- Hself, String.eqb_refl. simpl.
  rewrite Husers, (update_first_at _ _ _ _ _ Hpre Hm).
  rewrite apply_set by reflexivity. simpl.
  set (flag := boolean (bool_decide (Some st = Some (JStr "premium")))).
  assert (Hafter :
    optional (find_first [("email", str (email u))]
                (pre ++ ({["premium" := flag]} ∪ dbUser) :: post)) "premium"
    = Some flag).
  { rewrite find_first_at; [| exact Hpre |].
    - simpl. apply lookup_union_Some_l, lookup_singleton_eq.
    - etransitivity; [|exact Hm]. apply matches_single_ext.
      apply lookup_union_r. reflexivity. }
  eexists _, _. split; [reflexivity|]. simpl.
  repeat split; try assumption.
  - intros ->. rewrite Hafter. reflexivity.
  - intros Hn. rewrite Hafter. unfold flag.
    rewrite bool_decide_eq_false_2 by congruence. reflexivity.
Qed.

(** *** Status update *)

(** The handler as a decision list, for a request that carries a status
    and names an existing issue. *)
Lemma patch_issues_status_unfold req s u s1 st o pre issue post :
  verifyToken req s = (Val u, s1) →
  body req !! "status" = Some st → truthy_json st = true →
  ObjectId (param req) = Some o →
  issues s1 = pre ++ issue :: post →
  find_first [("_id", VOid o)] pre = None →
  matches [("_id", VOid o)] issue = true →
  patch_issues_status req s =
  if is_string (role u) "citizen" || is_string (role u) "user" then
    (Sent (fail 403 (message "Forbidden: Citizens cannot update status")), s1)
  else if is_string (role u) "staff"
          && negb (is_string (issue !! "assignedStaff") (email u)) then
    (Sent (fail 403 (message "Forbidden: Not assigned to you")), s1)
  else if is_string (role u) "staff" then
    match flow_or_empty (to_string (issue !! "status")) with
    | inherited_member => (Sent (fail 500 (error TypeError)), s1)
    | next_states l =>
        if match st with JStr t => bool_decide (t ∈ l) | _ => false end
        then status_committed req u st pre issue post s1
        else (Sent (fail 400 (message
                ("Invalid status update. Allowed: "
                 +:+ to_string (issue !! "status") +:+ " → " +:+ join_or_none l))), s1)
    end
  else status_committed req u st pre issue post s1.
Proof.
  intros Hauth Hst Htruthy Hid Hissues Hpre Hm.
  destruct (verifyToken_inv _ _ _ _ Hauth) as (_ & _ & _ & dbUser & Hfind & Hrole & _).
  unfold patch_issues_status, status_committed. monad_unfold.
  rewrite Hauth, Hst, Htruthy, Hid. simpl.
  rewrite Hissues, (find_first_at _ _ _ _ Hpre Hm), Hfind. simpl.
  rewrite <- Hrole.
  destruct (is_string (role u) "citizen" || is_string (role u) "user"); simpl;
    [reflexivity|].
  destruct (is_string (role u) "staff"); simpl.
  - destruct (is_string (issue !! "assignedStaff") (email u)); simpl; [|reflexivity].
    unfold flow_includes.
    destruct (flow_or_empty (to_string (issue !! "status"))) as [l|]; simpl;
      [|reflexivity].
    destruct (match st with JStr t => bool_decide (t ∈ l) | _ => false end); simpl;
      [|reflexivity].
    rewrite Hissues, (update_first_at _ _ _ _ _ Hpre Hm).
    rewrite apply_set by reflexivity. reflexivity.
  - rewrite Hissues, (update_first_at _ _ _ _ _ Hpre Hm).
    rewrite apply_set by reflexivity. reflexivity.
Qed.

Lemma not_is_string x t : x ≠ Some (str t) → is_string x t = false.
Proof. intros Hne. unfold is_string. apply bool_decide_eq_false_2. exact Hne. Qed.

Lemma is_string_true x t : x = Some (str t) → is_string x t = true.
Proof. intros ->. unfold is_string. apply bool_decide_eq_true_2. reflexivity. Qed.

Lemma matches_id_after_set fields o (d : doc) :
  fields !! "_id" = None →
  matches [("_id", VOid o)] (fields ∪ d) = matches [("_id", VOid o)] d.
Proof. intros Hid. apply matches_single_ext, lookup_union_r, Hid. Qed.



(** *** Upvote *)

(** The handler as a decision list, for a request that names an existing
    issue. *)
Lemma patch_issues_upvote_unfold req s u s1 o pre issue post :
  verifyToken req s = (Val u, s1) →
  ObjectId (param req) = Some o →
  issues s1 = pre ++ issue :: post →
  find_first [("_id", VOid o)] pre = None →
  matches [("_id", VOid o)] issue = true →
  patch_issues_upvote req s =
  if is_string (issue !! "reporterEmail") (email u) then
    (Sent (fail 403 (message "You cannot upvote your own issue")), s1)
  else
    match optional_includes (issue !! "upvoters") (email u) with
    | includes_yes =>
        (Sent (fail 400 (message "You already upvoted this issue")), s1)
    | includes_not_a_function => (Sent (fail 500 (error TypeError)), s1)
    | includes_no =>
        match apply_update [op_inc "upvotes" 1; op_push "upvoters" (JStr (email u))]
                issue with
        | Some issue' =>
            (Sent (ok (success_modified
                         (if bool_decide (issue' = issue) then 0 else 1)%nat)),
             set_issues (pre ++ issue' :: post) s1)
        | None => (Sent (fail 500 (error MongoServerError)), s1)
        end
    end.
Proof.
  intros Hauth Hid Hissues Hpre Hm.
  remember (apply_update [op_inc "upvotes" 1; op_push "upvoters" (JStr (email u))]
              issue) as upd eqn:Hupd.
  unfold patch_issues_upvote. monad_unfold.
  rewrite Hauth, Hid. simpl.
  rewrite Hissues, (find_first_at _ _ _ _ Hpre Hm). simpl.
  destruct (is_string (issue !! "reporterEmail") (email u)); simpl; [reflexivity|].
  destruct (optional_includes (issue !! "upvoters") (email u)); simpl;
    try reflexivity.
  rewrite Hissues, (update_first_at _ _ _ _ _ Hpre Hm), <- Hupd.
  destruct upd as [issue'|]; reflexivity.
Qed.



(** *** Creation *)

Lemma truthy_or_false x :
  truthy (Some (or_default x (boolean false))) = truthy x.
Proof.
  destruct x as [v|]; [|reflexivity].
  unfold or_default. destruct (truthy (Some v)) eqn:E; [exact E | reflexivity].
Qed.

Lemma or_default_supplied (x : option json) d :
  or_default (VJson <$> x) d = supplied_or x d.
Proof. destruct x as [j|]; reflexivity. Qed.

Lemma filter_length_le {A} (p q : A → bool) (c : list A) :
  (∀ d, p d = true → q d = true) →
  (length (List.filter p c) ≤ length (List.filter q c))%nat.
Proof.
  intros Hpq. induction c as [|d c IH]; simpl; [lia|].
  destruct (p d) eqn:Ep.
  - rewrite (Hpq d Ep). simpl. lia.
  - destruct (q d); simpl; lia.
Qed.

Lemma owned_is_counted e (c : list doc) :
  (count_owned e c ≤ count_matching [("reporterEmail", str e)] c)%nat.
Proof.
  apply filter_length_le. intros d Hd. apply matches_string.
  unfold is_string in Hd. apply bool_decide_eq_true_1 in Hd. exact Hd.
Qed.

Lemma open_is_owned e (c : list doc) :
  (count_open e c ≤ count_owned e c)%nat.
Proof.
  apply filter_length_le. intros d Hd.
  apply andb_true_iff in Hd as [Hd _]. exact Hd.
Qed.

(** The handler as a decision list, for an authenticated caller that is
    not blocked. *)
Lemma post_issues_unfold req s u s1 :
  verifyToken req s = (Val u, s1) →
  truthy (Some (isBlocked u)) = false →
  post_issues req s =
  if negb (truthy (Some (isPremium u)))
     && bool_decide (3 ≤ count_matching [("reporterEmail", str (email u))] (issues s1))%nat
  then (Sent (fail 403 (message "Free user limit reached. Upgrade to premium.")), s1)
  else
    match insert_doc (generated req) (new_issue req u) (issues s1) with
    | Some (c', i) =>
        (Sent (ok (inserted i)),
         set_timeline
           (timeline s1 ++
            [timeline_entry (str (to_string (Some i)))
               (supplied_or (body req !! "status") (str "pending"))
               (str "Issue reported") (email u) (clock req)])
           (set_issues c' s1))
    | None => (Sent (fail 500 (error MongoServerError)), s1)
    end.
Proof.
  intros Hauth Hnb.
  destruct (verifyToken_inv _ _ _ _ Hauth) as (_ & _ & _ & dbUser & Hfind & _ & _ & Hprem).
  rewrite Hprem, truthy_or_false.
  unfold post_issues, checkBlocked. monad_unfold.
  rewrite Hauth, Hnb. simpl. rewrite Hfind. simpl.
  destruct (negb (truthy (dbUser !! "premium")) && _); simpl; [reflexivity|].
  repeat (rewrite lookup_insert_ne by done).
  rewrite !lookup_fmap, !or_default_supplied.
  change (<["isHidden" := _]> _) with (new_issue req u).
  destruct (insert_doc _ _ _) as [[c' i]|]; reflexivity.
Qed.

(** C3: issue creation by an authenticated caller that is not blocked.  A
    caller that is not premium and already has three or more open issues
    (status neither closed nor deleted) is refused with the quota message
    and nothing is written; so is a caller that is not premium and has
    exactly three issues; and a premium caller never gets the quota
    refusal. *)
Theorem creation_quota req s u s1 :
  verifyToken req s = (Val u, s1) →
  truthy (Some (isBlocked u)) = false →
  let quota_exceeded :=
    (Sent (fail 403 (message "Free user limit reached. Upgrade to premium.")), s1) in
  (truthy (Some (isPremium u)) = false →
   (3 ≤ count_open (email u) (issues s1))%nat →
   post_issues req s = quota_exceeded)
  ∧ (truthy (Some (isPremium u)) = false →
     count_owned (email u) (issues s1) = 3%nat →
     post_issues req s = quota_exceeded)
  ∧ (truthy (Some (isPremium u)) = true →
     ∀ r s2, post_issues req s = (Sent r, s2) →
             status r ≠ 403%nat
             ∧ sent r ≠ message "Free user limit reached. Upgrade to premium.").
Proof.
  intros Hauth Hnb quota_exceeded.
  rewrite (post_issues_unfold _ _ _ _ Hauth Hnb).
  pose proof (owned_is_counted (email u) (issues s1)) as Hcount.
  pose proof (open_is_owned (email u) (issues s1)) as Hopen.
  split; [|split].
  - intros -> H3. simpl. rewrite bool_decide_eq_true_2 by lia. reflexivity.
  - intros -> H3. simpl. rewrite bool_decide_eq_true_2 by lia. reflexivity.
  - intros -> r s2. simpl.
    destruct (insert_doc _ _ _) as [[c' i]|]; intros [= <- <-]; simpl;
      split; discriminate.
Qed.

Lemma with_id_lookup_ne fresh (d : doc) k :
  k ≠ "_id" → with_id fresh d !! k = d !! k.
Proof.
  intros Hk. unfold with_id.
  destruct (d !! "_id") as [[[]| |]|]; try reflexivity;
    apply lookup_insert_ne; congruence.
Qed.

Lemma insert_doc_inv fresh d c c' i :
  insert_doc fresh d c = Some (c', i) →
  c' = c ++ [with_id fresh d] ∧ with_id fresh d !! "_id" = Some i
  ∧ Forall (λ e, e !! "_id" ≠ Some i) c.
Proof.
  unfold insert_doc.
  destruct (with_id fresh d !! "_id") as [v|] eqn:E; [|discriminate].
  assert (Hgo :
    (if existsb (λ e : doc, bool_decide (e !! "_id" = Some v)) c
     then None else Some (c ++ [with_id fresh d], v)) = Some (c', i) →
    c' = c ++ [with_id fresh d] ∧ Some v = Some i
    ∧ Forall (λ e, e !! "_id" ≠ Some i) c).
  { destruct (existsb _ c) eqn:Ex; [discriminate|].
    intros [= <- <-]. split; [reflexivity|]. split; [reflexivity|].
    apply Forall_forall. intros e He Heq.
    assert (existsb (λ e : doc, bool_decide (e !! "_id" = Some v)) c = true)
      as Ht; [|congruence].
    apply existsb_exists. exists e. split.
    - apply list_elem_of_In, He.
    - apply bool_decide_eq_true_2, Heq. }
  destruct v as [[]| |]; try exact Hgo; discriminate.
Qed.

(** C4, as the code has it: every successful creation appends one issue
    whose status, priority, upvotes and upvoters are the client's values
    when these are truthy and pending, normal, 0 and [] otherwise, whose
    reportedAt is the server's clock, whose reporterEmail is the caller and
    whose isHidden is false; and it appends exactly one timeline entry,
    for the new issue's id, with the stored status and the message
    "Issue reported". *)
Theorem creation_stores_supplied_or_default req s u s1 r s2 :
  verifyToken req s = (Val u, s1) →
  truthy (Some (isBlocked u)) = false →
  post_issues req s = (Sent r, s2) →
  status r = 200%nat →
  ∃ issue insertedId,
    sent r = inserted insertedId
    ∧ issues s2 = issues s1 ++ [issue]
    ∧ issue !! "_id" = Some insertedId
    ∧ issue !! "status"
      = Some (supplied_or (body req !! "status") (str "pending"))
    ∧ issue !! "priority"
      = Some (supplied_or (body req !! "priority") (str "normal"))
    ∧ issue !! "upvotes"
      = Some (supplied_or (body req !! "upvotes") (num 0))
    ∧ issue !! "upvoters"
      = Some (supplied_or (body req !! "upvoters") (VJson (JArr [])))
    ∧ issue !! "reportedAt" = Some (VDate (clock req))
    ∧ issue !! "reporterEmail" = Some (str (email u))
    ∧ issue !! "isHidden" = Some (boolean false)
    ∧ timeline s2
      = timeline s1
        ++ [timeline_entry (str (to_string (Some insertedId)))
              (supplied_or (body req !! "status") (str "pending"))
              (str "Issue reported") (email u) (clock req)]
    ∧ users s2 = users s1 ∧ payments s2 = payments s1.
Proof.
  intros Hauth Hnb Hrun Hok.
  rewrite (post_issues_unfold _ _ _ _ Hauth Hnb) in Hrun.
  destruct (negb _ && _); [injection Hrun as <- <-; discriminate|].
  destruct (insert_doc _ _ _) as [[c' i]|] eqn:Hins;
    [|injection Hrun as <- <-; discriminate].
  injection Hrun as <- <-.
  destruct (insert_doc_inv _ _ _ _ _ Hins) as (-> & Hid & _).
  exists (with_id (generated req) (new_issue req u)), i. simpl.
  split; [reflexivity|]. split; [reflexivity|]. split; [exact Hid|].
  rewrite !with_id_lookup_ne by done. unfold new_issue.
  repeat (split; [repeat (rewrite lookup_insert_ne by done);
                  apply lookup_insert_eq|]).
  repeat split; reflexivity.
Qed.

(** *** Boost *)

(** The handler as a decision list, for a caller that is not blocked, a
    body with paymentId and amount, and an existing issue. *)
Lemma post_issues_boost_unfold req s u s1 p a o pre issue post :
  verifyToken req s = (Val u, s1) →
  truthy (Some (isBlocked u)) = false →
  body req !! "paymentId" = Some p → truthy_json p = true →
  body req !! "amount" = Some a → truthy_json a = true →
  ObjectId (param req) = Some o →
  issues s1 = pre ++ issue :: post →
  find_first [("_id", VOid o)] pre = None →
  matches [("_id", VOid o)] issue = true →
  post_issues_boost req s =
  if truthy (issue !! "isBoosted") || is_string (issue !! "priority") "high" then
    (Sent (fail 400 (message "Issue already boosted")), s1)
  else
    let issue' : doc :=
      {["priority" := str "high"; "isBoosted" := boolean true]} ∪ issue in
    (Sent (ok (success_result
                 {| matchedCount := 1;
                    modifiedCount := if bool_decide (issue' = issue) then 0 else 1 |}%nat)),
     set_timeline
       (timeline s1 ++
        [timeline_entry (str (param req)) (str "boosted")
           (str "Priority boosted via payment") (email u) (clock req)])
       (set_issues (pre ++ issue' :: post)
          (set_payments
             (payments s1 ++ [boost_payment req u p a]) s1))).
Proof.
  intros Hauth Hnb Hp Htp Ha Hta Hid Hissues Hpre Hm.
  unfold post_issues_boost, checkBlocked, boost_payment. monad_unfold.
  rewrite Hauth, Hnb, Hp, Ha, Htp, Hta, Hid. simpl.
  rewrite Hissues, (find_first_at _ _ _ _ Hpre Hm). simpl.
  destruct (truthy (issue !! "isBoosted") || _); simpl; [reflexivity|].
  rewrite Hissues, (update_first_at _ _ _ _ _ Hpre Hm).
  rewrite apply_set by reflexivity. reflexivity.
Qed.

Lemma boost_of_boosted_is_rejected req s u s1 p a o issue :
  verifyToken req s = (Val u, s1) →
  truthy (Some (isBlocked u)) = false →
  body req !! "paymentId" = Some p → truthy_json p = true →
  body req !! "amount" = Some a → truthy_json a = true →
  ObjectId (param req) = Some o →
  find_first [("_id", VOid o)] (issues s1) = Some issue →
  truthy (issue !! "isBoosted") = true ∨ issue !! "priority" = Some (str "high") →
  post_issues_boost req s
  = (Sent (fail 400 (message "Issue already boosted")), s1).
Proof.
  intros Hauth Hnb Hp Htp Ha Hta Hid Hissue Hboosted.
  destruct (find_first_split _ _ _ Hissue) as (pre & post & Hissues & Hpre & Hm).
  rewrite (post_issues_boost_unfold _ _ _ _ _ _ _ _ _ _
             Hauth Hnb Hp Htp Ha Hta Hid Hissues Hpre Hm).
  destruct Hboosted as [-> | Hhigh]; [reflexivity|].
  rewrite (is_string_true _ _ Hhigh), orb_true_r. reflexivity.
Qed.

(** C6: a boost request by a caller that is not blocked, carrying a
    paymentId and an amount, on an existing issue.  It is rejected (400,
    "Issue already boosted") with nothing written whenever isBoosted is
    set or priority is "high".  Otherwise it succeeds: exactly one payment
    with purpose issue_boost is recorded, the issue gets priority high and
    isBoosted true, and one timeline entry is appended; and a second boost
    of the same issue after it is rejected, so the two attempts add exactly
    one payment. *)
Theorem boost_is_idempotent_on_the_flag req s u s1 p a o issue :
  verifyToken req s = (Val u, s1) →
  truthy (Some (isBlocked u)) = false →
  body req !! "paymentId" = Some p → truthy_json p = true →
  body req !! "amount" = Some a → truthy_json a = true →
  ObjectId (param req) = Some o →
  find_first [("_id", VOid o)] (issues s1) = Some issue →
  (truthy (issue !! "isBoosted") = true ∨ issue !! "priority" = Some (str "high") →
   post_issues_boost req s
   = (Sent (fail 400 (message "Issue already boosted")), s1))
  ∧ (truthy (issue !! "isBoosted") = false →
     issue !! "priority" ≠ Some (str "high") →
     ∃ r s2 issue' pay,
       post_issues_boost req s = (Sent r, s2) ∧ status r = 200%nat
       ∧ payments s2 = payments s1 ++ [pay]
       ∧ pay !! "purpose" = Some (str "issue_boost")
       ∧ pay !! "issueId" = Some (str (param req))
       ∧ pay !! "userEmail" = Some (str (email u))
       ∧ pay !! "paymentId" = Some (VJson p)
       ∧ pay !! "amount" = Some (VJson a)
       ∧ find_first [("_id", VOid o)] (issues s2) = Some issue'
       ∧ issue' !! "priority" = Some (str "high")
       ∧ issue' !! "isBoosted" = Some (boolean true)
       ∧ timeline s2
         = timeline s1
           ++ [timeline_entry (str (param req)) (str "boosted")
                 (str "Priority boosted via payment") (email u) (clock req)]
       ∧ ∀ req2 u2 s3 p2 a2,
           verifyToken req2 s2 = (Val u2, s3) →
           truthy (Some (isBlocked u2)) = false →
           body req2 !! "paymentId" = Some p2 → truthy_json p2 = true →
           body req2 !! "amount" = Some a2 → truthy_json a2 = true →
           param req2 = param req →
           post_issues_boost req2 s2
           = (Sent (fail 400 (message "Issue already boosted")), s3)
           ∧ payments s3 = payments s1 ++ [pay]).
Proof.
  intros Hauth Hnb Hp Htp Ha Hta Hid Hissue. split.
  - apply (boost_of_boosted_is_rejected _ _ _ _ _ _ _ _
             Hauth Hnb Hp Htp Ha Hta Hid Hissue).
  - intros Hnotb Hnoth.
    destruct (find_first_split _ _ _ Hissue) as (pre & post & Hissues & Hpre & Hm).
    rewrite (post_issues_boost_unfold _ _ _ _ _ _ _ _ _ _
               Hauth Hnb Hp Htp Ha Hta Hid Hissues Hpre Hm).
    rewrite Hnotb, (not_is_string _ _ Hnoth). simpl.
    set (issue' := ({["priority" := str "high"; "isBoosted" := boolean true]} ∪ issue : doc)).
    assert (Hfound : find_first [("_id", VOid o)] (pre ++ issue' :: post) = Some issue').
    { apply find_first_at; [exact Hpre|]. unfold issue'.
      rewrite matches_id_after_set by reflexivity. exact Hm. }
    assert (Hflag : issue' !! "isBoosted" = Some (boolean true)).
    { apply lookup_union_Some_l. reflexivity. }
    eexists _, _, issue', (boost_payment req u p a).
    split; [reflexivity|]. simpl.
    repeat (split; [reflexivity|]).
    split; [exact Hfound|].
    split; [apply lookup_union_Some_l; reflexivity|].
    split; [exact Hflag|]. split; [reflexivity|].
    intros req2 u2 s3 p2 a2 Hauth2 Hnb2 Hp2 Htp2 Ha2 Hta2 Hsame.
    destruct (verifyToken_inv _ _ _ _ Hauth2) as (Hi3 & _ & Hpay3 & _).
    split.
    + apply (boost_of_boosted_is_rejected _ _ _ _ p2 a2 o issue'
               Hauth2 Hnb2 Hp2 Htp2 Ha2 Hta2).
      * rewrite Hsame. exact Hid.
      * rewrite Hi3. exact Hfound.
      * left. rewrite Hflag. reflexivity.
    + rewrite Hpay3. reflexivity.
Qed.

(** *** Assignment *)

Lemma find_first_exists q (c : list doc) d :
  d ∈ c → matches q d = true → ∃ d', find_first q c = Some d'.
Proof.
  intros Hin Hm. destruct (find_first q c) as [d'|] eqn:E; [eauto|].
  apply list_elem_of_In in Hin.
  rewrite (List.find_none _ _ E d Hin) in Hm. discriminate.
Qed.

Lemma find_first_none q (c : list doc) :
  (∀ d, d ∈ c → matches q d = false) → find_first q c = None.
Proof.
  intros Hall. destruct (find_first q c) as [d|] eqn:E; [|reflexivity].
  apply List.find_some in E as [Hin Hm].
  rewrite (Hall d) in Hm; [discriminate | apply list_elem_of_In, Hin].
Qed.

Lemma matches_staff e (d : doc) :
  d !! "email" = Some (str e) → d !! "role" = Some (str "staff") →
  matches [("email", str e); ("role", str "staff")] d = true.
Proof.
  intros He Hr. unfold matches, field_eq; simpl. rewrite He, Hr.
  rewrite !bool_decide_eq_true_2 by reflexivity. reflexivity.
Qed.

Lemma scalar_matches_staff e (d : doc) :
  scalar_user d →
  matches [("email", str e); ("role", str "staff")] d = true →
  d !! "email" = Some (str e) ∧ d !! "role" = Some (str "staff").
Proof.
  intros (e' & r' & He & Hr). unfold matches, field_eq; simpl.
  rewrite He, Hr, !orb_false_r, andb_true_r. intros Hm.
  apply andb_true_iff in Hm as [H1 H2].
  apply bool_decide_eq_true_1 in H1, H2. split; congruence.
Qed.

(** The handler as a decision list, for an admin, a valid id and a body
    with a staffEmail. *)
Lemma patch_issues_assign_unfold req s u s1 o se :
  verifyToken req s = (Val u, s1) →
  role u = Some (str "admin") →
  ObjectId (param req) = Some o →
  body req !! "staffEmail" = Some se → truthy_json se = true →
  patch_issues_assign req s =
  match find_first [("email", VJson se); ("role", str "staff")] (users s1) with
  | None => (Sent (fail 404 (message "Staff not found")), s1)
  | Some _ =>
      match update_first [("_id", VOid o)]
              [op_set {[ "assignedStaff" := VJson se;
                         "status" := str "in-progress";
                         "assignedAt" := VDate (clock req) ]}] (issues s1),
            find_first [("_id", VOid o)] (issues s1) with
      | _, None => (Sent (fail 404 (message "Issue not found")), s1)
      | Some (c', r), Some _ =>
          (Sent (ok (success_modified (modifiedCount r))),
           set_timeline
             (timeline s1 ++
              [timeline_entry (str (param req)) (str "in-progress")
                 (str ("Assigned to staff " +:+ json_to_string se))
                 (email u) (clock req)])
             (set_issues c' s1))
      | None, Some _ => (Sent (fail 500 (message "Failed to assign issue")), s1)
      end
  end.
Proof.
  intros Hauth Hrole Hid Hse Htruthy.
  unfold patch_issues_assign, requireRole, ObjectId_isValid. monad_unfold.
  rewrite Hauth, Hrole, Hid, Hse, Htruthy.
  rewrite (is_string_true _ "admin") by reflexivity.
  rewrite (bool_decide_eq_true_2 (is_Some _)) by eauto. simpl.
  destruct (find_first _ (users s1)) as [staff|]; simpl; [|reflexivity].
  destruct (find_first _ (issues s1)) as [issue|]; simpl.
  - destruct (update_first _ _ (issues s1)) as [[c' r]|]; reflexivity.
  - destruct (update_first _ _ (issues s1)) as [[c' r]|]; reflexivity.
Qed.

(** C7: an assignment by an admin, with a valid issue id and a staffEmail
    in the body.  When no user record has that email together with the
    role staff, the request fails with 404 "Staff not found" and nothing
    is written.  When there is one and the issue exists, the request
    succeeds: the issue's assignedStaff is that email, its status is
    in-progress (so a pending issue advances to in-progress), and one
    timeline entry is appended. *)
Theorem assignment_requires_staff_and_advances req s u s1 o e :
  verifyToken req s = (Val u, s1) →
  role u = Some (str "admin") →
  ObjectId (param req) = Some o →
  body req !! "staffEmail" = Some (JStr e) → e ≠ "" →
  (find_first [("email", str e); ("role", str "staff")] (users s1) = None →
   patch_issues_assign req s
   = (Sent (fail 404 (message "Staff not found")), s1))
  ∧ (Forall scalar_user (users s1) →
     (∀ d, d ∈ users s1 →
           ¬ (d !! "email" = Some (str e) ∧ d !! "role" = Some (str "staff"))) →
     patch_issues_assign req s
     = (Sent (fail 404 (message "Staff not found")), s1))
  ∧ (∀ staff issue,
       staff ∈ users s1 →
       staff !! "email" = Some (str e) → staff !! "role" = Some (str "staff") →
       find_first [("_id", VOid o)] (issues s1) = Some issue →
       ∃ r s2 issue',
         patch_issues_assign req s = (Sent r, s2) ∧ status r = 200%nat
         ∧ find_first [("_id", VOid o)] (issues s2) = Some issue'
         ∧ issue' !! "assignedStaff" = Some (str e)
         ∧ issue' !! "status" = Some (str "in-progress")
         ∧ (∀ k, k ≠ "assignedStaff" → k ≠ "status" → k ≠ "assignedAt" →
                 issue' !! k = issue !! k)
         ∧ timeline s2
           = timeline s1
             ++ [timeline_entry (str (param req)) (str "in-progress")
                   (str ("Assigned to staff " +:+ e)) (email u) (clock req)]
         ∧ users s2 = users s1 ∧ payments s2 = payments s1).
Proof.
  intros Hauth Hrole Hid Hse Hne.
  assert (Htruthy : truthy_json (JStr e) = true).
  { simpl. apply negb_true_iff, String.eqb_neq, Hne. }
  rewrite (patch_issues_assign_unfold _ _ _ _ _ _ Hauth Hrole Hid Hse Htruthy).
  cbn [json_to_string]. change (VJson (JStr e)) with (str e).
  split; [intros ->; reflexivity|]. split.
  - intros Hscalar Hnostaff. rewrite find_first_none; [reflexivity|].
    intros d Hd. destruct (matches _ d) eqn:Hm; [|reflexivity].
    exfalso. apply (Hnostaff d Hd).
    apply scalar_matches_staff; [|exact Hm].
    rewrite Forall_forall in Hscalar. exact (Hscalar d Hd).
  - intros staff issue Hin He Hr Hissue.
    destruct (find_first_exists _ _ _ Hin (matches_staff _ _ He Hr)) as [st' ->].
    destruct (find_first_split _ _ _ Hissue) as (pre & post & Hissues & Hpre & Hm).
    rewrite Hissue, Hissues, (update_first_at _ _ _ _ _ Hpre Hm).
    rewrite apply_set by reflexivity. simpl.
    eexists _, _, _. split; [reflexivity|]. simpl.
    split; [reflexivity|]. split; [|split; [|split; [|split]]].
    + apply find_first_at; [exact Hpre|].
      rewrite matches_id_after_set by reflexivity. exact Hm.
    + apply lookup_union_Some_l. reflexivity.
    + apply lookup_union_Some_l. reflexivity.
    + intros k H1 H2 H3. apply lookup_union_r.
      rewrite !lookup_insert_ne by congruence.
      apply lookup_singleton_ne. congruence.
    + repeat split; reflexivity.
Qed.

(** *** What the issue routes write *)

(** [verifyToken] touches [users] only, whatever its outcome. *)
Lemma verifyToken_frame {req s o s1} :
  verifyToken req s = (o, s1) →
  issues s1 = issues s ∧ timeline s1 = timeline s ∧ payments s1 = payments s.
Proof.
  unfold verifyToken. monad_unfold.
  destruct (authorization req) as [header|]; [|by intros [= <- <-]].
  destruct (negb (String.prefix "Bearer " header)); [by intros [= <- <-]|].
  destruct (split_on " " header !! 1%nat) as [token|]; [|by intros [= <- <-]].
  destruct (verifyIdToken token) as [d|]; [|by intros [= <- <-]].
  simpl.
  destruct (find_first _ (users s)) as [dbUser|]; by intros [= <- <-].
Qed.

Lemma set_keeps_reporter fields :
  fields !! "_id" = None → fields !! "reporterEmail" = None →
  keeps_reporter [op_set fields].
Proof.
  intros Hid Hrep d d'. simpl.
  destruct (forallb _ _ && _); [|discriminate]. intros [= <-].
  split; apply lookup_union_r; assumption.
Qed.

Lemma upvote_keeps_reporter e :
  keeps_reporter [op_inc "upvotes" 1; op_push "upvoters" (JStr e)].
Proof.
  intros d d'. simpl.
  destruct (d !! "upvotes") as [[[]| |]|]; simpl; try discriminate;
    rewrite lookup_insert_ne by done;
    destruct (d !! "upvoters") as [[[]| |]|]; simpl; try discriminate;
    intros [= <-]; rewrite !lookup_insert_ne by done; split; reflexivity.
Qed.

(** One write keeps every stored reporterEmail, identified by [_id]. *)
Lemma issues_write_keeps_reporter c c' :
  issues_write c c' → unique_ids c → reporters_kept c c'.
Proof.
  intros Hw Huniq o d d' Hd Hd'.
  destruct (find_first_split _ _ _ Hd) as (pre & post & -> & Hpre & Hm).
  destruct Hw as [| o2 u c' r Hupd Hkeep | o2 | fresh x c' i Hins].
  - congruence.
  - destruct (matches [("_id", VOid o2)] d) eqn:Hm2.
    + assert (o2 = o) as ->.
      { rewrite matches_id in Hm, Hm2.
        apply bool_decide_eq_true_1 in Hm, Hm2. congruence. }
      rewrite (update_first_at _ _ _ _ _ Hpre Hm) in Hupd.
      destruct (apply_update u d) as [d2|] eqn:Hu; [|discriminate].
      injection Hupd as <- _. destruct (Hkeep _ _ Hu) as [Hid Hrep].
      rewrite find_first_at in Hd'; [congruence | exact Hpre |].
      etransitivity; [|exact Hm]. apply matches_single_ext. exact Hid.
    + destruct (find_first [("_id", VOid o2)] (pre ++ d :: post)) as [d2|] eqn:Hf2.
      * destruct (find_first_split _ _ _ Hf2) as (pre2 & post2 & Hsplit & Hpre2 & Hmd2).
        rewrite Hsplit, (update_first_at _ _ _ _ _ Hpre2 Hmd2) in Hupd.
        destruct (apply_update u d2) as [d3|] eqn:Hu; [|discriminate].
        injection Hupd as <- _. destruct (Hkeep _ _ Hu) as [Hid Hrep].
        assert (Hsame : ∀ x, matches [("_id", VOid x)] d3 = matches [("_id", VOid x)] d2).
        { intros x. apply matches_single_ext. exact Hid. }
        assert (Hfind : find_first [("_id", VOid o)] (pre2 ++ d2 :: post2) = Some d)
          by (rewrite <- Hsplit; exact Hd).
        destruct (matches [("_id", VOid o)] d2) eqn:Hmo.
        -- destruct (find_first [("_id", VOid o)] pre2) as [y|] eqn:Hy.
           ++ destruct (find_first_split _ _ _ Hy) as (a & b & -> & Ha & Hmy).
              rewrite <- !app_assoc in Hfind, Hd'. simpl in Hfind, Hd'.
              rewrite (find_first_at _ _ _ _ Ha Hmy) in Hfind.
              rewrite (find_first_at _ _ _ _ Ha Hmy) in Hd'. congruence.
           ++ rewrite (find_first_at _ _ _ _ Hy Hmo) in Hfind.
              rewrite find_first_at in Hd'; [congruence | exact Hy |].
              rewrite Hsame. exact Hmo.
        -- rewrite (find_first_skip _ _ _ _ Hmo) in Hfind.
           rewrite find_first_skip in Hd' by (rewrite Hsame; exact Hmo).
           congruence.
      * rewrite (update_first_none _ _ _ Hf2) in Hupd. congruence.
  - destruct (matches [("_id", VOid o2)] d) eqn:Hm2.
    + assert (o2 = o) as ->.
      { rewrite matches_id in Hm, Hm2.
        apply bool_decide_eq_true_1 in Hm, Hm2. congruence. }
      rewrite (delete_first_at _ _ _ _ Hpre Hm) in Hd'. simpl in Hd'.
      exfalso.
      apply List.find_some in Hd' as [Hin Hmd'].
      apply in_app_or in Hin as [Hin|Hin].
      * rewrite (List.find_none _ _ Hpre _ Hin) in Hmd'. discriminate.
      * unfold unique_ids in Huniq. rewrite fmap_app, fmap_cons in Huniq.
        apply NoDup_app in Huniq as (_ & _ & Huniq).
        apply NoDup_cons in Huniq as [Hnotin _]. apply Hnotin.
        rewrite matches_id in Hm, Hmd'.
        apply bool_decide_eq_true_1 in Hm, Hmd'. rewrite Hm, <- Hmd'.
        apply list_elem_of_fmap. exists d'. split; [reflexivity|].
        apply list_elem_of_In, Hin.
    + destruct (find_first [("_id", VOid o2)] (pre ++ d :: post)) as [d2|] eqn:Hf2.
      * destruct (find_first_split _ _ _ Hf2) as (pre2 & post2 & Hsplit & Hpre2 & Hmd2).
        rewrite Hsplit, (delete_first_at _ _ _ _ Hpre2 Hmd2) in Hd'. simpl in Hd'.
        assert (Hfind : find_first [("_id", VOid o)] (pre2 ++ d2 :: post2) = Some d)
          by (rewrite <- Hsplit; exact Hd).
        destruct (matches [("_id", VOid o)] d2) eqn:Hmo.
        -- assert (o2 = o) as ->.
           { rewrite matches_id in Hmd2, Hmo.
             apply bool_decide_eq_true_1 in Hmd2, Hmo. congruence. }
           congruence.
        -- rewrite (find_first_skip _ _ _ _ Hmo) in Hfind. congruence.
      * rewrite (delete_first_none _ _ Hf2) in Hd'. simpl in Hd'. congruence.
  - destruct (insert_doc_inv _ _ _ _ _ Hins) as (-> & _ & _).
    rewrite find_first_app, Hd in Hd'. congruence.
Qed.

(** Symbolic execution of a run [Hrun : handler req s = (o, s')]: case
    analysis on every test the run makes, innermost first. *)
Ltac exec Hrun :=
  repeat match type of Hrun with
         | context [match ?x with _ => _ end] =>
             lazymatch x with
             | context [match _ with _ => _ end] => fail
             | _ => let E := fresh "E" in
                    destruct x eqn:E; cbn beta iota in Hrun
             end
         end.

Ltac start_run Hrun Hauth :=
  monad_unfold; cbn beta iota in Hrun;
  match type of Hrun with
  | context [verifyToken ?req ?s] =>
      let u := fresh "u" in let s1 := fresh "s1" in
      destruct (verifyToken req s) as [[u| |] s1] eqn:Hauth;
      cbn beta iota in Hrun;
      destruct (verifyToken_frame Hauth) as (Hi & Ht & Hp)
  end.

Ltac finish_write Hi :=
  simplify_eq/=; rewrite <- ?Hi;
  eauto using issues_write, set_keeps_reporter, upvote_keeps_reporter.

Lemma post_issues_writes req s o s' :
  post_issues req s = (o, s') → issues_write (issues s) (issues s').
Proof.
  intros Hrun. unfold post_issues, checkBlocked in Hrun.
  start_run Hrun Hauth; exec Hrun; finish_write Hi.
Qed.

Lemma patch_issues_assign_writes req s o s' :
  patch_issues_assign req s = (o, s') → issues_write (issues s) (issues s').
Proof.
  intros Hrun. unfold patch_issues_assign, requireRole in Hrun.
  start_run Hrun Hauth; exec Hrun; finish_write Hi.
Qed.

Lemma patch_issues_upvote_writes req s o s' :
  patch_issues_upvote req s = (o, s') → issues_write (issues s) (issues s').
Proof.
  intros Hrun. unfold patch_issues_upvote in Hrun.
  start_run Hrun Hauth; exec Hrun; finish_write Hi.
Qed.

Lemma patch_issues_status_writes req s o s' :
  patch_issues_status req s = (o, s') → issues_write (issues s) (issues s').
Proof.
  intros Hrun. unfold patch_issues_status in Hrun.
  start_run Hrun Hauth; exec Hrun; finish_write Hi.
Qed.

Lemma post_issues_boost_writes req s o s' :
  post_issues_boost req s = (o, s') → issues_write (issues s) (issues s').
Proof.
  intros Hrun. unfold post_issues_boost, checkBlocked in Hrun.
  start_run Hrun Hauth; exec Hrun; finish_write Hi.
Qed.

Lemma delete_issues_writes req s o s' :
  delete_issues req s = (o, s') → issues_write (issues s) (issues s').
Proof.
  intros Hrun. unfold delete_issues in Hrun.
  start_run Hrun Hauth; exec Hrun; finish_write Hi.
Qed.

Lemma patch_issues_priority_writes req s o s' :
  patch_issues_priority req s = (o, s') → issues_write (issues s) (issues s').
Proof.
  intros Hrun. unfold patch_issues_priority, requireRole in Hrun.
  start_run Hrun Hauth; exec Hrun; finish_write Hi.
Qed.

Lemma patch_issues_edit_keeps_timeline req s o s' :
  patch_issues_edit req s = (o, s') → timeline s' = timeline s.
Proof.
  intros Hrun. unfold patch_issues_edit in Hrun.
  start_run Hrun Hauth; exec Hrun; simplify_eq/=; congruence.
Qed.

Lemma get_users_role_writes req s o s' :
  get_users_role req s = (o, s') → issues_write (issues s) (issues s').
Proof.
  intros Hrun. unfold get_users_role in Hrun.
  start_run Hrun Hauth; exec Hrun; finish_write Hi.
Qed.

Lemma patch_users_membership_writes req s o s' :
  patch_users_membership req s = (o, s') → issues_write (issues s) (issues s').
Proof.
  intros Hrun. unfold patch_users_membership in Hrun.
  start_run Hrun Hauth; exec Hrun; finish_write Hi.
Qed.

(** *** Edit *)

(** C8, as the code has it: reporterEmail changes through no route but
    the reporter's own edit.  An edit of an existing issue by a caller
    whose email is not the issue's reporterEmail is refused (403, also
    for an admin) and nothing is written; whatever a run of any other
    route does, every issue that exists before and after it has the
    reporterEmail it had; and an edit never writes to the timeline. *)
Theorem reporter_email_changes_only_by_reporter_edit :
  (∀ req s u s1 o issue,
     verifyToken req s = (Val u, s1) →
     ObjectId (param req) = Some o →
     find_first [("_id", VOid o)] (issues s1) = Some issue →
     issue !! "reporterEmail" ≠ Some (str (email u)) →
     patch_issues_edit req s = (Sent (fail 403 (message "Not your issue")), s1))
  ∧ (∀ r req s o s',
       r ≠ PATCH_issues_edit →
       unique_ids (issues s) →
       dispatch r req s = (o, s') →
       reporters_kept (issues s) (issues s'))
  ∧ (∀ req s o s',
       patch_issues_edit req s = (o, s') → timeline s' = timeline s).
Proof.
  split; [|split].
  - intros req s u s1 o issue Hauth Hid Hissue Hnot.
    unfold patch_issues_edit. monad_unfold.
    rewrite Hauth, Hid. simpl. rewrite Hissue. simpl.
    rewrite (not_is_string _ _ Hnot). reflexivity.
  - intros r req s o s' Hr Huniq Hrun.
    apply issues_write_keeps_reporter; [|exact Huniq].
    destruct r; simpl in Hrun; try congruence;
      eauto using get_users_role_writes, patch_users_membership_writes,
        post_issues_writes, patch_issues_assign_writes,
        patch_issues_upvote_writes, patch_issues_status_writes,
        post_issues_boost_writes, delete_issues_writes,
        patch_issues_priority_writes.
  - apply patch_issues_edit_keeps_timeline.
Qed.

(** *** Delete *)

(** The handler as a decision list, for a request that names an existing
    issue. *)
Lemma delete_issues_unfold req s u s1 o pre issue post :
  verifyToken req s = (Val u, s1) →
  ObjectId (param req) = Some o →
  issues s1 = pre ++ issue :: post →
  find_first [("_id", VOid o)] pre = None →
  matches [("_id", VOid o)] issue = true →
  delete_issues req s =
  if is_string (issue !! "reporterEmail") (email u)
     && negb (is_string (issue !! "status") "pending") then
    (Sent (fail 400 (message "Only pending issues can be deleted by reporter")), s1)
  else if negb (is_string (issue !! "reporterEmail") (email u))
          && negb (is_string (role u) "admin") then
    (Sent (fail 403 (message "Unauthorized")), s1)
  else
    (Sent (ok (delete_result 1)),
     set_timeline
       (timeline s1 ++
        [timeline_entry (str (param req)) (str "deleted")
           (str ("Issue deleted by " +:+ email u)) (email u) (clock req)])
       (set_issues (pre ++ post) s1)).
Proof.
  intros Hauth Hid Hissues Hpre Hm.
  destruct (verifyToken_inv _ _ _ _ Hauth) as (_ & _ & _ & dbUser & Hfind & Hrole & _).
  unfold delete_issues. monad_unfold.
  rewrite Hauth, Hid. simpl.
  rewrite Hissues, (find_first_at _ _ _ _ Hpre Hm), Hfind. simpl.
  rewrite <- Hrole.
  destruct (is_string (issue !! "reporterEmail") (email u)); simpl.
  - destruct (is_string (issue !! "status") "pending"); simpl; [|reflexivity].
    rewrite Hissues, (delete_first_at _ _ _ _ Hpre Hm). reflexivity.
  - destruct (is_string (role u) "admin"); simpl; [|reflexivity].
    rewrite Hissues, (delete_first_at _ _ _ _ Hpre Hm). reflexivity.
Qed.

(** What the delete route does: it succeeds exactly when the caller is the
    reporter of a pending issue, or is an admin who is not the reporter;
    a success removes the document and appends one timeline entry for the
    request's id, recording the deletion. *)
Lemma delete_issues_decision req s u s1 o issue :
  verifyToken req s = (Val u, s1) →
  ObjectId (param req) = Some o →
  find_first [("_id", VOid o)] (issues s1) = Some issue →
  ∃ r s2,
    delete_issues req s = (Sent r, s2)
    ∧ (status r = 200%nat ↔
       (issue !! "reporterEmail" = Some (str (email u))
        ∧ issue !! "status" = Some (str "pending"))
       ∨ (issue !! "reporterEmail" ≠ Some (str (email u))
          ∧ role u = Some (str "admin")))
    ∧ (status r = 200%nat →
       (length (issues s2) + 1 = length (issues s1))%nat
       ∧ timeline s2
         = timeline s1
           ++ [timeline_entry (str (param req)) (str "deleted")
                 (str ("Issue deleted by " +:+ email u)) (email u) (clock req)])
    ∧ (status r ≠ 200%nat → s2 = s1).
Proof.
  intros Hauth Hid Hissue.
  destruct (find_first_split _ _ _ Hissue) as (pre & post & Hissues & Hpre & Hm).
  rewrite (delete_issues_unfold _ _ _ _ _ _ _ _ Hauth Hid Hissues Hpre Hm).
  unfold is_string.
  destruct (decide (issue !! "reporterEmail" = Some (str (email u)))) as [Hr|Hr];
    [rewrite (bool_decide_eq_true_2 _ Hr) | rewrite (bool_decide_eq_false_2 _ Hr)];
    simpl.
  - destruct (decide (issue !! "status" = Some (str "pending"))) as [Hp|Hp];
      [rewrite (bool_decide_eq_true_2 _ Hp) | rewrite (bool_decide_eq_false_2 _ Hp)];
      simpl; eexists _, _; (split; [reflexivity|]); simpl.
    + split; [tauto|]. split; [|congruence]. intros _.
      rewrite Hissues, !length_app. simpl. split; [lia | reflexivity].
    + split; [|split; [discriminate | reflexivity]].
      split; [discriminate | tauto].
  - destruct (decide (role u = Some (str "admin"))) as [Ha|Ha];
      [rewrite (bool_decide_eq_true_2 _ Ha) | rewrite (bool_decide_eq_false_2 _ Ha)];
      simpl; eexists _, _; (split; [reflexivity|]); simpl.
    + split; [tauto|]. split; [|congruence]. intros _.
      rewrite Hissues, !length_app. simpl. split; [lia | reflexivity].
    + split; [|split; [discriminate | reflexivity]].
      split; [discriminate | tauto].
Qed.

(** ** Further properties of the routes *)

Ltac routes_unfold :=
  unfold get_users_role, patch_users_membership, post_issues,
    patch_issues_assign, patch_issues_upvote, patch_issues_status,
    post_issues_boost, patch_issues_edit, delete_issues,
    patch_issues_priority, patch_users_profile, patch_users_make_admin,
    patch_users_make_staff, patch_users_block, patch_users_premium,
    patch_users_role, get_issues_id, get_users_membership,
    post_payment_premium_verify, requireRole, checkBlocked, upsertOne in *.

(** *** Authentication *)

Lemma refusal_reaches_every_route req s resp :
  verifyToken req s = (Sent resp, s) → every_route_answers req s resp.
Proof.
  intros Hv. split.
  - intros rt. destruct rt; simpl; routes_unfold; monad_unfold;
      rewrite Hv; reflexivity.
  - repeat split; routes_unfold; monad_unfold; rewrite Hv; reflexivity.
Qed.

(** X1: a request that [verifyToken] refuses gets that refusal from every
    route behind it, and nothing is written: 401 "Unauthorized" when the
    Authorization header is missing or does not start with "Bearer ", and
    401 "Invalid token" when the identity provider rejects the token, which
    is the second space-separated piece of the header. *)
Theorem refused_token_stops_every_route req s :
  (authorization req = None
   ∨ (∃ h, authorization req = Some h ∧ String.prefix "Bearer " h = false) →
   every_route_answers req s (fail 401 (message "Unauthorized")))
  ∧ (∀ h tok,
       authorization req = Some h → String.prefix "Bearer " h = true →
       split_on " " h !! 1%nat = Some tok → verifyIdToken tok = None →
       every_route_answers req s (fail 401 (message "Invalid token"))).
Proof.
  split.
  - intros Hbad. apply refusal_reaches_every_route.
    unfold verifyToken. monad_unfold.
    destruct Hbad as [-> | (h & -> & ->)]; reflexivity.
  - intros h tok Hh Hp Hs Hv. apply refusal_reaches_every_route.
    unfold verifyToken. monad_unfold. rewrite Hh, Hp, Hs, Hv. reflexivity.
Qed.

(** The two ways an accepted token ends. *)
Lemma verifyToken_accepts req s h tok d :
  authorization req = Some h → String.prefix "Bearer " h = true →
  split_on " " h !! 1%nat = Some tok → verifyIdToken tok = Some d →
  verifyToken req s =
  match find_first [("email", str (d_email d))] (users s) with
  | Some dbUser =>
      (Val {| email := d_email d; uid := d_uid d; role := dbUser !! "role";
              isBlocked := or_default (dbUser !! "isBlocked") (boolean false);
              isPremium := or_default (dbUser !! "premium") (boolean false) |}, s)
  | None =>
      (Val {| email := d_email d; uid := d_uid d; role := Some (str "citizen");
              isBlocked := boolean false; isPremium := boolean false |},
       set_users (users s ++ [provisioned d (clock req)]) s)
  end.
Proof.
  intros Hh Hp Hs Hv. unfold verifyToken, provisioned. monad_unfold.
  rewrite Hh, Hp, Hs, Hv. simpl.
  destruct (find_first _ (users s)); reflexivity.
Qed.

Lemma verifyToken_accepted req s u s1 :
  verifyToken req s = (Val u, s1) →
  ∃ h tok d,
    authorization req = Some h ∧ String.prefix "Bearer " h = true
    ∧ split_on " " h !! 1%nat = Some tok ∧ verifyIdToken tok = Some d
    ∧ email u = d_email d.
Proof.
  unfold verifyToken. monad_unfold.
  destruct (authorization req) as [h|] eqn:Hh; [|by intros [=]].
  destruct (String.prefix "Bearer " h) eqn:Hp; simpl; [|by intros [=]].
  destruct (split_on " " h !! 1%nat) as [tok|] eqn:Hs; [|by intros [=]].
  destruct (verifyIdToken tok) as [d|] eqn:Hv; [|by intros [=]].
  simpl. intros Hrun. exists h, tok, d.
  split; [reflexivity|]. split; [exact Hp|]. split; [exact Hs|].
  split; [exact Hv|].
  destruct (find_first _ (users s)); injection Hrun as <- _; reflexivity.
Qed.

(** X2: an accepted token whose email has no user record provisions
    exactly one, with role citizen and the flags premium, isBlocked and
    hasPassword false, and the request runs as a citizen; when a record
    exists nothing is written and the request runs with the role and flags
    of the first record with that email. *)
Theorem first_sight_provisions_a_citizen req s h tok d :
  authorization req = Some h → String.prefix "Bearer " h = true →
  split_on " " h !! 1%nat = Some tok → verifyIdToken tok = Some d →
  (find_first [("email", str (d_email d))] (users s) = None →
   ∃ u record,
     verifyToken req s = (Val u, set_users (users s ++ [record]) s)
     ∧ email u = d_email d ∧ role u = Some (str "citizen")
     ∧ truthy (Some (isBlocked u)) = false ∧ truthy (Some (isPremium u)) = false
     ∧ record !! "email" = Some (str (d_email d))
     ∧ record !! "role" = Some (str "citizen")
     ∧ record !! "premium" = Some (boolean false)
     ∧ record !! "isBlocked" = Some (boolean false)
     ∧ record !! "hasPassword" = Some (boolean false))
  ∧ (∀ record,
       find_first [("email", str (d_email d))] (users s) = Some record →
       ∃ u, verifyToken req s = (Val u, s)
            ∧ email u = d_email d ∧ role u = record !! "role"
            ∧ truthy (Some (isBlocked u)) = truthy (record !! "isBlocked")
            ∧ truthy (Some (isPremium u)) = truthy (record !! "premium")).
Proof.
  intros Hh Hp Hs Hv.
  rewrite (verifyToken_accepts _ _ _ _ _ Hh Hp Hs Hv). split.
  - intros ->. eexists _, _. split; [reflexivity|]. simpl.
    repeat split; reflexivity.
  - intros record ->. eexists. split; [reflexivity|].
    cbn [email role isBlocked isPremium].
    rewrite !truthy_or_false. repeat split; reflexivity.
Qed.

(** X3: verification is idempotent: after a request has been accepted, the
    same request is accepted again as the same user and writes nothing. *)
Theorem verification_is_idempotent req s u s1 :
  verifyToken req s = (Val u, s1) → verifyToken req s1 = (Val u, s1).
Proof.
  intros Hrun.
  destruct (verifyToken_accepted _ _ _ _ Hrun) as (h & tok & d & Hh & Hp & Hs & Hv & _).
  rewrite (verifyToken_accepts req s _ _ _ Hh Hp Hs Hv) in Hrun.
  rewrite (verifyToken_accepts req s1 _ _ _ Hh Hp Hs Hv).
  destruct (find_first _ (users s)) as [dbUser|] eqn:Hf.
  - injection Hrun as <- <-. rewrite Hf. reflexivity.
  - injection Hrun as <- <-. simpl.
    rewrite find_first_app, Hf, matches_string by reflexivity. reflexivity.
Qed.

(** *** Guards *)

(** X4: the admin-only routes check the role for exact equality with
    "admin": a caller with any other role, staff included, is refused with
    403 on assignment, priority change, make-admin, make-staff and block
    ("Forbidden - Role required: admin") and on role change ("Forbidden
    access"), and nothing is written. *)
Theorem admin_routes_refuse_other_roles req s u s1 :
  verifyToken req s = (Val u, s1) →
  role u ≠ Some (str "admin") →
  let refused := (Sent (fail 403 (message "Forbidden - Role required: admin")), s1) in
  patch_issues_assign req s = refused
  ∧ patch_issues_priority req s = refused
  ∧ patch_users_make_admin req s = refused
  ∧ patch_users_make_staff req s = refused
  ∧ patch_users_block req s = refused
  ∧ patch_users_role req s = (Sent (fail 403 (message "Forbidden access")), s1).
Proof.
  intros Hauth Hrole refused.
  destruct (verifyToken_inv _ _ _ _ Hauth) as (_ & _ & _ & dbUser & Hfind & Hr & _).
  pose proof (not_is_string _ _ Hrole) as Hno.
  assert (Hno' : is_string (dbUser !! "role") "admin" = false)
    by (rewrite <- Hr; exact Hno).
  unfold refused.
  repeat split; routes_unfold; monad_unfold; rewrite Hauth; simpl;
    rewrite ?Hno; try reflexivity.
  rewrite Hfind. simpl. rewrite Hno'. reflexivity.
Qed.

(** X5: a blocked caller cannot create an issue or boost one: both routes
    answer 403 "Your account is blocked" before reading the body, and
    nothing is written. *)
Theorem blocked_caller_cannot_create_or_boost req s u s1 :
  verifyToken req s = (Val u, s1) →
  truthy (Some (isBlocked u)) = true →
  post_issues req s = (Sent (fail 403 (message "Your account is blocked")), s1)
  ∧ post_issues_boost req s
    = (Sent (fail 403 (message "Your account is blocked")), s1).
Proof.
  intros Hauth Hb.
  split; routes_unfold; monad_unfold; rewrite Hauth, Hb; reflexivity.
Qed.

(** X6: an id that is not an ObjectId.  Upvote, edit, delete and the read
    of one issue answer 500 with the driver's error; so do the status
    update (given a status), the boost (for a caller that is not blocked,
    given paymentId and amount) and the priority change (for an admin,
    given a valid priority); only the assignment checks the id itself and
    answers 400 "Invalid issue ID".  Nothing is written. *)
Theorem malformed_id_is_an_error req s u s1 :
  verifyToken req s = (Val u, s1) →
  ObjectId (param req) = None →
  let bson := (Sent (fail 500 (error BSONError)), s1) in
  patch_issues_upvote req s = bson
  ∧ patch_issues_edit req s = bson
  ∧ delete_issues req s = bson
  ∧ get_issues_id req s = (Sent (fail 500 (error BSONError)), s1)
  ∧ (truthy_body (body req !! "status") = true → patch_issues_status req s = bson)
  ∧ (truthy (Some (isBlocked u)) = false →
     truthy_body (body req !! "paymentId") = true →
     truthy_body (body req !! "amount") = true →
     post_issues_boost req s = bson)
  ∧ (role u = Some (str "admin") →
     (∃ p, body req !! "priority" = Some (JStr p) ∧ p ∈ ["low"; "normal"; "high"]) →
     patch_issues_priority req s = bson)
  ∧ (role u = Some (str "admin") →
     patch_issues_assign req s
     = (Sent (fail 400 (message "Invalid issue ID")), s1)).
Proof.
  intros Hauth Hid bson. unfold bson.
  split; [|split; [|split; [|split; [|split; [|split; [|split]]]]]].
  - routes_unfold. monad_unfold. rewrite Hauth, Hid. reflexivity.
  - routes_unfold. monad_unfold. rewrite Hauth, Hid. reflexivity.
  - routes_unfold. monad_unfold. rewrite Hauth, Hid. reflexivity.
  - routes_unfold. monad_unfold. rewrite Hauth, Hid. reflexivity.
  - intros Hst. routes_unfold. monad_unfold. rewrite Hauth, Hid.
    unfold truthy_body in Hst.
    destruct (body req !! "status") as [st|]; [|discriminate].
    rewrite Hst. reflexivity.
  - intros Hnb Hp Ha. routes_unfold. monad_unfold. rewrite Hauth, Hnb, Hid.
    unfold truthy_body in Hp, Ha.
    destruct (body req !! "paymentId") as [p|]; [|discriminate].
    destruct (body req !! "amount") as [a|]; [|discriminate].
    rewrite Hp, Ha. reflexivity.
  - intros Hr (p & Hp & Hin). routes_unfold. monad_unfold.
    rewrite Hauth, Hr, Hp, Hid.
    rewrite (is_string_true _ "admin") by reflexivity.
    rewrite (bool_decide_eq_true_2 _ Hin). reflexivity.
  - intros Hr. routes_unfold. unfold ObjectId_isValid. monad_unfold.
    rewrite Hauth, Hr, Hid.
    rewrite (is_string_true _ "admin") by reflexivity.
    rewrite bool_decide_eq_false_2; [reflexivity|].
    intros [x Hx]. discriminate.
Qed.

(** *** Issues that are not there *)

Lemma set_issues_same s : set_issues (issues s) s = s.
Proof. destruct s. reflexivity. Qed.

Lemma set_users_same s : set_users (users s) s = s.
Proof. destruct s. reflexivity. Qed.

(** X7: an id that names no issue.  Upvote, status update, boost and the
    read of one issue answer 404 "Issue not found", edit and delete 404
    "Not found", the priority change 404 "Issue not found or unchanged" and
    the assignment, once the staff member is found, 404 "Issue not found";
    nothing is written, and no timeline entry or payment is recorded. *)
Theorem missing_issue_is_not_found req s u s1 o :
  verifyToken req s = (Val u, s1) →
  ObjectId (param req) = Some o →
  find_first [("_id", VOid o)] (issues s1) = None →
  let not_found m := (Sent (fail 404 (message m)), s1) in
  patch_issues_upvote req s = not_found "Issue not found"
  ∧ patch_issues_edit req s = not_found "Not found"
  ∧ delete_issues req s = not_found "Not found"
  ∧ get_issues_id req s = (Sent (fail 404 (message "Issue not found")), s1)
  ∧ (truthy_body (body req !! "status") = true →
     patch_issues_status req s = not_found "Issue not found")
  ∧ (truthy (Some (isBlocked u)) = false →
     truthy_body (body req !! "paymentId") = true →
     truthy_body (body req !! "amount") = true →
     post_issues_boost req s = not_found "Issue not found")
  ∧ (role u = Some (str "admin") →
     (∃ p, body req !! "priority" = Some (JStr p) ∧ p ∈ ["low"; "normal"; "high"]) →
     patch_issues_priority req s = not_found "Issue not found or unchanged")
  ∧ (role u = Some (str "admin") →
     ∀ e staff, body req !! "staffEmail" = Some (JStr e) → e ≠ "" →
     find_first [("email", str e); ("role", str "staff")] (users s1) = Some staff →
     patch_issues_assign req s = not_found "Issue not found").
Proof.
  intros Hauth Hid Hnone not_found. unfold not_found.
  split; [|split; [|split; [|split; [|split; [|split; [|split]]]]]].
  - routes_unfold. monad_unfold. rewrite Hauth, Hid. simpl. rewrite Hnone. reflexivity.
  - routes_unfold. monad_unfold. rewrite Hauth, Hid. simpl. rewrite Hnone. reflexivity.
  - routes_unfold. monad_unfold. rewrite Hauth, Hid. simpl. rewrite Hnone. reflexivity.
  - routes_unfold. monad_unfold. rewrite Hauth, Hid. simpl. rewrite Hnone. reflexivity.
  - intros Hst. routes_unfold. monad_unfold. rewrite Hauth, Hid.
    unfold truthy_body in Hst.
    destruct (body req !! "status") as [st|]; [|discriminate].
    rewrite Hst. simpl. rewrite Hnone. reflexivity.
  - intros Hnb Hp Ha. routes_unfold. monad_unfold. rewrite Hauth, Hnb, Hid.
    unfold truthy_body in Hp, Ha.
    destruct (body req !! "paymentId") as [p|]; [|discriminate].
    destruct (body req !! "amount") as [a|]; [|discriminate].
    rewrite Hp, Ha. simpl. rewrite Hnone. reflexivity.
  - intros Hr (p & Hp & Hin). routes_unfold. monad_unfold.
    rewrite Hauth, Hr, Hp, Hid.
    rewrite (is_string_true _ "admin") by reflexivity.
    rewrite (bool_decide_eq_true_2 _ Hin). simpl.
    rewrite (update_first_none _ _ _ Hnone). simpl.
    rewrite set_issues_same. reflexivity.
  - intros Hr e staff He Hne Hstaff.
    assert (Htruthy : truthy_json (JStr e) = true).
    { simpl. apply negb_true_iff, String.eqb_neq, Hne. }
    rewrite (patch_issues_assign_unfold _ _ _ _ _ _ Hauth Hr Hid He Htruthy).
    change (VJson (JStr e)) with (str e). rewrite Hstaff, Hnone.
    destruct (update_first _ _ _) as [[]|]; reflexivity.
Qed.

(** *** Priority *)

Lemma set_one_is_noop k v (d : doc) :
  {[k := v]} ∪ d = d ↔ d !! k = Some v.
Proof.
  split.
  - intros E. rewrite <- E. apply lookup_union_Some_l, lookup_singleton_eq.
  - intros E. rewrite <- insert_union_singleton_l. apply insert_id, E.
Qed.

(** X8: the priority route, for an admin and an existing issue.  A body
    whose priority is not one of the strings low, normal, high is refused
    (400) and nothing is written.  A priority equal to the stored one is
    answered 404 "Issue not found or unchanged", and no timeline entry is
    written.  Any other valid priority is stored, the other fields stay,
    and one timeline entry "Priority set to {priority}" is appended. *)
Theorem priority_change_and_its_edges req s u s1 o issue :
  verifyToken req s = (Val u, s1) →
  role u = Some (str "admin") →
  ObjectId (param req) = Some o →
  find_first [("_id", VOid o)] (issues s1) = Some issue →
  ((∀ p, body req !! "priority" = Some (JStr p) → p ∉ ["low"; "normal"; "high"]) →
   patch_issues_priority req s
   = (Sent (fail 400 (message "Invalid priority")), s1))
  ∧ (∀ p, body req !! "priority" = Some (JStr p) → p ∈ ["low"; "normal"; "high"] →
       (issue !! "priority" = Some (str p) →
        patch_issues_priority req s
        = (Sent (fail 404 (message "Issue not found or unchanged")), s1))
       ∧ (issue !! "priority" ≠ Some (str p) →
          ∃ r s2 issue',
            patch_issues_priority req s = (Sent r, s2) ∧ status r = 200%nat
            ∧ find_first [("_id", VOid o)] (issues s2) = Some issue'
            ∧ issue' !! "priority" = Some (str p)
            ∧ (∀ k, k ≠ "priority" → issue' !! k = issue !! k)
            ∧ timeline s2
              = timeline s1
                ++ [timeline_entry (str (param req)) (str "priority-updated")
                      (str ("Priority set to " +:+ p)) (email u) (clock req)]
            ∧ users s2 = users s1 ∧ payments s2 = payments s1)).
Proof.
  intros Hauth Hr Hid Hissue.
  destruct (find_first_split _ _ _ Hissue) as (pre & post & Hissues & Hpre & Hm).
  split.
  - intros Hbad. routes_unfold. monad_unfold. rewrite Hauth, Hr.
    rewrite (is_string_true _ "admin") by reflexivity. simpl.
    destruct (body req !! "priority") as [[| | |p| |]|] eqn:Hp; try reflexivity.
    rewrite bool_decide_eq_false_2 by (apply Hbad; reflexivity). reflexivity.
  - intros p Hp Hin.
    assert (Hrun : patch_issues_priority req s =
      if bool_decide ({["priority" := str p]} ∪ issue = issue) then
        (Sent (fail 404 (message "Issue not found or unchanged")),
         set_issues (pre ++ ({["priority" := str p]} ∪ issue) :: post) s1)
      else
        (Sent (ok (success_result {| matchedCount := 1; modifiedCount := 1 |})),
         set_timeline
           (timeline s1 ++
            [timeline_entry (str (param req)) (str "priority-updated")
               (str ("Priority set to " +:+ p)) (email u) (clock req)])
           (set_issues (pre ++ ({["priority" := str p]} ∪ issue) :: post) s1))).
    { routes_unfold. monad_unfold. rewrite Hauth, Hr, Hp, Hid.
      rewrite (is_string_true _ "admin") by reflexivity.
      rewrite (bool_decide_eq_true_2 _ Hin). simpl.
      rewrite Hissues, (update_first_at _ _ _ _ _ Hpre Hm).
      rewrite apply_set by reflexivity. simpl.
      destruct (bool_decide ({["priority" := str p]} ∪ issue = issue));
        simpl; reflexivity. }
    rewrite Hrun. split.
    + intros Hsame. apply set_one_is_noop in Hsame.
      rewrite (bool_decide_eq_true_2 _ Hsame), Hsame, <- Hissues, set_issues_same.
      reflexivity.
    + intros Hdiff. rewrite bool_decide_eq_false_2
        by (intros E; apply Hdiff, set_one_is_noop, E).
      eexists _, _, _. split; [reflexivity|]. simpl.
      split; [reflexivity|]. split; [|split; [|split]].
      * apply find_first_at; [exact Hpre|].
        rewrite matches_id_after_set by reflexivity. exact Hm.
      * apply lookup_union_Some_l, lookup_singleton_eq.
      * intros k Hk. apply lookup_union_r, lookup_singleton_ne. congruence.
      * repeat split; reflexivity.
Qed.

(** *** The staff flow *)

Lemma flow_step_table cur t :
  flow_step cur t → flow_or_empty cur = next_states [t].
Proof. destruct 1; reflexivity. Qed.

(** X9: the assigned staff member moving an issue one step along pending →
    in-progress → resolved → closed succeeds: the new status is stored and
    one timeline entry is appended.  From closed there is no step: whatever
    status the staff member asks for is refused with "Invalid status
    update. Allowed: closed → none". *)
Theorem staff_moves_one_step_and_closed_is_final req s u s1 st o issue :
  verifyToken req s = (Val u, s1) →
  body req !! "status" = Some st → truthy_json st = true →
  ObjectId (param req) = Some o →
  find_first [("_id", VOid o)] (issues s1) = Some issue →
  role u = Some (str "staff") →
  issue !! "assignedStaff" = Some (str (email u)) →
  (∀ cur t,
     issue !! "status" = Some (str cur) → st = JStr t → flow_step cur t →
     ∃ r s2 issue' entry,
       patch_issues_status req s = (Sent r, s2) ∧ status r = 200%nat
       ∧ find_first [("_id", VOid o)] (issues s2) = Some issue'
       ∧ issue' !! "status" = Some (str t)
       ∧ timeline s2 = timeline s1 ++ [entry]
       ∧ entry !! "status" = Some (str t)
       ∧ entry !! "updatedBy" = Some (str (email u)))
  ∧ (issue !! "status" = Some (str "closed") →
     patch_issues_status req s
     = (Sent (fail 400 (message "Invalid status update. Allowed: closed → none")),
        s1)).
Proof.
  intros Hauth Hst Htruthy Hid Hissue Hrole Hassigned.
  destruct (find_first_split _ _ _ Hissue) as (pre & post & Hissues & Hpre & Hm).
  rewrite (patch_issues_status_unfold _ _ _ _ _ _ _ _ _
             Hauth Hst Htruthy Hid Hissues Hpre Hm).
  rewrite Hrole, (is_string_true _ _ Hassigned).
  rewrite (is_string_true _ "staff") by reflexivity.
  rewrite !not_is_string by discriminate. simpl. split.
  - intros cur t Hcur -> Hstep. rewrite Hcur. simpl.
    rewrite (flow_step_table _ _ Hstep).
    rewrite bool_decide_eq_true_2 by (apply list_elem_of_singleton; reflexivity).
    unfold status_committed. eexists _, _, _, _. split; [reflexivity|]. simpl.
    split; [reflexivity|]. split; [|split; [|split; [reflexivity|]]].
    + apply find_first_at; [exact Hpre|].
      rewrite matches_id_after_set by reflexivity. exact Hm.
    + apply lookup_union_Some_l, lookup_singleton_eq.
    + split; reflexivity.
  - intros Hcur. rewrite Hcur. simpl.
    destruct st; reflexivity.
Qed.

(** X10: assignment and the staff flow compose: after an admin has
    assigned an issue to a staff member, that staff member's request to
    set it to resolved succeeds, whatever the status was before the
    assignment. *)
Theorem assigned_staff_can_resolve req s u s1 o e staff issue req2 u2 s3 :
  verifyToken req s = (Val u, s1) →
  role u = Some (str "admin") →
  ObjectId (param req) = Some o →
  body req !! "staffEmail" = Some (JStr e) → e ≠ "" →
  find_first [("email", str e); ("role", str "staff")] (users s1) = Some staff →
  find_first [("_id", VOid o)] (issues s1) = Some issue →
  verifyToken req2 (patch_issues_assign req s).2 = (Val u2, s3) →
  email u2 = e → role u2 = Some (str "staff") →
  param req2 = param req →
  body req2 !! "status" = Some (JStr "resolved") →
  ∃ r r2 s4 issue',
    patch_issues_assign req s = (Sent r, (patch_issues_assign req s).2)
    ∧ status r = 200%nat
    ∧ patch_issues_status req2 (patch_issues_assign req s).2 = (Sent r2, s4)
    ∧ status r2 = 200%nat
    ∧ find_first [("_id", VOid o)] (issues s4) = Some issue'
    ∧ issue' !! "status" = Some (str "resolved")
    ∧ issue' !! "assignedStaff" = Some (str e).
Proof.
  intros Hauth Hrole Hid Hse Hne Hstaff Hissue.
  assert (Htruthy : truthy_json (JStr e) = true).
  { simpl. apply negb_true_iff, String.eqb_neq, Hne. }
  destruct (find_first_split _ _ _ Hissue) as (pre & post & Hissues & Hpre & Hm).
  rewrite (patch_issues_assign_unfold _ _ _ _ _ _ Hauth Hrole Hid Hse Htruthy).
  change (VJson (JStr e)) with (str e).
  rewrite Hstaff, Hissue, Hissues, (update_first_at _ _ _ _ _ Hpre Hm).
  rewrite apply_set by reflexivity. cbn [mbind option_bind fst snd].
  set (issue1 := ({["assignedStaff" := str e; "status" := str "in-progress";
                    "assignedAt" := VDate (clock req)]} ∪ issue : doc)).
  intros Hauth2 He2 Hrole2 Hparam Hst2.
  assert (Hm1 : matches [("_id", VOid o)] issue1 = true).
  { unfold issue1. rewrite matches_id_after_set by reflexivity. exact Hm. }
  destruct (verifyToken_inv _ _ _ _ Hauth2) as (Hi3 & _).
  simpl in Hi3.
  assert (Hid2 : ObjectId (param req2) = Some o) by (rewrite Hparam; exact Hid).
  rewrite (patch_issues_status_unfold req2 _ u2 s3 (JStr "resolved") o pre issue1 post
             Hauth2 Hst2 eq_refl Hid2 Hi3 Hpre Hm1).
  rewrite Hrole2, He2.
  rewrite (is_string_true (issue1 !! "assignedStaff") e)
    by (apply lookup_union_Some_l; reflexivity).
  rewrite (is_string_true _ "staff") by reflexivity.
  rewrite !not_is_string by discriminate.
  assert (Hcur : issue1 !! "status" = Some (str "in-progress"))
    by (apply lookup_union_Some_l; reflexivity).
  rewrite Hcur. simpl.
  unfold status_committed. eexists _, _, _, _. split; [reflexivity|]. simpl.
  split; [reflexivity|]. split; [reflexivity|]. split; [reflexivity|].
  split; [|split].
  - apply find_first_at; [exact Hpre|].
    rewrite matches_id_after_set by reflexivity. exact Hm1.
  - apply lookup_union_Some_l, lookup_singleton_eq.
  - rewrite lookup_union_r by reflexivity.
    apply lookup_union_Some_l. reflexivity.
Qed.

(** *** Delete *)

Lemma removed_is_gone o pre (d : doc) post :
  unique_ids (pre ++ d :: post) →
  find_first [("_id", VOid o)] pre = None →
  matches [("_id", VOid o)] d = true →
  find_first [("_id", VOid o)] (pre ++ post) = None.
Proof.
  intros Huniq Hpre Hm.
  destruct (find_first _ (pre ++ post)) as [d'|] eqn:Hd'; [|reflexivity].
  exfalso. apply List.find_some in Hd' as [Hin Hmd'].
  apply in_app_or in Hin as [Hin|Hin].
  - rewrite (List.find_none _ _ Hpre _ Hin) in Hmd'. discriminate.
  - unfold unique_ids in Huniq. rewrite fmap_app, fmap_cons in Huniq.
    apply NoDup_app in Huniq as (_ & _ & Huniq).
    apply NoDup_cons in Huniq as [Hnotin _]. apply Hnotin.
    rewrite matches_id in Hm, Hmd'.
    apply bool_decide_eq_true_1 in Hm, Hmd'. rewrite Hm, <- Hmd'.
    apply list_elem_of_fmap. exists d'. split; [reflexivity|].
    apply list_elem_of_In, Hin.
Qed.

(** X11: deleting an existing issue.  The reporter of an issue that is not
    pending is refused (400), whatever the reporter's role; a caller who is
    neither the reporter nor an admin is refused (403); in both cases
    nothing is written.  Otherwise the document is removed and one timeline
    entry with status deleted is appended for the request's id; with [_id]
    unique the issue is gone for good: a later upvote, edit or delete of
    that id answers 404. *)
Theorem delete_decision_and_aftermath req s u s1 o issue :
  verifyToken req s = (Val u, s1) →
  ObjectId (param req) = Some o →
  find_first [("_id", VOid o)] (issues s1) = Some issue →
  (issue !! "reporterEmail" = Some (str (email u)) →
   issue !! "status" ≠ Some (str "pending") →
   delete_issues req s
   = (Sent (fail 400 (message "Only pending issues can be deleted by reporter")), s1))
  ∧ (issue !! "reporterEmail" ≠ Some (str (email u)) →
     role u ≠ Some (str "admin") →
     delete_issues req s = (Sent (fail 403 (message "Unauthorized")), s1))
  ∧ ((issue !! "reporterEmail" = Some (str (email u))
      ∧ issue !! "status" = Some (str "pending"))
     ∨ (issue !! "reporterEmail" ≠ Some (str (email u))
        ∧ role u = Some (str "admin")) →
     unique_ids (issues s1) →
     ∃ s2,
       delete_issues req s = (Sent (ok (delete_result 1)), s2)
       ∧ find_first [("_id", VOid o)] (issues s2) = None
       ∧ (length (issues s2) + 1 = length (issues s1))%nat
       ∧ timeline s2
         = timeline s1
           ++ [timeline_entry (str (param req)) (str "deleted")
                 (str ("Issue deleted by " +:+ email u)) (email u) (clock req)]
       ∧ ∀ req2 u2 s3,
           verifyToken req2 s2 = (Val u2, s3) → param req2 = param req →
           patch_issues_upvote req2 s2
           = (Sent (fail 404 (message "Issue not found")), s3)
           ∧ patch_issues_edit req2 s2 = (Sent (fail 404 (message "Not found")), s3)
           ∧ delete_issues req2 s2 = (Sent (fail 404 (message "Not found")), s3)).
Proof.
  intros Hauth Hid Hissue.
  destruct (find_first_split _ _ _ Hissue) as (pre & post & Hissues & Hpre & Hm).
  rewrite (delete_issues_unfold _ _ _ _ _ _ _ _ Hauth Hid Hissues Hpre Hm).
  split; [|split].
  - intros Hr Hp. rewrite (is_string_true _ _ Hr), (not_is_string _ _ Hp). reflexivity.
  - intros Hr Ha. rewrite !(not_is_string _ _ Hr), (not_is_string _ _ Ha). reflexivity.
  - intros Hallowed Huniq.
    assert (Hgone : find_first [("_id", VOid o)] (pre ++ post) = None).
    { apply (removed_is_gone o pre issue post); [|exact Hpre|exact Hm].
      rewrite <- Hissues. exact Huniq. }
    exists (set_timeline
              (timeline s1 ++
               [timeline_entry (str (param req)) (str "deleted")
                  (str ("Issue deleted by " +:+ email u)) (email u) (clock req)])
              (set_issues (pre ++ post) s1)).
    split.
    { destruct Hallowed as [[Hr Hp] | [Hr Ha]].
      - rewrite (is_string_true _ _ Hr), (is_string_true _ _ Hp). reflexivity.
      - rewrite !(not_is_string _ _ Hr), (is_string_true _ _ Ha). reflexivity. }
    simpl. split; [exact Hgone|]. split.
    { rewrite Hissues, !length_app. simpl. lia. }
    split; [reflexivity|].
    intros req2 u2 s3 Hauth2 Hparam.
    destruct (verifyToken_inv _ _ _ _ Hauth2) as (Hi3 & _). simpl in Hi3.
    assert (Hid2 : ObjectId (param req2) = Some o) by (rewrite Hparam; exact Hid).
    repeat split; routes_unfold; monad_unfold; rewrite Hauth2, Hid2; simpl;
      rewrite Hi3, Hgone; reflexivity.
Qed.

(** *** Creation *)

Lemma count_owned_app e (c : list doc) d :
  count_owned e (c ++ [d])
  = (count_owned e c + if owned_by e d then 1 else 0)%nat.
Proof.
  unfold count_owned. rewrite List.filter_app, length_app. simpl.
  destruct (owned_by e d); reflexivity.
Qed.

(** X12: a successful creation is charged to the caller and found again.
    Whatever reporterEmail the body carries, the caller's number of issues
    goes up by one and nobody else's changes.  When the body has no [_id],
    the issue is stored under the generated id, this id is the one
    answered, and the issue is found under it with the caller as reporter;
    so the caller's own upvote of the new issue is refused (403). *)
Theorem creation_is_charged_to_the_caller_and_found req s u s1 r s2 :
  verifyToken req s = (Val u, s1) →
  truthy (Some (isBlocked u)) = false →
  post_issues req s = (Sent r, s2) →
  status r = 200%nat →
  count_owned (email u) (issues s2) = S (count_owned (email u) (issues s1))
  ∧ (∀ e, e ≠ email u → count_owned e (issues s2) = count_owned e (issues s1))
  ∧ (body req !! "_id" = None →
     sent r = inserted (VOid (generated req))
     ∧ (∃ issue,
          find_first [("_id", VOid (generated req))] (issues s2) = Some issue
          ∧ issue !! "reporterEmail" = Some (str (email u)))
     ∧ ∀ req2 u2 s3,
         verifyToken req2 s2 = (Val u2, s3) → email u2 = email u →
         ObjectId (param req2) = Some (generated req) →
         patch_issues_upvote req2 s2
         = (Sent (fail 403 (message "You cannot upvote your own issue")), s3)).
Proof.
  intros Hauth Hnb Hrun Hok.
  rewrite (post_issues_unfold _ _ _ _ Hauth Hnb) in Hrun.
  destruct (negb _ && _); [injection Hrun as <- <-; discriminate|].
  destruct (insert_doc _ _ _) as [[c' i]|] eqn:Hins;
    [|injection Hrun as <- <-; discriminate].
  injection Hrun as <- <-.
  destruct (insert_doc_inv _ _ _ _ _ Hins) as (-> & Hid & Hfresh).
  set (d := with_id (generated req) (new_issue req u)) in *.
  assert (Hrep : d !! "reporterEmail" = Some (str (email u))).
  { unfold d. rewrite with_id_lookup_ne by done. unfold new_issue.
    repeat (rewrite lookup_insert_ne by done). apply lookup_insert_eq. }
  simpl. split; [|split].
  - rewrite count_owned_app. unfold owned_by.
    rewrite (is_string_true _ _ Hrep). lia.
  - intros e He. rewrite count_owned_app. unfold owned_by.
    rewrite not_is_string; [lia|]. rewrite Hrep. intros [= E]. congruence.
  - intros Hnoid.
    assert (Hdid : d !! "_id" = Some (VOid (generated req))).
    { unfold d, with_id.
      assert (new_issue req u !! "_id" = None) as ->.
      { unfold new_issue. repeat (rewrite lookup_insert_ne by done).
        rewrite lookup_fmap, Hnoid. reflexivity. }
      apply lookup_insert_eq. }
    assert (i = VOid (generated req)) as -> by congruence.
    assert (Hold : find_first [("_id", VOid (generated req))] (issues s1) = None).
    { apply find_first_none. intros x Hx.
      rewrite matches_id. apply bool_decide_eq_false_2.
      rewrite Forall_forall in Hfresh. apply Hfresh, Hx. }
    assert (Hmd : matches [("_id", VOid (generated req))] d = true).
    { rewrite matches_id. apply bool_decide_eq_true_2, Hdid. }
    split; [reflexivity|]. split.
    + exists d. split; [|exact Hrep].
      rewrite find_first_app, Hold, Hmd. reflexivity.
    + intros req2 u2 s3 Hauth2 He2 Hid2.
      destruct (verifyToken_inv _ _ _ _ Hauth2) as (Hi3 & _). simpl in Hi3.
      rewrite (patch_issues_upvote_unfold req2 _ u2 s3 _ (issues s1) d []
                 Hauth2 Hid2 Hi3 Hold Hmd).
      rewrite He2, (is_string_true _ _ Hrep). reflexivity.
Qed.

(** *** Edit *)

Lemma plain_keys_of (m : doc) :
  (∀ k, is_Some (m !! k) → plain_key k = true) →
  forallb plain_key (map_to_list m).*1 = true.
Proof.
  intros Hall. apply forallb_forall. intros k Hin.
  apply list_elem_of_In, list_elem_of_fmap in Hin as ([k' v] & -> & Hkv).
  apply elem_of_map_to_list in Hkv. apply Hall. exists v. exact Hkv.
Qed.

(** X13: the reporter's edit of an existing issue, in any status.  A body
    of top-level field names without [_id] is stored field by field: every
    field of the body replaces the issue's, status, priority and upvotes
    included, every other field stays, and nothing but the issue is
    written.  A body that carries [_id] is rejected by the store (500) and
    nothing is written. *)
Theorem reporter_edit_stores_the_body req s u s1 o issue :
  verifyToken req s = (Val u, s1) →
  ObjectId (param req) = Some o →
  find_first [("_id", VOid o)] (issues s1) = Some issue →
  issue !! "reporterEmail" = Some (str (email u)) →
  ((∀ k, is_Some (body req !! k) → plain_key k = true) →
   body req !! "_id" = None →
   ∃ r s2 issue',
     patch_issues_edit req s = (Sent r, s2) ∧ status r = 200%nat
     ∧ find_first [("_id", VOid o)] (issues s2) = Some issue'
     ∧ (∀ k j, body req !! k = Some j → issue' !! k = Some (VJson j))
     ∧ (∀ k, body req !! k = None → issue' !! k = issue !! k)
     ∧ users s2 = users s1 ∧ timeline s2 = timeline s1
     ∧ payments s2 = payments s1)
  ∧ (is_Some (body req !! "_id") →
     patch_issues_edit req s = (Sent (fail 500 (error MongoServerError)), s1)).
Proof.
  intros Hauth Hid Hissue Hrep.
  destruct (find_first_split _ _ _ Hissue) as (pre & post & Hissues & Hpre & Hm).
  assert (Hrun : patch_issues_edit req s =
    match apply_update [op_set (VJson <$> body req)] issue with
    | Some issue' =>
        (Sent (ok (update_result
                     {| matchedCount := 1;
                        modifiedCount := if bool_decide (issue' = issue) then 0 else 1 |}%nat)),
         set_issues (pre ++ issue' :: post) s1)
    | None => (Sent (fail 500 (error MongoServerError)), s1)
    end).
  { remember (apply_update [op_set (VJson <$> body req)] issue) as upd eqn:Hupd.
    routes_unfold. monad_unfold. rewrite Hauth, Hid. simpl.
    rewrite Hissues, (find_first_at _ _ _ _ Hpre Hm). simpl.
    rewrite (is_string_true _ _ Hrep). simpl.
    rewrite Hissues, (update_first_at _ _ _ _ _ Hpre Hm), <- Hupd.
    destruct upd; reflexivity. }
  rewrite Hrun. split.
  - intros Hplain Hnoid. rewrite apply_set.
    + eexists _, _, _. split; [reflexivity|]. simpl.
      split; [reflexivity|]. split; [|split; [|split]].
      * apply find_first_at; [exact Hpre|].
        rewrite matches_id_after_set; [exact Hm|].
        rewrite lookup_fmap, Hnoid. reflexivity.
      * intros k j Hk. apply lookup_union_Some_l.
        rewrite lookup_fmap, Hk. reflexivity.
      * intros k Hk. apply lookup_union_r. rewrite lookup_fmap, Hk. reflexivity.
      * repeat split; reflexivity.
    + apply plain_keys_of. intros k [v Hv]. apply Hplain.
      rewrite lookup_fmap in Hv. destruct (body req !! k); [eauto | discriminate].
    + rewrite lookup_fmap, Hnoid. reflexivity.
  - intros [j Hj]. simpl. rewrite lookup_fmap, Hj. simpl.
    rewrite matches_id in Hm. apply bool_decide_eq_true_1 in Hm.
    rewrite bool_decide_eq_false_2 by (rewrite Hm; discriminate).
    rewrite andb_false_r. reflexivity.
Qed.

(** *** Upvote, the other cases *)


(** *** Self-service routes *)

(** X15: asking for one's own role answers the role the request itself
    runs with, and "citizen" when that role is missing or falsy; nothing
    is written. *)
Theorem own_role_is_the_role_of_the_request req s u s1 :
  verifyToken req s = (Val u, s1) →
  email u = param req →
  get_users_role req s
  = (Sent (ok (role_is (or_default (role u) (str "citizen")))), s1).
Proof.
  intros Hauth Hself.
  destruct (verifyToken_inv _ _ _ _ Hauth) as (_ & _ & _ & dbUser & Hfind & Hrole & _).
  routes_unfold. monad_unfold. rewrite Hauth, <- Hself, String.eqb_refl. simpl.
  rewrite Hfind, Hrole. reflexivity.
Qed.

(** X16: membership is self-service only.  For a caller whose email is not
    the one in the path, reading the membership answers 403, making
    premium answers 403 "Cannot modify other users", and updating the
    membership answers 403 when a status is supplied and 400 "Missing
    status" when it is not (the status is checked first); nothing is
    written. *)
Theorem membership_of_another_user_is_out_of_reach req s u s1 :
  verifyToken req s = (Val u, s1) →
  email u ≠ param req →
  get_users_membership req s = (Sent (fail 403 (message "Unauthorized")), s1)
  ∧ patch_users_premium req s
    = (Sent (fail 403 (message "Cannot modify other users")), s1)
  ∧ (truthy_body (body req !! "status") = true →
     patch_users_membership req s = (Sent (fail 403 (message "Unauthorized")), s1))
  ∧ (truthy_body (body req !! "status") = false →
     patch_users_membership req s = (Sent (fail 400 (message "Missing status")), s1)).
Proof.
  intros Hauth Hne. apply String.eqb_neq in Hne.
  repeat split; try intros Hst; routes_unfold; monad_unfold;
    rewrite Hauth, ?Hst, ?Hne; simpl; rewrite ?Hne; reflexivity.
Qed.

(** *** User records *)

(** A request by a user that has a record reads it and writes nothing. *)
Lemma verifyToken_reads_record req s u s1 record :
  verifyToken req s = (Val u, s1) →
  find_first [("email", str (email u))] (users s) = Some record →
  s1 = s ∧ role u = record !! "role"
  ∧ truthy (Some (isBlocked u)) = truthy (record !! "isBlocked")
  ∧ truthy (Some (isPremium u)) = truthy (record !! "premium").
Proof.
  intros Hrun Hrec.
  destruct (verifyToken_accepted _ _ _ _ Hrun) as (h & tok & d & Hh & Hp & Hs & Hv & He).
  rewrite (verifyToken_accepts _ _ _ _ _ Hh Hp Hs Hv) in Hrun.
  rewrite <- He, Hrec in Hrun. injection Hrun as <- <-.
  cbn [email role isBlocked isPremium]. rewrite !truthy_or_false.
  repeat split; reflexivity.
Qed.

(** Setting one field of the first record with an email. *)
Lemma set_user_field e k v (c : list doc) record :
  find_first [("email", str e)] c = Some record →
  plain_key k = true → k ≠ "_id" → k ≠ "email" →
  ∃ c',
    update_first [("email", str e)] [op_set {[k := v]}] c
    = Some (c', {| matchedCount := 1;
                   modifiedCount :=
                     if bool_decide ({[k := v]} ∪ record = record) then 0 else 1 |}%nat)
    ∧ find_first [("email", str e)] c' = Some ({[k := v]} ∪ record)
    ∧ length c' = length c.
Proof.
  intros Hfind Hplain Hid Hemail.
  destruct (find_first_split _ _ _ Hfind) as (pre & post & -> & Hpre & Hm).
  rewrite (update_first_at _ _ _ _ _ Hpre Hm).
  rewrite apply_set.
  - eexists. split; [reflexivity|]. split.
    + apply find_first_at; [exact Hpre|].
      etransitivity; [|exact Hm]. apply matches_single_ext.
      apply lookup_union_r, lookup_singleton_ne. congruence.
    + rewrite !length_app. reflexivity.
  - rewrite map_to_list_singleton. simpl. rewrite Hplain. reflexivity.
  - apply lookup_singleton_ne. congruence.
Qed.

(** X17: the role-change route, for a caller whose record has the role
    admin.  A role that is not one of the strings citizen, staff, admin is
    refused (400) and nothing is written.  Otherwise the first record with
    the target email gets the role, its other fields stay, and no other
    collection is written; a target without a record is answered 200 with
    nothing written.  There is no guard against changing one's own role: an
    admin who gives up the admin role is refused (403) on the next role
    change. *)
Theorem role_change_and_self_demotion req s u s1 :
  verifyToken req s = (Val u, s1) →
  role u = Some (str "admin") →
  ((∀ r, body req !! "role" = Some (JStr r) → r ∉ ["citizen"; "staff"; "admin"]) →
   patch_users_role req s = (Sent (fail 400 (message "Invalid role")), s1))
  ∧ (∀ r, body req !! "role" = Some (JStr r) → r ∈ ["citizen"; "staff"; "admin"] →
       (find_first [("email", str (param req))] (users s1) = None →
        patch_users_role req s
        = (Sent (ok (update_result {| matchedCount := 0; modifiedCount := 0 |})), s1))
       ∧ (∀ record,
            find_first [("email", str (param req))] (users s1) = Some record →
            ∃ res s2 record',
              patch_users_role req s = (Sent (ok (update_result res)), s2)
              ∧ find_first [("email", str (param req))] (users s2) = Some record'
              ∧ record' !! "role" = Some (str r)
              ∧ (∀ k, k ≠ "role" → record' !! k = record !! k)
              ∧ issues s2 = issues s1 ∧ timeline s2 = timeline s1
              ∧ payments s2 = payments s1
              ∧ (param req = email u → r ≠ "admin" →
                 ∀ req2 u2 s3,
                   verifyToken req2 s2 = (Val u2, s3) → email u2 = email u →
                   patch_users_role req2 s2
                   = (Sent (fail 403 (message "Forbidden access")), s3)))).
Proof.
  intros Hauth Hrole.
  destruct (verifyToken_inv _ _ _ _ Hauth) as (_ & _ & _ & dbUser & Hfind & Hr & _).
  assert (Hadmin : is_string (dbUser !! "role") "admin" = true).
  { apply is_string_true. rewrite <- Hr. exact Hrole. }
  split.
  - intros Hbad. routes_unfold. monad_unfold. rewrite Hauth. simpl.
    rewrite Hfind. simpl. rewrite Hadmin. simpl.
    destruct (body req !! "role") as [[| | |r| |]|] eqn:Hb; try reflexivity.
    rewrite bool_decide_eq_false_2 by (apply Hbad; reflexivity). reflexivity.
  - intros r Hb Hin.
    assert (Hrun : patch_users_role req s =
      match update_first [("email", str (param req))] [op_set {["role" := str r]}]
              (users s1) with
      | Some (c', res) => (Sent (ok (update_result res)), set_users c' s1)
      | None => (Sent (fail 500 (message "Role update failed")), s1)
      end).
    { routes_unfold. monad_unfold. rewrite Hauth. simpl.
      rewrite Hfind. simpl. rewrite Hadmin, Hb, (bool_decide_eq_true_2 _ Hin). simpl.
      destruct (update_first _ _ (users s1)) as [[c' res]|]; reflexivity. }
    rewrite Hrun. split.
    + intros Hnone. rewrite (update_first_none _ _ _ Hnone), set_users_same.
      reflexivity.
    + intros record Hrec.
      destruct (set_user_field _ "role" (str r) _ _ Hrec) as (c' & -> & Hfind' & _);
        [reflexivity | discriminate | discriminate |].
      eexists _, _, _. split; [reflexivity|]. simpl.
      split; [exact Hfind'|].
      split; [apply lookup_union_Some_l, lookup_singleton_eq|].
      split; [intros k Hk; apply lookup_union_r, lookup_singleton_ne; congruence|].
      split; [reflexivity|]. split; [reflexivity|]. split; [reflexivity|].
      intros Hself Hnot req2 u2 s3 Hauth2 He2.
      rewrite Hself, <- He2 in Hfind'.
      destruct (verifyToken_reads_record _ _ _ _ _ Hauth2 Hfind') as (-> & Hr2 & _).
      routes_unfold. monad_unfold. rewrite Hauth2. simpl.
      rewrite Hfind'. simpl.
      rewrite not_is_string; [reflexivity|].
      rewrite lookup_union_Some_l with (x := str r) by apply lookup_singleton_eq.
      intros [= E]. congruence.
Qed.

(** X18: blocking takes effect on the blocked user's next request.  An
    admin's block of an email that has a record stores [!!isBlocked] on it;
    when that is true the user's next creation and boost are refused (403
    "Your account is blocked").  Blocking an email without a record is
    answered 200 and writes nothing. *)
Theorem block_takes_effect_on_the_next_request req s u s1 :
  verifyToken req s = (Val u, s1) →
  role u = Some (str "admin") →
  (find_first [("email", str (param req))] (users s1) = None →
   patch_users_block req s
   = (Sent (ok (update_result {| matchedCount := 0; modifiedCount := 0 |})), s1))
  ∧ (∀ record,
       find_first [("email", str (param req))] (users s1) = Some record →
       ∃ res s2 record',
         patch_users_block req s = (Sent (ok (update_result res)), s2)
         ∧ find_first [("email", str (param req))] (users s2) = Some record'
         ∧ record' !! "isBlocked"
           = Some (boolean (truthy_body (body req !! "isBlocked")))
         ∧ record' !! "role" = record !! "role"
         ∧ issues s2 = issues s1
         ∧ ∀ req2 u2 s3,
             verifyToken req2 s2 = (Val u2, s3) → email u2 = param req →
             truthy (Some (isBlocked u2)) = truthy_body (body req !! "isBlocked")
             ∧ (truthy_body (body req !! "isBlocked") = true →
                post_issues req2 s2
                = (Sent (fail 403 (message "Your account is blocked")), s3)
                ∧ post_issues_boost req2 s2
                  = (Sent (fail 403 (message "Your account is blocked")), s3))).
Proof.
  intros Hauth Hrole.
  assert (Hrun : patch_users_block req s =
    match update_first [("email", str (param req))]
            [op_set {["isBlocked" := boolean (truthy_body (body req !! "isBlocked"))]}]
            (users s1) with
    | Some (c', res) => (Sent (ok (update_result res)), set_users c' s1)
    | None => (Sent (fail 500 (error MongoServerError)), s1)
    end).
  { routes_unfold. monad_unfold. rewrite Hauth, Hrole.
    rewrite (is_string_true _ "admin") by reflexivity. simpl.
    destruct (update_first _ _ (users s1)) as [[c' res]|]; reflexivity. }
  rewrite Hrun. split.
  - intros Hnone. rewrite (update_first_none _ _ _ Hnone), set_users_same. reflexivity.
  - intros record Hrec.
    destruct (set_user_field _ "isBlocked"
                (boolean (truthy_body (body req !! "isBlocked"))) _ _ Hrec)
      as (c' & -> & Hfind' & _); [reflexivity | discriminate | discriminate |].
    eexists _, _, _. split; [reflexivity|]. simpl.
    split; [exact Hfind'|].
    split; [apply lookup_union_Some_l, lookup_singleton_eq|].
    split; [apply lookup_union_r, lookup_singleton_ne; discriminate|].
    split; [reflexivity|].
    intros req2 u2 s3 Hauth2 He2. rewrite <- He2 in Hfind'.
    destruct (verifyToken_reads_record _ _ _ _ _ Hauth2 Hfind') as (-> & _ & Hb & _).
    rewrite lookup_union_Some_l with (x := boolean (truthy_body (body req !! "isBlocked")))
      in Hb by apply lookup_singleton_eq.
    assert (Hflag : truthy (Some (isBlocked u2)) = truthy_body (body req !! "isBlocked")).
    { rewrite Hb. simpl. reflexivity. }
    split; [exact Hflag|]. intros Hon. rewrite Hon in Hflag.
    split; routes_unfold; monad_unfold; rewrite Hauth2, Hflag; reflexivity.
Qed.

(** A request that does not run as a citizen was not provisioned by it. *)
Lemma verifyToken_of_known_user req s u s1 :
  verifyToken req s = (Val u, s1) → role u ≠ Some (str "citizen") → s1 = s.
Proof.
  intros Hrun Hrole.
  destruct (verifyToken_accepted _ _ _ _ Hrun) as (h & tok & d & Hh & Hp & Hs & Hv & _).
  rewrite (verifyToken_accepts _ _ _ _ _ Hh Hp Hs Hv) in Hrun.
  destruct (find_first _ (users s)); injection Hrun as <- <-;
    [reflexivity | contradiction Hrole; reflexivity].
Qed.

(** X19: promotion makes a user assignable.  After an admin's make-staff of
    an email whose record holds that email as a string, an assignment of
    an existing issue to that email finds the staff member and succeeds;
    make-admin stores the role admin in the same way. *)
Theorem promoted_staff_can_be_assigned req s u s1 record :
  verifyToken req s = (Val u, s1) →
  role u = Some (str "admin") →
  find_first [("email", str (param req))] (users s1) = Some record →
  (∃ res s2 record',
     patch_users_make_admin req s = (Sent (ok (update_result res)), s2)
     ∧ find_first [("email", str (param req))] (users s2) = Some record'
     ∧ record' !! "role" = Some (str "admin")
     ∧ issues s2 = issues s1)
  ∧ ∃ res s2 record',
      patch_users_make_staff req s = (Sent (ok (update_result res)), s2)
      ∧ find_first [("email", str (param req))] (users s2) = Some record'
      ∧ record' !! "role" = Some (str "staff")
      ∧ issues s2 = issues s1
      ∧ (record !! "email" = Some (str (param req)) →
         ∀ req2 u2 s3 o issue,
           verifyToken req2 s2 = (Val u2, s3) → role u2 = Some (str "admin") →
           param req ≠ "" →
           body req2 !! "staffEmail" = Some (JStr (param req)) →
           ObjectId (param req2) = Some o →
           find_first [("_id", VOid o)] (issues s3) = Some issue →
           ∃ r s4 issue',
             patch_issues_assign req2 s2 = (Sent r, s4) ∧ status r = 200%nat
             ∧ find_first [("_id", VOid o)] (issues s4) = Some issue'
             ∧ issue' !! "assignedStaff" = Some (str (param req))).
Proof.
  intros Hauth Hrole Hrec.
  assert (Hrun : ∀ r,
    (u ← verifyToken req; requireRole "admin" u;;
     try_catch
       (result ← Collection.updateOne usersCollection [("email", str (param req))]
                   [op_set {[ "role" := str r ]}];
        send (ok (update_result result)))
       (λ err, send (fail 500 (error err)))) s
    = match update_first [("email", str (param req))] [op_set {["role" := str r]}]
              (users s1) with
      | Some (c', res) => (@Sent unit (ok (update_result res)), set_users c' s1)
      | None => (Sent (fail 500 (error MongoServerError)), s1)
      end).
  { intros r. routes_unfold. monad_unfold. rewrite Hauth, Hrole.
    rewrite (is_string_true _ "admin") by reflexivity. simpl.
    destruct (update_first _ _ (users s1)) as [[c' res]|]; reflexivity. }
  split.
  - unfold patch_users_make_admin. rewrite (Hrun "admin").
    destruct (set_user_field _ "role" (str "admin") _ _ Hrec) as (c' & -> & Hfind' & _);
      [reflexivity | discriminate | discriminate |].
    eexists _, _, _. split; [reflexivity|]. simpl. split; [exact Hfind'|].
    split; [apply lookup_union_Some_l, lookup_singleton_eq | reflexivity].
  - unfold patch_users_make_staff. rewrite (Hrun "staff").
    destruct (set_user_field _ "role" (str "staff") _ _ Hrec) as (c' & -> & Hfind' & _);
      [reflexivity | discriminate | discriminate |].
    eexists _, _, _. split; [reflexivity|]. simpl. split; [exact Hfind'|].
    split; [apply lookup_union_Some_l, lookup_singleton_eq|].
    split; [reflexivity|].
    intros Hemail req2 u2 s3 o issue Hauth2 Hrole2 Hne Hse Hid Hissue.
    assert (Htruthy : truthy_json (JStr (param req)) = true).
    { simpl. apply negb_true_iff, String.eqb_neq, Hne. }
    rewrite (patch_issues_assign_unfold _ _ _ _ _ _ Hauth2 Hrole2 Hid Hse Htruthy).
    change (VJson (JStr (param req))) with (str (param req)).
    assert (s3 = set_users c' s1) as ->.
    { apply (verifyToken_of_known_user _ _ _ _ Hauth2). rewrite Hrole2. discriminate. }
    assert (Hstaff : ∃ st, find_first [("email", str (param req)); ("role", str "staff")]
                             (users (set_users c' s1)) = Some st).
    { apply find_first_split in Hfind' as (pre & post & Hc & _ & _).
      apply (find_first_exists _ _ ({["role" := str "staff"]} ∪ record)).
      - simpl. rewrite Hc. apply elem_of_app. right. left.
      - apply matches_staff.
        + rewrite lookup_union_r by reflexivity. exact Hemail.
        + apply lookup_union_Some_l, lookup_singleton_eq. }
    destruct Hstaff as [st ->].
    destruct (find_first_split _ _ _ Hissue) as (pre & post & Hissues & Hpre & Hm).
    rewrite Hissue, Hissues, (update_first_at _ _ _ _ _ Hpre Hm).
    rewrite apply_set by reflexivity. simpl.
    eexists _, _, _. split; [reflexivity|]. simpl.
    split; [reflexivity|]. split.
    + apply find_first_at; [exact Hpre|].
      rewrite matches_id_after_set by reflexivity. exact Hm.
    + apply lookup_union_Some_l. reflexivity.
Qed.

(** *** Premium *)

Lemma premium_caller_passes_the_quota req s u s1 :
  verifyToken req s = (Val u, s1) →
  truthy (Some (isBlocked u)) = false →
  truthy (Some (isPremium u)) = true →
  ∀ r s2, post_issues req s = (Sent r, s2) →
          sent r ≠ message "Free user limit reached. Upgrade to premium.".
Proof.
  intros Hauth Hnb Hprem r s2.
  rewrite (post_issues_unfold _ _ _ _ Hauth Hnb), Hprem. simpl.
  destruct (insert_doc _ _ _) as [[c' i]|]; intros [= <- <-]; discriminate.
Qed.

(** X20: premium is self-service.  A caller's make-premium request for the
    caller's own email sets the premium flag of the caller's record without
    recording any payment, and from then on the caller's creations are
    never refused for the quota. *)
Theorem self_made_premium_lifts_the_quota req s u s1 :
  verifyToken req s = (Val u, s1) →
  email u = param req →
  ∃ res s2 record',
    patch_users_premium req s = (Sent (ok (update_result res)), s2)
    ∧ find_first [("email", str (email u))] (users s2) = Some record'
    ∧ record' !! "premium" = Some (boolean true)
    ∧ payments s2 = payments s1 ∧ issues s2 = issues s1
    ∧ ∀ req2 u2 s3,
        verifyToken req2 s2 = (Val u2, s3) → email u2 = email u →
        truthy (Some (isBlocked u2)) = false →
        ∀ r s4, post_issues req2 s2 = (Sent r, s4) →
                sent r ≠ message "Free user limit reached. Upgrade to premium.".
Proof.
  intros Hauth Hself.
  destruct (verifyToken_inv _ _ _ _ Hauth) as (_ & _ & _ & dbUser & Hfind & _).
  destruct (set_user_field _ "premium" (boolean true) _ _ Hfind) as (c' & Hupd & Hfind' & _);
    [reflexivity | discriminate | discriminate |].
  assert (Hrun : patch_users_premium req s
                 = (Sent (ok (update_result
                      {| matchedCount := 1;
                         modifiedCount :=
                           if bool_decide ({["premium" := boolean true]} ∪ dbUser = dbUser)
                           then 0 else 1 |}%nat)), set_users c' s1)).
  { routes_unfold. monad_unfold. rewrite Hauth, <- Hself, String.eqb_refl. simpl.
    rewrite Hupd. reflexivity. }
  rewrite Hrun. eexists _, _, _. split; [reflexivity|]. simpl.
  split; [exact Hfind'|].
  split; [apply lookup_union_Some_l, lookup_singleton_eq|].
  split; [reflexivity|]. split; [reflexivity|].
  intros req2 u2 s3 Hauth2 He2 Hnb r s4.
  rewrite <- He2 in Hfind'.
  destruct (verifyToken_reads_record _ _ _ _ _ Hauth2 Hfind') as (_ & _ & _ & Hp).
  apply (premium_caller_passes_the_quota _ _ _ _ Hauth2 Hnb).
  rewrite Hp, lookup_union_Some_l with (x := boolean true) by apply lookup_singleton_eq.
  reflexivity.
Qed.

(** One run of the premium verification. *)
Lemma premium_verify_run req s u s1 t a :
  verifyToken req s = (Val u, s1) →
  body req !! "transactionId" = Some t → truthy_json t = true →
  body req !! "amount" = Some a → truthy_json a = true →
  ∃ c' record',
    post_payment_premium_verify req s
    = (Val premium_activated,
       set_users c' (set_payments (payments s1 ++ [premium_payment req u t a]) s1))
    ∧ find_first [("email", str (email u))] c' = Some record'
    ∧ record' !! "premium" = Some (boolean true).
Proof.
  intros Hauth Ht Htt Ha Hta.
  destruct (verifyToken_inv _ _ _ _ Hauth) as (_ & _ & _ & dbUser & Hfind & _).
  destruct (set_user_field _ "premium" (boolean true) _ _ Hfind) as (c' & Hupd & Hfind' & _);
    [reflexivity | discriminate | discriminate |].
  exists c', ({["premium" := boolean true]} ∪ dbUser).
  split; [|split; [exact Hfind' | apply lookup_union_Some_l, lookup_singleton_eq]].
  routes_unfold. unfold premium_payment. monad_unfold.
  rewrite Hauth, Ht, Ha, Htt, Hta. simpl. rewrite Hupd. reflexivity.
Qed.

(** X21: the premium verification takes the transaction at face value.
    With a transactionId and an amount in the body it records exactly one
    payment of type premium for the caller and sets the caller's premium
    flag; without either it answers 400 and writes nothing.  Nothing guards
    against a replay: the same transactionId sent again is accepted again
    and recorded as a second payment. *)
Theorem premium_verification_accepts_replays req s u s1 :
  verifyToken req s = (Val u, s1) →
  (truthy_body (body req !! "transactionId") = false
   ∨ truthy_body (body req !! "amount") = false →
   post_payment_premium_verify req s
   = (Sent (fail 400 (message "Missing transactionId or amount")), s1))
  ∧ (∀ t a,
       body req !! "transactionId" = Some t → truthy_json t = true →
       body req !! "amount" = Some a → truthy_json a = true →
       ∃ s2 pay record',
         post_payment_premium_verify req s = (Val premium_activated, s2)
         ∧ payments s2 = payments s1 ++ [pay]
         ∧ pay !! "type" = Some (str "premium")
         ∧ pay !! "email" = Some (str (email u))
         ∧ pay !! "transactionId" = Some (VJson t)
         ∧ pay !! "amount" = Some (VJson a)
         ∧ find_first [("email", str (email u))] (users s2) = Some record'
         ∧ record' !! "premium" = Some (boolean true)
         ∧ issues s2 = issues s1 ∧ timeline s2 = timeline s1
         ∧ ∀ req2 u2 s3,
             verifyToken req2 s2 = (Val u2, s3) → email u2 = email u →
             body req2 = body req →
             ∃ s4 pay2,
               post_payment_premium_verify req2 s2 = (Val premium_activated, s4)
               ∧ payments s4 = payments s1 ++ [pay; pay2]
               ∧ pay2 !! "transactionId" = Some (VJson t)).
Proof.
  intros Hauth. split.
  - intros Hmissing. routes_unfold. monad_unfold. rewrite Hauth.
    unfold truthy_body in Hmissing.
    destruct (body req !! "transactionId") as [t|], (body req !! "amount") as [a|];
      try reflexivity.
    destruct Hmissing as [-> | ->]; simpl; rewrite ?orb_true_r; reflexivity.
  - intros t a Ht Htt Ha Hta.
    destruct (premium_verify_run _ _ _ _ _ _ Hauth Ht Htt Ha Hta)
      as (c' & record' & Hrun & Hfind' & Hprem).
    rewrite Hrun. eexists _, _, record'. split; [reflexivity|]. simpl.
    split; [reflexivity|].
    repeat (split; [reflexivity|]).
    split; [exact Hfind'|]. split; [exact Hprem|].
    split; [reflexivity|]. split; [reflexivity|].
    intros req2 u2 s3 Hauth2 He2 Hbody.
    pose proof Ht as Ht2. pose proof Ha as Ha2. rewrite <- Hbody in Ht2, Ha2.
    destruct (premium_verify_run _ _ _ _ _ _ Hauth2 Ht2 Htt Ha2 Hta)
      as (c2 & record2 & Hrun2 & _ & _).
    rewrite Hrun2. eexists _, _. split; [reflexivity|]. simpl.
    destruct (verifyToken_inv _ _ _ _ Hauth2) as (_ & _ & -> & _). simpl.
    rewrite <- app_assoc. split; reflexivity.
Qed.

(** What the membership read answers. *)
Lemma membership_read req s u s1 record :
  verifyToken req s = (Val u, s1) →
  email u = param req →
  find_first [("email", str (email u))] (users s1) = Some record →
  get_users_membership req s
  = (Val (membership_status (if truthy (record !! "premium") then "premium" else "free")),
     s1).
Proof.
  intros Hauth Hself Hrec. routes_unfold. monad_unfold.
  rewrite Hauth, <- Hself, String.eqb_refl. simpl. rewrite Hrec. reflexivity.
Qed.

(** X22: the membership update and the membership read agree.  After a
    caller's own membership update with a status, the caller's membership
    read answers "premium" when that status was the string "premium" and
    "free" when it was anything else; and after a caller's make-premium
    request it answers "premium". *)
Theorem membership_read_follows_the_update req s u s1 req2 :
  verifyToken req s = (Val u, s1) →
  email u = param req →
  param req2 = param req →
  (∀ st u2 s3,
     body req !! "status" = Some st → truthy_json st = true →
     verifyToken req2 (patch_users_membership req s).2 = (Val u2, s3) →
     email u2 = email u →
     get_users_membership req2 (patch_users_membership req s).2
     = (Val (membership_status
               (if bool_decide (st = JStr "premium") then "premium" else "free")), s3))
  ∧ (∀ u2 s3,
       verifyToken req2 (patch_users_premium req s).2 = (Val u2, s3) →
       email u2 = email u →
       get_users_membership req2 (patch_users_premium req s).2
       = (Val (membership_status "premium"), s3)).
Proof.
  intros Hauth Hself Hparam.
  destruct (verifyToken_inv _ _ _ _ Hauth) as (_ & _ & _ & dbUser & Hfind & _).
  split.
  - intros st u2 s3 Hst Htruthy.
    destruct (set_user_field _ "premium"
                (boolean (bool_decide (Some st = Some (JStr "premium")))) _ _ Hfind)
      as (c' & Hupd & Hfind' & _); [reflexivity | discriminate | discriminate |].
    assert (Hrun : (patch_users_membership req s).2 = set_users c' s1).
    { routes_unfold. monad_unfold. rewrite Hauth, Hst. unfold truthy_body.
      rewrite Htruthy. simpl. rewrite <- Hself, String.eqb_refl. simpl.
      rewrite Hupd. reflexivity. }
    rewrite Hrun. intros Hauth2 He2.
    assert (Hrec2 : find_first [("email", str (email u2))] (users (set_users c' s1))
                    = Some ({["premium" := boolean (bool_decide (Some st = Some (JStr "premium")))]}
                              ∪ dbUser))
      by (rewrite He2; exact Hfind').
    destruct (verifyToken_reads_record _ _ _ _ _ Hauth2 Hrec2) as (-> & _).
    rewrite (membership_read _ _ _ _ _ Hauth2 (eq_trans (eq_trans He2 Hself) (eq_sym Hparam)) Hrec2).
    rewrite lookup_union_Some_l
      with (x := boolean (bool_decide (Some st = Some (JStr "premium"))))
      by apply lookup_singleton_eq.
    simpl. destruct (decide (st = JStr "premium")) as [->|Hn].
    + rewrite !bool_decide_eq_true_2 by reflexivity. reflexivity.
    + rewrite !bool_decide_eq_false_2 by congruence. reflexivity.
  - intros u2 s3.
    destruct (set_user_field _ "premium" (boolean true) _ _ Hfind)
      as (c' & Hupd & Hfind' & _); [reflexivity | discriminate | discriminate |].
    assert (Hrun : (patch_users_premium req s).2 = set_users c' s1).
    { routes_unfold. monad_unfold. rewrite Hauth, <- Hself, String.eqb_refl. simpl.
      rewrite Hupd. reflexivity. }
    rewrite Hrun. intros Hauth2 He2.
    assert (Hrec2 : find_first [("email", str (email u2))] (users (set_users c' s1))
                    = Some ({["premium" := boolean true]} ∪ dbUser))
      by (rewrite He2; exact Hfind').
    destruct (verifyToken_reads_record _ _ _ _ _ Hauth2 Hrec2) as (-> & _).
    rewrite (membership_read _ _ _ _ _ Hauth2 (eq_trans (eq_trans He2 Hself) (eq_sym Hparam)) Hrec2).
    rewrite lookup_union_Some_l with (x := boolean true) by apply lookup_singleton_eq.
    reflexivity.
Qed.

(** *** Registration, profile and the read of one issue *)

Lemma matches_email_of e (d : doc) :
  d !! "email" = Some (str e) → matches [("email", str e)] d = true.
Proof.
  intros Hd. unfold matches. simpl. rewrite Hd. simpl.
  rewrite bool_decide_eq_true_2 by reflexivity. reflexivity.
Qed.

(** X23: registration never overwrites.  [POST /users] without a truthy
    email is answered 400 and writes nothing.  With a string email that
    already has a record it answers success and leaves every record as it
    is; without one it appends one record with that email, role citizen,
    premium false and isBlocked false, whatever role or flags the body
    carries.  The token check then finds that record: it reports the role
    citizen and provisions nothing. *)
Theorem registration_never_overwrites req s :
  (truthy_body (body req !! "email") = false →
   post_users req s = (Sent (fail 400 (message "Email required")), s))
  ∧ ∀ e, body req !! "email" = Some (JStr e) → e ≠ "" →
      (∀ record, find_first [("email", str e)] (users s) = Some record →
         post_users req s
         = (Sent (ok (success_result {| matchedCount := 1; modifiedCount := 0 |})), s))
      ∧ (find_first [("email", str e)] (users s) = None →
         ∃ record,
           post_users req s
           = (Sent (ok (success_result {| matchedCount := 0; modifiedCount := 0 |})),
              set_users (users s ++ [record]) s)
           ∧ record !! "email" = Some (str e)
           ∧ record !! "role" = Some (str "citizen")
           ∧ record !! "premium" = Some (boolean false)
           ∧ record !! "isBlocked" = Some (boolean false)
           ∧ ∀ req2 u2 s3,
               verifyToken req2 (set_users (users s ++ [record]) s) = (Val u2, s3) →
               email u2 = e →
               s3 = set_users (users s ++ [record]) s
               ∧ role u2 = Some (str "citizen")
               ∧ truthy (Some (isPremium u2)) = false
               ∧ truthy (Some (isBlocked u2)) = false).
Proof.
  split.
  - intros Hmissing. unfold post_users. monad_unfold. unfold truthy_body in Hmissing.
    destruct (body req !! "email") as [j|]; [rewrite Hmissing|]; reflexivity.
  - intros e He Hne.
    assert (Htruthy : truthy_json (JStr e) = true).
    { simpl. destruct (String.eqb_spec e ""); [contradiction | reflexivity]. }
    split.
    + intros record Hfind. unfold post_users, upsertOne, upsert_on_insert. monad_unfold.
      rewrite He, Htruthy. simpl. unfold str in Hfind. rewrite Hfind. simpl.
      rewrite set_users_same. reflexivity.
    + intros Hnone. eexists.
      split.
      { unfold post_users, upsertOne, upsert_on_insert. monad_unfold.
        rewrite He, Htruthy. simpl. unfold str in Hnone. rewrite Hnone. simpl.
        reflexivity. }
      split; [reflexivity|]. split; [reflexivity|].
      split; [reflexivity|]. split; [reflexivity|].
      intros req2 u2 s3 Hauth2 He2.
      match type of Hauth2 with
      | verifyToken _ (set_users (_ ++ [?r]) _) = _ =>
          assert (Hrec : find_first [("email", str (email u2))]
                           (users (set_users (users s ++ [r]) s)) = Some r)
      end.
      { simpl. rewrite He2, find_first_app, Hnone.
        rewrite matches_email_of by reflexivity. reflexivity. }
      destruct (verifyToken_reads_record _ _ _ _ _ Hauth2 Hrec) as (-> & -> & -> & ->).
      repeat split.
Qed.

(** Setting several fields of the first record with an email. *)
Lemma set_user_fields e (fields : doc) (c : list doc) record :
  find_first [("email", str e)] c = Some record →
  forallb plain_key (map_to_list fields).*1 = true →
  fields !! "_id" = None → fields !! "email" = None →
  ∃ c',
    update_first [("email", str e)] [op_set fields] c
    = Some (c', {| matchedCount := 1;
                   modifiedCount :=
                     if bool_decide (fields ∪ record = record) then 0 else 1 |}%nat)
    ∧ find_first [("email", str e)] c' = Some (fields ∪ record)
    ∧ length c' = length c.
Proof.
  intros Hfind Hplain Hid Hemail.
  destruct (find_first_split _ _ _ Hfind) as (pre & post & -> & Hpre & Hm).
  rewrite (update_first_at _ _ _ _ _ Hpre Hm).
  rewrite apply_set by assumption.
  eexists. split; [reflexivity|]. split.
  - apply find_first_at; [exact Hpre|].
    etransitivity; [|exact Hm]. apply matches_single_ext.
    apply lookup_union_r, Hemail.
  - rewrite !length_app. reflexivity.
Qed.

(** The fields [PATCH /users/profile] sets. *)
Lemma profile_fields_lookup (name image : option json) t :
  let fields : doc :=
    let updateDoc : doc := {[ "updatedAt" := VDate t ]} in
    let updateDoc :=
      match name with
      | Some n => if truthy_json n then <["name" := VJson n]> updateDoc else updateDoc
      | None => updateDoc
      end in
    match image with
    | Some i => if truthy_json i then <["image" := VJson i]> updateDoc else updateDoc
    | None => updateDoc
    end in
  forallb plain_key (map_to_list fields).*1 = true
  ∧ fields !! "updatedAt" = Some (VDate t)
  ∧ fields !! "name" = (if truthy_body name then VJson <$> name else None)
  ∧ fields !! "image" = (if truthy_body image then VJson <$> image else None)
  ∧ ∀ k, k ∉ ["name"; "image"; "updatedAt"] → fields !! k = None.
Proof.
  intros fields.
  assert (Hkeys : ∀ k, is_Some (fields !! k) → k ∈ ["name"; "image"; "updatedAt"]).
  { intros k [v Hk]. subst fields.
    destruct name as [n|], image as [i|]; simpl in Hk;
      repeat match type of Hk with context [if ?b then _ else _] => destruct b end;
      repeat match type of Hk with
             | <[?k' := _]> _ !! k = _ =>
                 destruct (decide (k' = k)) as [<-|];
                 [set_solver | rewrite lookup_insert_ne in Hk by assumption]
             | {[?k' := _]} !! k = _ =>
                 destruct (decide (k' = k)) as [<-|];
                 [set_solver | rewrite lookup_singleton_ne in Hk by assumption]
             end; try discriminate. }
  split.
  { apply plain_keys_of. intros k Hk. apply Hkeys in Hk.
    repeat (apply elem_of_cons in Hk as [->|Hk]; [reflexivity|]).
    apply elem_of_nil in Hk as []. }
  split; [|split; [|split]].
  - subst fields. destruct name as [n|], image as [i|]; simpl;
      repeat match goal with |- context [if ?b then _ else _] => destruct b end;
      reflexivity.
  - subst fields. unfold truthy_body.
    destruct name as [n|], image as [i|]; simpl;
      repeat match goal with |- context [truthy_json ?x] => destruct (truthy_json x) end;
      reflexivity.
  - subst fields. unfold truthy_body.
    destruct name as [n|], image as [i|]; simpl;
      repeat match goal with |- context [truthy_json ?x] => destruct (truthy_json x) end;
      reflexivity.
  - intros k Hk. destruct (fields !! k) eqn:E; [|reflexivity].
    exfalso. apply Hk, Hkeys. eauto.
Qed.

(** X24: the profile update touches name, image and updatedAt only.  For
    an authenticated caller it always succeeds on the caller's own record:
    updatedAt becomes the time of the request, name and image become the
    body's values when these are truthy and stay as they were otherwise
    (an empty name cannot be stored), and every other field of the record,
    role, premium and isBlocked among them, stays, whatever the body
    carries. *)
Theorem profile_update_touches_name_and_image_only req s u s1 :
  verifyToken req s = (Val u, s1) →
  ∃ record res c' record',
    find_first [("email", str (email u))] (users s1) = Some record
    ∧ patch_users_profile req s = (Sent (ok (success_result res)), set_users c' s1)
    ∧ length c' = length (users s1)
    ∧ find_first [("email", str (email u))] c' = Some record'
    ∧ record' !! "updatedAt" = Some (VDate (clock req))
    ∧ record' !! "name"
      = (if truthy_body (body req !! "name") then VJson <$> body req !! "name"
         else record !! "name")
    ∧ record' !! "image"
      = (if truthy_body (body req !! "image") then VJson <$> body req !! "image"
         else record !! "image")
    ∧ ∀ k, k ∉ ["name"; "image"; "updatedAt"] → record' !! k = record !! k.
Proof.
  intros Hauth.
  destruct (verifyToken_inv _ _ _ _ Hauth) as (_ & _ & _ & record & Hfind & _).
  destruct (profile_fields_lookup (body req !! "name") (body req !! "image") (clock req))
    as (Hplain & Hupd & Hname & Himage & Hother).
  cbv zeta in Hplain, Hupd, Hname, Himage, Hother.
  match type of Hupd with ?f !! _ = _ => set (fields := f) in * end.
  destruct (set_user_fields _ fields _ _ Hfind Hplain) as (c' & Hset & Hfind' & Hlen).
  { apply Hother. intros Hin.
    repeat (apply elem_of_cons in Hin as [Hin|Hin]; [discriminate|]).
    apply elem_of_nil in Hin as []. }
  { apply Hother. intros Hin.
    repeat (apply elem_of_cons in Hin as [Hin|Hin]; [discriminate|]).
    apply elem_of_nil in Hin as []. }
  exists record, {| matchedCount := 1;
                    modifiedCount := if bool_decide (fields ∪ record = record)
                                     then 0 else 1 |}%nat, c', (fields ∪ record).
  split; [exact Hfind|]. split.
  { unfold patch_users_profile. monad_unfold. rewrite Hauth. cbv zeta.
    fold fields. change (docs usersCollection s1) with (users s1). rewrite Hset. reflexivity. }
  split; [exact Hlen|]. split; [exact Hfind'|].
  split; [apply lookup_union_Some_l, Hupd|].
  split; [|split].
  - destruct (truthy_body (body req !! "name")) eqn:E.
    + destruct (body req !! "name") as [n|] eqn:En; [|discriminate E].
      apply lookup_union_Some_l. rewrite Hname. reflexivity.
    + apply lookup_union_r, Hname.
  - destruct (truthy_body (body req !! "image")) eqn:E.
    + destruct (body req !! "image") as [n|] eqn:En; [|discriminate E].
      apply lookup_union_Some_l. rewrite Himage. reflexivity.
    + apply lookup_union_r, Himage.
  - intros k Hk. apply lookup_union_r, Hother, Hk.
Qed.

(** X25: who may read one issue.  For an authenticated caller and an
    existing issue: a caller whose role is citizen or user gets the issue
    exactly when the caller is its reporter, and 403 otherwise; a caller
    whose role is staff gets it exactly when the caller is its assigned
    staff, and 403 otherwise, also when that staff member reported it; a
    caller with any other role, or none, gets it.  The read writes
    nothing. *)
Theorem single_issue_read_access req s u s1 o issue :
  verifyToken req s = (Val u, s1) →
  ObjectId (param req) = Some o →
  find_first [("_id", VOid o)] (issues s1) = Some issue →
  let citizen := is_string (role u) "citizen" || is_string (role u) "user" in
  let staff := is_string (role u) "staff" in
  (citizen = true →
   get_issues_id req s
   = (if is_string (issue !! "reporterEmail") (email u)
      then Val (issue_found issue)
      else Sent (fail 403 (message "Forbidden: Not your issue")), s1))
  ∧ (staff = true →
     get_issues_id req s
     = (if is_string (issue !! "assignedStaff") (email u)
        then Val (issue_found issue)
        else Sent (fail 403 (message "Forbidden: Not assigned to you")), s1))
  ∧ (citizen = false → staff = false →
     get_issues_id req s = (Val (issue_found issue), s1)).
Proof.
  intros Hauth Hid Hissue citizen staff.
  destruct (verifyToken_inv _ _ _ _ Hauth) as (_ & _ & _ & dbUser & Hfind & Hrole & _).
  assert (Hrun : get_issues_id req s
                 = (if citizen then
                      if is_string (issue !! "reporterEmail") (email u)
                      then Val (issue_found issue)
                      else Sent (fail 403 (message "Forbidden: Not your issue"))
                    else if staff then
                      if is_string (issue !! "assignedStaff") (email u)
                      then Val (issue_found issue)
                      else Sent (fail 403 (message "Forbidden: Not assigned to you"))
                    else Val (issue_found issue), s1)).
  { subst citizen staff. unfold get_issues_id. monad_unfold.
    rewrite Hauth, Hid. simpl. rewrite Hissue. simpl. rewrite Hfind. simpl.
    rewrite <- Hrole.
    destruct (is_string (role u) "citizen" || is_string (role u) "user"); simpl.
    - destruct (is_string (issue !! "reporterEmail") (email u)); reflexivity.
    - destruct (is_string (role u) "staff"); simpl; [|reflexivity].
      destruct (is_string (issue !! "assignedStaff") (email u)); reflexivity. }
  rewrite Hrun. split; [intros ->; reflexivity|]. split.
  - intros Hs. destruct citizen eqn:Hc; [|rewrite Hs; reflexivity].
    exfalso. subst citizen staff. unfold is_string in *.
    apply bool_decide_eq_true_1 in Hs. rewrite Hs in Hc.
    rewrite !bool_decide_eq_false_2 in Hc by discriminate. discriminate.
  - intros -> ->. reflexivity.
Qed.

End Properties.

(** ** The properties on the sample deployment *)

Import Sample.
#[local] Existing Instance Sample.platform.

Lemma verify_alice id b :
  verifyToken (request_of "tok-alice" id b) city = (Val alice, city).
Proof. vm_compute. reflexivity. Qed.

Lemma verify_bob id b :
  verifyToken (request_of "tok-bob" id b) city = (Val bob, city).
Proof. vm_compute. reflexivity. Qed.

Lemma verify_carol id b :
  verifyToken (request_of "tok-carol" id b) city = (Val carol, city).
Proof. vm_compute. reflexivity. Qed.

Lemma verify_root id b :
  verifyToken (request_of "tok-root" id b) city = (Val root, city).
Proof. vm_compute. reflexivity. Qed.

(** C9 on the sample: alice asks for the admin's role and is told
    "citizen". *)
Lemma role_of_another_user_is_citizen_witness :
  get_users_role (request_of "tok-alice" "root@city.example" ∅) city
  = (Sent (ok (role_is (str "citizen"))), city).
Proof.
  apply (role_of_another_user_is_citizen _ _ alice city).
  - apply verify_alice.
  - vm_compute. discriminate.
Defined.
(** C10 on the sample: bob, a premium user, sends the status "free" to the
    membership route and is no longer premium. *)
Lemma membership_update_sets_premium_from_status_witness :
  optional (find_first [("email", str "bob@city.example")] (users city)) "premium"
  = Some (boolean true)
  ∧ ∃ result s2,
      patch_users_membership
        (request_of "tok-bob" "bob@city.example" {["status" := JStr "free"]}) city
      = (Sent (ok (success_result result)), s2)
      ∧ optional (find_first [("email", str "bob@city.example")] (users s2)) "premium"
        = Some (boolean false).
Proof.
  split; [vm_compute; reflexivity|].
  destruct (membership_update_sets_premium_from_status
              (request_of "tok-bob" "bob@city.example" {["status" := JStr "free"]})
              city bob city (JStr "free"))
    as (result & s2 & Hrun & _ & Hunset & _).
  - apply verify_bob.
  - reflexivity.
  - vm_compute. reflexivity.
  - reflexivity.
  - exists result, s2. split; [exact Hrun|]. apply Hunset. discriminate.
Defined.


(** C3 on the sample: alice is not premium and has three open issues; her
    fourth creation is refused. *)
Lemma creation_quota_witness :
  post_issues (request_of "tok-alice" "" {["title" := JStr "Leak"]}) city
  = (Sent (fail 403 (message "Free user limit reached. Upgrade to premium.")), city).
Proof.
  destruct (creation_quota (request_of "tok-alice" "" {["title" := JStr "Leak"]})
              city alice city)
    as (Hquota & _).
  - apply verify_alice.
  - reflexivity.
  - apply Hquota.
    + reflexivity.
    + vm_compute. lia.
Defined.

(** C4 on the sample: bob's creation with a status, a priority and an
    upvote count of his own stores them; upvoters and reportedAt are the
    server's. *)
Lemma creation_stores_supplied_or_default_witness :
  ∃ issue,
    issues after_eager_create.2 = issues city ++ [issue]
    ∧ issue !! "status" = Some (str "closed")
    ∧ issue !! "priority" = Some (str "high")
    ∧ issue !! "upvotes" = Some (num 7)
    ∧ issue !! "upvoters" = Some (VJson (JArr []))
    ∧ issue !! "reportedAt" = Some (VDate 3000)
    ∧ timeline after_eager_create.2
      = [timeline_entry (str id9) (str "closed") (str "Issue reported")
           "bob@city.example" 3000].
Proof.
  destruct (creation_stores_supplied_or_default
              (request_of "tok-bob" "" eager_body) city bob city
              (ok (inserted (VOid id9))) after_eager_create.2)
    as (issue & i & Hsent & Hissues & Hid & Hst & Hpr & Hn & Hl & Hat & _ & _ & Htl & _).
  - apply verify_bob.
  - reflexivity.
  - vm_compute. reflexivity.
  - reflexivity.
  - exists issue. injection Hsent as <-.
    split; [exact Hissues|]. split; [exact Hst|]. split; [exact Hpr|].
    split; [exact Hn|]. split; [exact Hl|]. split; [exact Hat|]. exact Htl.
Defined.
(** C6 on the sample: bob boosts alice's issue, then alice tries to boost
    it again; the second attempt is refused and one payment is on record. *)
Lemma boost_is_idempotent_on_the_flag_witness :
  ∃ r s2 s3,
    post_issues_boost
      (request_of "tok-bob" id1 {["paymentId" := JStr "pi_1"; "amount" := JNum 100]})
      city
    = (Sent r, s2)
    ∧ status r = 200%nat
    ∧ post_issues_boost
        (request_of "tok-alice" id1 {["paymentId" := JStr "pi_2"; "amount" := JNum 100]})
        s2
      = (Sent (fail 400 (message "Issue already boosted")), s3)
    ∧ length (payments city) = 0%nat
    ∧ length (payments s3) = 1%nat.
Proof.
  destruct (boost_is_idempotent_on_the_flag
              (request_of "tok-bob" id1
                 {["paymentId" := JStr "pi_1"; "amount" := JNum 100]})
              city bob city (JStr "pi_1") (JNum 100) id1
              (issue_doc id1 "alice@city.example" "pending" None ["bob@city.example"]))
    as (_ & Hboost).
  - apply verify_bob.
  - reflexivity.
  - vm_compute. reflexivity.
  - reflexivity.
  - vm_compute. reflexivity.
  - reflexivity.
  - vm_compute. reflexivity.
  - vm_compute. reflexivity.
  - destruct Hboost
      as (r & s2 & issue' & pay & Hrun & Hok & Hpay & _ & _ & _ & _ & _ & _ & _ & _ & _ & Hagain).
    + vm_compute. reflexivity.
    + vm_compute. discriminate.
    + assert (Hs2 : s2 = (post_issues_boost
                (request_of "tok-bob" id1
                   {["paymentId" := JStr "pi_1"; "amount" := JNum 100]}) city).2)
        by (rewrite Hrun; reflexivity).
      destruct (Hagain
                  (request_of "tok-alice" id1
                     {["paymentId" := JStr "pi_2"; "amount" := JNum 100]})
                  alice s2 (JStr "pi_2") (JNum 100))
        as (Hrej & Hpay3).
      * rewrite Hs2. vm_compute. reflexivity.
      * reflexivity.
      * vm_compute. reflexivity.
      * reflexivity.
      * vm_compute. reflexivity.
      * reflexivity.
      * reflexivity.
      * exists r, s2, s2. split; [exact Hrun|]. split; [exact Hok|].
        split; [exact Hrej|]. split; [reflexivity|].
        rewrite Hpay3. reflexivity.
Defined.

(** C7 on the sample: the admin assigns alice's pending issue to carol. *)
Lemma assignment_requires_staff_and_advances_witness :
  ∃ issue',
    find_first [("_id", VOid id1)]
      (issues (patch_issues_assign
                 (request_of "tok-root" id1 {["staffEmail" := JStr "carol@city.example"]})
                 city).2)
    = Some issue'
    ∧ issue' !! "assignedStaff" = Some (str "carol@city.example")
    ∧ issue' !! "status" = Some (str "in-progress").
Proof.
  destruct (assignment_requires_staff_and_advances
              (request_of "tok-root" id1 {["staffEmail" := JStr "carol@city.example"]})
              city root city id1 "carol@city.example")
    as (_ & _ & Hassign).
  - apply verify_root.
  - reflexivity.
  - vm_compute. reflexivity.
  - vm_compute. reflexivity.
  - discriminate.
  - destruct (Hassign (user_doc "carol@city.example" "staff" false)
                (issue_doc id1 "alice@city.example" "pending" None ["bob@city.example"]))
      as (r & s2 & issue' & Hrun & _ & Hfind & Hstaff & Hst & _).
    + apply (bool_decide_eq_true_1
               (user_doc "carol@city.example" "staff" false ∈ users city)).
      vm_compute. reflexivity.
    + vm_compute. reflexivity.
    + vm_compute. reflexivity.
    + vm_compute. reflexivity.
    + exists issue'. rewrite Hrun. simpl. auto.
Defined.

(** C8 on the sample: the admin is refused when editing alice's issue, and
    carol's status update leaves every reporterEmail as it was. *)
Lemma reporter_email_changes_only_by_reporter_edit_witness :
  patch_issues_edit (request_of "tok-root" id1 handover_body) city
  = (Sent (fail 403 (message "Not your issue")), city)
  ∧ reporters_kept (issues city)
      (issues (patch_issues_status
                 (request_of "tok-carol" id2 {["status" := JStr "resolved"]}) city).2).
Proof.
  destruct reporter_email_changes_only_by_reporter_edit as (Hedit & Hkept & _).
  split.
  - apply (Hedit _ _ root city id1
             (issue_doc id1 "alice@city.example" "pending" None ["bob@city.example"])).
    + apply verify_root.
    + vm_compute. reflexivity.
    + vm_compute. reflexivity.
    + vm_compute. discriminate.
  - apply (Hkept PATCH_issues_status
             (request_of "tok-carol" id2 {["status" := JStr "resolved"]}) city
             (patch_issues_status
                (request_of "tok-carol" id2 {["status" := JStr "resolved"]}) city).1).
    + discriminate.
    + apply (bool_decide_unpack (unique_ids (issues city))).
      vm_compute. exact I.
    + simpl. apply surjective_pairing.
Defined.

(** Against C4 as stated: bob's creation succeeds and the stored issue has
    the status, priority and upvote count he supplied, not pending,
    normal and 0. *)
Lemma creation_keeps_client_fields :
  after_eager_create.1 = Sent (ok (inserted (VOid id9)))
  ∧ (issues after_eager_create.2 !! 4%nat) ≫= (.!! "status") = Some (str "closed")
  ∧ (issues after_eager_create.2 !! 4%nat) ≫= (.!! "priority") = Some (str "high")
  ∧ (issues after_eager_create.2 !! 4%nat) ≫= (.!! "upvotes") = Some (num 7)
  ∧ length (issues after_eager_create.2) = 5%nat.
Proof. vm_compute. repeat split; reflexivity. Defined.

(** Against C8 as stated: alice, a citizen, edits her own issue with a
    reporterEmail in the body; the edit succeeds and the issue's
    reporterEmail is now bob's. *)
Lemma reporter_email_changed_by_reporter_edit :
  role alice = Some (str "citizen")
  ∧ (find_first [("_id", VOid id1)] (issues city)) ≫= (.!! "reporterEmail")
    = Some (str "alice@city.example")
  ∧ after_handover.1
    = Sent (ok (update_result {| matchedCount := 1; modifiedCount := 1 |}))
  ∧ (find_first [("_id", VOid id1)] (issues after_handover.2)) ≫= (.!! "reporterEmail")
    = Some (str "bob@city.example").
Proof. vm_compute. repeat split; reflexivity. Defined.

(** C5 at the failing input: root is an admin and the reporter of a
    resolved issue; the delete is refused and nothing is written. *)
Lemma delete_by_admin_reporter_of_resolved_is_refused :
  role root = Some (str "admin")
  ∧ delete_issues (request_of "tok-root" id4 ∅) city
    = (Sent (fail 400 (message "Only pending issues can be deleted by reporter")),
       city).
Proof. vm_compute. split; reflexivity. Defined.

(** ** The further properties on the sample deployment *)

(** X1 on the sample: a request without a header, and one with a token
    the identity provider does not know. *)
Lemma refused_token_stops_every_route_witness :
  every_route_answers
    {| authorization := None; param := id1; body := ∅; clock := 3000;
       generated := id9 |}
    city (fail 401 (message "Unauthorized"))
  ∧ every_route_answers (request_of "tok-mallory" id1 ∅) city
      (fail 401 (message "Invalid token")).
Proof.
  split.
  - apply (proj1 (refused_token_stops_every_route _ city)). left. reflexivity.
  - apply (proj2 (refused_token_stops_every_route (request_of "tok-mallory" id1 ∅) city)
             "Bearer tok-mallory" "tok-mallory").
    + reflexivity.
    + reflexivity.
    + vm_compute. reflexivity.
    + vm_compute. reflexivity.
Defined.

(** X2 on the sample: alice's first request to a deployment without user
    records creates her record. *)
Lemma first_sight_provisions_a_citizen_witness :
  ∃ u record,
    verifyToken (request_of "tok-alice" "" ∅) (set_users [] city)
    = (Val u, set_users [record] city)
    ∧ role u = Some (str "citizen")
    ∧ record !! "email" = Some (str "alice@city.example")
    ∧ record !! "role" = Some (str "citizen").
Proof.
  destruct (first_sight_provisions_a_citizen
              (request_of "tok-alice" "" ∅) (set_users [] city)
              "Bearer tok-alice" "tok-alice" (identity "alice@city.example" "alice"))
    as [Hnew _].
  - reflexivity.
  - reflexivity.
  - vm_compute. reflexivity.
  - vm_compute. reflexivity.
  - destruct Hnew as (u & record & Hrun & _ & Hrole & _ & _ & He & Hr & _).
    + vm_compute. reflexivity.
    + exists u, record. split; [exact Hrun|]. split; [exact Hrole|].
      split; [exact He | exact Hr].
Defined.

(** X3 on the sample: alice's first request provisions her record; the
    same request again finds it. *)
Lemma verification_is_idempotent_witness :
  let first := verifyToken (request_of "tok-alice" "" ∅) (set_users [] city) in
  first.1 = Val alice
  ∧ verifyToken (request_of "tok-alice" "" ∅) first.2 = (Val alice, first.2).
Proof.
  intros first. split; [vm_compute; reflexivity|].
  apply (verification_is_idempotent _ (set_users [] city)).
  vm_compute. reflexivity.
Defined.

(** X4 on the sample: carol, a staff member, tries to make herself an
    admin. *)
Lemma admin_routes_refuse_other_roles_witness :
  patch_users_make_admin
    (request_of "tok-carol" "carol@city.example" {["role" := JStr "admin"]}) city
  = (Sent (fail 403 (message "Forbidden - Role required: admin")), city)
  ∧ patch_users_role
      (request_of "tok-carol" "carol@city.example" {["role" := JStr "admin"]}) city
    = (Sent (fail 403 (message "Forbidden access")), city).
Proof.
  pose proof (admin_routes_refuse_other_roles
                (request_of "tok-carol" "carol@city.example" {["role" := JStr "admin"]})
                city carol city) as Hrefused.
  cbv zeta in Hrefused.
  destruct Hrefused as (_ & _ & Hadmin & _ & _ & Hrole).
  - apply verify_carol.
  - vm_compute. discriminate.
  - split; [exact Hadmin | exact Hrole].
Defined.

(** X5 on the sample: after root has blocked alice her creation is
    refused. *)
Lemma blocked_caller_cannot_create_or_boost_witness :
  let blocked :=
    (patch_users_block
       (request_of "tok-root" "alice@city.example" {["isBlocked" := JBool true]})
       city).2 in
  post_issues (request_of "tok-alice" "" {["title" := JStr "Leak"]}) blocked
  = (Sent (fail 403 (message "Your account is blocked")), blocked).
Proof.
  intros blocked.
  apply (blocked_caller_cannot_create_or_boost
           (request_of "tok-alice" "" {["title" := JStr "Leak"]}) blocked
           {| email := "alice@city.example"; uid := "uid-alice";
              role := Some (str "citizen"); isBlocked := boolean true;
              isPremium := boolean false |} blocked).
  - vm_compute. reflexivity.
  - reflexivity.
Defined.

(** X6 on the sample: alice upvotes an id that is no ObjectId. *)
Lemma malformed_id_is_an_error_witness :
  patch_issues_upvote (request_of "tok-alice" "pothole" ∅) city
  = (Sent (fail 500 (error BSONError)), city)
  ∧ get_issues_id (request_of "tok-alice" "pothole" ∅) city
    = (Sent (fail 500 (error BSONError)), city).
Proof.
  pose proof (malformed_id_is_an_error (request_of "tok-alice" "pothole" ∅)
                city alice city) as Hbson.
  cbv zeta in Hbson.
  destruct Hbson as (Hupvote & _ & _ & Hread & _).
  - apply verify_alice.
  - vm_compute. reflexivity.
  - split; [exact Hupvote | exact Hread].
Defined.

(** X7 on the sample: alice upvotes and deletes an id that names no
    issue. *)
Lemma missing_issue_is_not_found_witness :
  patch_issues_upvote (request_of "tok-alice" id9 ∅) city
  = (Sent (fail 404 (message "Issue not found")), city)
  ∧ delete_issues (request_of "tok-alice" id9 ∅) city
    = (Sent (fail 404 (message "Not found")), city).
Proof.
  pose proof (missing_issue_is_not_found (request_of "tok-alice" id9 ∅)
                city alice city id9) as Hmissing.
  cbv zeta in Hmissing.
  destruct Hmissing as (Hupvote & _ & Hdelete & _).
  - apply verify_alice.
  - vm_compute. reflexivity.
  - vm_compute. reflexivity.
  - split; [exact Hupvote | exact Hdelete].
Defined.

(** X8 on the sample: root sets the priority of an issue to the one it
    has and is told 404. *)
Lemma priority_change_and_its_edges_witness :
  patch_issues_priority (request_of "tok-root" id1 {["priority" := JStr "normal"]}) city
  = (Sent (fail 404 (message "Issue not found or unchanged")), city).
Proof.
  destruct (priority_change_and_its_edges
              (request_of "tok-root" id1 {["priority" := JStr "normal"]})
              city root city id1
              (issue_doc id1 "alice@city.example" "pending" None ["bob@city.example"]))
    as (_ & Hvalid).
  - apply verify_root.
  - reflexivity.
  - vm_compute. reflexivity.
  - vm_compute. reflexivity.
  - apply (Hvalid "normal").
    + reflexivity.
    + apply (bool_decide_unpack ("normal" ∈ ["low"; "normal"; "high"])).
      vm_compute. exact I.
    + vm_compute. reflexivity.
Defined.

(** X9 on the sample: carol moves the issue assigned to her from
    in-progress to resolved. *)
Lemma staff_moves_one_step_and_closed_is_final_witness :
  ∃ r s2 issue' entry,
    patch_issues_status (request_of "tok-carol" id2 {["status" := JStr "resolved"]}) city
    = (Sent r, s2)
    ∧ status r = 200%nat
    ∧ find_first [("_id", VOid id2)] (issues s2) = Some issue'
    ∧ issue' !! "status" = Some (str "resolved")
    ∧ timeline s2 = [entry].
Proof.
  destruct (staff_moves_one_step_and_closed_is_final
              (request_of "tok-carol" id2 {["status" := JStr "resolved"]})
              city carol city (JStr "resolved") id2
              (issue_doc id2 "alice@city.example" "in-progress"
                 (Some "carol@city.example") []))
    as (Hstep & _).
  - apply verify_carol.
  - reflexivity.
  - reflexivity.
  - vm_compute. reflexivity.
  - vm_compute. reflexivity.
  - reflexivity.
  - vm_compute. reflexivity.
  - destruct (Hstep "in-progress" "resolved")
      as (r & s2 & issue' & entry & Hrun & Hok & Hfind & Hst & Htl & _).
    + vm_compute. reflexivity.
    + reflexivity.
    + constructor.
    + exists r, s2, issue', entry.
      split; [exact Hrun|]. split; [exact Hok|]. split; [exact Hfind|].
      split; [exact Hst | exact Htl].
Defined.

(** X10 on the sample: root assigns alice's pending issue to carol, and
    carol sets it to resolved. *)
Lemma assigned_staff_can_resolve_witness :
  let assigned :=
    (patch_issues_assign
       (request_of "tok-root" id1 {["staffEmail" := JStr "carol@city.example"]}) city).2 in
  ∃ r2 s4 issue',
    patch_issues_status (request_of "tok-carol" id1 {["status" := JStr "resolved"]})
      assigned
    = (Sent r2, s4)
    ∧ status r2 = 200%nat
    ∧ find_first [("_id", VOid id1)] (issues s4) = Some issue'
    ∧ issue' !! "status" = Some (str "resolved").
Proof.
  intros assigned.
  destruct (assigned_staff_can_resolve
              (request_of "tok-root" id1 {["staffEmail" := JStr "carol@city.example"]})
              city root city id1 "carol@city.example"
              (user_doc "carol@city.example" "staff" false)
              (issue_doc id1 "alice@city.example" "pending" None ["bob@city.example"])
              (request_of "tok-carol" id1 {["status" := JStr "resolved"]})
              carol assigned)
    as (r & r2 & s4 & issue' & _ & _ & Hrun & Hok & Hfind & Hst & _).
  - apply verify_root.
  - reflexivity.
  - vm_compute. reflexivity.
  - reflexivity.
  - discriminate.
  - vm_compute. reflexivity.
  - vm_compute. reflexivity.
  - vm_compute. reflexivity.
  - reflexivity.
  - reflexivity.
  - reflexivity.
  - reflexivity.
  - exists r2, s4, issue'.
    split; [exact Hrun|]. split; [exact Hok|]. split; [exact Hfind | exact Hst].
Defined.

(** X11 on the sample: alice deletes her pending issue; bob's upvote of it
    then finds nothing. *)
Lemma delete_decision_and_aftermath_witness :
  ∃ s2,
    delete_issues (request_of "tok-alice" id1 ∅) city
    = (Sent (ok (delete_result 1)), s2)
    ∧ find_first [("_id", VOid id1)] (issues s2) = None
    ∧ patch_issues_upvote (request_of "tok-bob" id1 ∅) s2
      = (Sent (fail 404 (message "Issue not found")), s2).
Proof.
  destruct (delete_decision_and_aftermath (request_of "tok-alice" id1 ∅)
              city alice city id1
              (issue_doc id1 "alice@city.example" "pending" None ["bob@city.example"]))
    as (_ & _ & Hdelete).
  - apply verify_alice.
  - vm_compute. reflexivity.
  - vm_compute. reflexivity.
  - destruct Hdelete as (s2 & Hrun & Hgone & _ & _ & Hafter).
    + left. split; vm_compute; reflexivity.
    + apply (bool_decide_unpack (unique_ids (issues city))).
      vm_compute. exact I.
    + exists s2. split; [exact Hrun|]. split; [exact Hgone|].
      destruct (Hafter (request_of "tok-bob" id1 ∅) bob s2) as (Hupvote & _).
      * assert (Hs2 : s2 = (delete_issues (request_of "tok-alice" id1 ∅) city).2)
          by (rewrite Hrun; reflexivity).
        rewrite Hs2. vm_compute. reflexivity.
      * reflexivity.
      * exact Hupvote.
Defined.

(** X12 on the sample: bob's creation is his first issue, and his upvote of
    it is refused. *)
Lemma creation_is_charged_to_the_caller_and_found_witness :
  let created :=
    (post_issues (request_of "tok-bob" "" {["title" := JStr "Leak"]}) city).2 in
  count_owned "bob@city.example" (issues created) = 1%nat
  ∧ patch_issues_upvote (request_of "tok-bob" id9 ∅) created
    = (Sent (fail 403 (message "You cannot upvote your own issue")), created).
Proof.
  intros created.
  destruct (creation_is_charged_to_the_caller_and_found
              (request_of "tok-bob" "" {["title" := JStr "Leak"]})
              city bob city (ok (inserted (VOid id9))) created)
    as (Hcount & _ & Hfound).
  - apply verify_bob.
  - reflexivity.
  - vm_compute. reflexivity.
  - reflexivity.
  - split; [exact Hcount|].
    destruct Hfound as (_ & _ & Hupvote); [reflexivity|].
    apply (Hupvote (request_of "tok-bob" id9 ∅) bob created).
    + vm_compute. reflexivity.
    + reflexivity.
    + vm_compute. reflexivity.
Defined.

(** X13 on the sample: alice closes her pending issue by editing it. *)
Lemma reporter_edit_stores_the_body_witness :
  ∃ r s2 issue',
    patch_issues_edit (request_of "tok-alice" id1 {["status" := JStr "closed"]}) city
    = (Sent r, s2)
    ∧ status r = 200%nat
    ∧ find_first [("_id", VOid id1)] (issues s2) = Some issue'
    ∧ issue' !! "status" = Some (str "closed")
    ∧ timeline s2 = [].
Proof.
  destruct (reporter_edit_stores_the_body
              (request_of "tok-alice" id1 {["status" := JStr "closed"]})
              city alice city id1
              (issue_doc id1 "alice@city.example" "pending" None ["bob@city.example"]))
    as (Hedit & _).
  - apply verify_alice.
  - vm_compute. reflexivity.
  - vm_compute. reflexivity.
  - vm_compute. reflexivity.
  - destruct Hedit as (r & s2 & issue' & Hrun & Hok & Hfind & Hbody & _ & _ & Htl & _).
    + intros k [j Hk].
      change (({["status" := JStr "closed"]} : jbody) !! k = Some j) in Hk.
      apply lookup_singleton_Some in Hk as [<- _]. reflexivity.
    + reflexivity.
    + exists r, s2, issue'.
      split; [exact Hrun|]. split; [exact Hok|]. split; [exact Hfind|].
      split; [apply (Hbody "status" (JStr "closed")); reflexivity | exact Htl].
Defined.


(** X15 on the sample: root asks for root's role. *)
Lemma own_role_is_the_role_of_the_request_witness :
  get_users_role (request_of "tok-root" "root@city.example" ∅) city
  = (Sent (ok (role_is (str "admin"))), city).
Proof.
  apply (own_role_is_the_role_of_the_request _ city root city).
  - apply verify_root.
  - reflexivity.
Defined.

(** X16 on the sample: alice asks for bob's membership and tries to make
    him premium. *)
Lemma membership_of_another_user_is_out_of_reach_witness :
  get_users_membership (request_of "tok-alice" "bob@city.example" ∅) city
  = (Sent (fail 403 (message "Unauthorized")), city)
  ∧ patch_users_premium (request_of "tok-alice" "bob@city.example" ∅) city
    = (Sent (fail 403 (message "Cannot modify other users")), city).
Proof.
  destruct (membership_of_another_user_is_out_of_reach
              (request_of "tok-alice" "bob@city.example" ∅) city alice city)
    as (Hread & Hpremium & _).
  - apply verify_alice.
  - vm_compute. discriminate.
  - split; [exact Hread | exact Hpremium].
Defined.

(** X17 on the sample: root makes root a citizen, and is refused on the
    next role change. *)
Lemma role_change_and_self_demotion_witness :
  ∃ res s2,
    patch_users_role
      (request_of "tok-root" "root@city.example" {["role" := JStr "citizen"]}) city
    = (Sent (ok (update_result res)), s2)
    ∧ patch_users_role
        (request_of "tok-root" "root@city.example" {["role" := JStr "admin"]}) s2
      = (Sent (fail 403 (message "Forbidden access")), s2).
Proof.
  destruct (role_change_and_self_demotion
              (request_of "tok-root" "root@city.example" {["role" := JStr "citizen"]})
              city root city)
    as (_ & Hvalid).
  - apply verify_root.
  - reflexivity.
  - destruct (Hvalid "citizen") as (_ & Hfound).
    + reflexivity.
    + apply (bool_decide_unpack ("citizen" ∈ ["citizen"; "staff"; "admin"])).
      vm_compute. exact I.
    + destruct (Hfound (user_doc "root@city.example" "admin" false))
        as (res & s2 & record' & Hrun & _ & _ & _ & _ & _ & _ & Hnext).
      * vm_compute. reflexivity.
      * exists res, s2. split; [exact Hrun|].
        apply (Hnext eq_refl ltac:(discriminate)
                 (request_of "tok-root" "root@city.example" {["role" := JStr "admin"]})
                 {| email := "root@city.example"; uid := "uid-root";
                    role := Some (str "citizen"); isBlocked := boolean false;
                    isPremium := boolean false |} s2); [|reflexivity].
        assert (Hs2 : s2 = (patch_users_role
                              (request_of "tok-root" "root@city.example"
                                 {["role" := JStr "citizen"]}) city).2)
          by (rewrite Hrun; reflexivity).
        rewrite Hs2. vm_compute. reflexivity.
Defined.

(** X18 on the sample: root blocks alice, whose next creation is
    refused. *)
Lemma block_takes_effect_on_the_next_request_witness :
  ∃ res s2,
    patch_users_block
      (request_of "tok-root" "alice@city.example" {["isBlocked" := JBool true]}) city
    = (Sent (ok (update_result res)), s2)
    ∧ post_issues (request_of "tok-alice" "" {["title" := JStr "Leak"]}) s2
      = (Sent (fail 403 (message "Your account is blocked")), s2).
Proof.
  destruct (block_takes_effect_on_the_next_request
              (request_of "tok-root" "alice@city.example" {["isBlocked" := JBool true]})
              city root city)
    as (_ & Hfound).
  - apply verify_root.
  - reflexivity.
  - destruct (Hfound (user_doc "alice@city.example" "citizen" false))
      as (res & s2 & record' & Hrun & _ & _ & _ & _ & Hnext).
    + vm_compute. reflexivity.
    + exists res, s2. split; [exact Hrun|].
      destruct (Hnext (request_of "tok-alice" "" {["title" := JStr "Leak"]})
                  {| email := "alice@city.example"; uid := "uid-alice";
                     role := Some (str "citizen"); isBlocked := boolean true;
                     isPremium := boolean false |} s2)
        as (_ & Hrefused).
      * assert (Hs2 : s2 = (patch_users_block
                              (request_of "tok-root" "alice@city.example"
                                 {["isBlocked" := JBool true]}) city).2)
          by (rewrite Hrun; reflexivity).
        rewrite Hs2. vm_compute. reflexivity.
      * reflexivity.
      * apply Hrefused. reflexivity.
Defined.

(** X19 on the sample: root makes bob a staff member and assigns him an
    issue. *)
Lemma promoted_staff_can_be_assigned_witness :
  ∃ res s2 r s4 issue',
    patch_users_make_staff (request_of "tok-root" "bob@city.example" ∅) city
    = (Sent (ok (update_result res)), s2)
    ∧ patch_issues_assign
        (request_of "tok-root" id1 {["staffEmail" := JStr "bob@city.example"]}) s2
      = (Sent r, s4)
    ∧ status r = 200%nat
    ∧ find_first [("_id", VOid id1)] (issues s4) = Some issue'
    ∧ issue' !! "assignedStaff" = Some (str "bob@city.example").
Proof.
  destruct (promoted_staff_can_be_assigned
              (request_of "tok-root" "bob@city.example" ∅) city root city
              (user_doc "bob@city.example" "citizen" true))
    as (_ & res & s2 & record' & Hrun & _ & _ & Hissues & Hassign).
  - apply verify_root.
  - reflexivity.
  - vm_compute. reflexivity.
  - assert (Hs2 : s2 = (patch_users_make_staff
                          (request_of "tok-root" "bob@city.example" ∅) city).2)
      by (rewrite Hrun; reflexivity).
    destruct (Hassign eq_refl
                (request_of "tok-root" id1 {["staffEmail" := JStr "bob@city.example"]})
                root s2 id1
                (issue_doc id1 "alice@city.example" "pending" None ["bob@city.example"]))
      as (r & s4 & issue' & Hrun2 & Hok & Hfind & Hstaff).
    + rewrite Hs2. vm_compute. reflexivity.
    + reflexivity.
    + discriminate.
    + reflexivity.
    + vm_compute. reflexivity.
    + rewrite Hs2. vm_compute. reflexivity.
    + exists res, s2, r, s4, issue'.
      split; [exact Hrun|]. split; [exact Hrun2|]. split; [exact Hok|].
      split; [exact Hfind | exact Hstaff].
Defined.

(** X20 on the sample: alice, at her quota, makes herself premium; her next
    creation is not refused for the quota. *)
Lemma self_made_premium_lifts_the_quota_witness :
  ∃ res s2,
    patch_users_premium (request_of "tok-alice" "alice@city.example" ∅) city
    = (Sent (ok (update_result res)), s2)
    ∧ payments s2 = []
    ∧ ∀ r s4,
        post_issues (request_of "tok-alice" "" {["title" := JStr "Leak"]}) s2
        = (Sent r, s4) →
        sent r ≠ message "Free user limit reached. Upgrade to premium.".
Proof.
  destruct (self_made_premium_lifts_the_quota
              (request_of "tok-alice" "alice@city.example" ∅) city alice city)
    as (res & s2 & record' & Hrun & _ & _ & Hpay & _ & Hnext).
  - apply verify_alice.
  - reflexivity.
  - exists res, s2. split; [exact Hrun|]. split; [exact Hpay|].
    apply (Hnext (request_of "tok-alice" "" {["title" := JStr "Leak"]})
             {| email := "alice@city.example"; uid := "uid-alice";
                role := Some (str "citizen"); isBlocked := boolean false;
                isPremium := boolean true |} s2); [|reflexivity|reflexivity].
    assert (Hs2 : s2 = (patch_users_premium
                          (request_of "tok-alice" "alice@city.example" ∅) city).2)
      by (rewrite Hrun; reflexivity).
    rewrite Hs2. vm_compute. reflexivity.
Defined.

(** X21 on the sample: alice sends the same transaction twice and two
    payments are recorded. *)
Lemma premium_verification_accepts_replays_witness :
  let paid : jbody := {["transactionId" := JStr "tx-1"; "amount" := JNum 1000]} in
  ∃ s2 s4 pay pay2,
    post_payment_premium_verify (request_of "tok-alice" "" paid) city
    = (Val premium_activated, s2)
    ∧ post_payment_premium_verify (request_of "tok-alice" "" paid) s2
      = (Val premium_activated, s4)
    ∧ payments s4 = [pay; pay2]
    ∧ pay !! "transactionId" = Some (str "tx-1")
    ∧ pay2 !! "transactionId" = Some (str "tx-1").
Proof.
  intros paid.
  destruct (premium_verification_accepts_replays
              (request_of "tok-alice" "" paid) city alice city)
    as (_ & Hpaid).
  - apply verify_alice.
  - destruct (Hpaid (JStr "tx-1") (JNum 1000))
      as (s2 & pay & record' & Hrun & _ & _ & _ & Htx & _ & _ & _ & _ & _ & Hagain).
    + vm_compute. reflexivity.
    + reflexivity.
    + vm_compute. reflexivity.
    + reflexivity.
    + destruct (Hagain (request_of "tok-alice" "" paid)
                  {| email := "alice@city.example"; uid := "uid-alice";
                     role := Some (str "citizen"); isBlocked := boolean false;
                     isPremium := boolean true |} s2)
        as (s4 & pay2 & Hrun2 & Hpayments & Htx2).
      * assert (Hs2 : s2 = (post_payment_premium_verify
                              (request_of "tok-alice" "" paid) city).2)
          by (rewrite Hrun; reflexivity).
        rewrite Hs2. vm_compute. reflexivity.
      * reflexivity.
      * reflexivity.
      * exists s2, s4, pay, pay2.
        split; [exact Hrun|]. split; [exact Hrun2|]. split; [exact Hpayments|].
        split; [exact Htx | exact Htx2].
Defined.

(** X22 on the sample: bob, a premium user, sets his membership to "free"
    and then reads "free". *)
Lemma membership_read_follows_the_update_witness :
  let updated :=
    (patch_users_membership
       (request_of "tok-bob" "bob@city.example" {["status" := JStr "free"]}) city).2 in
  get_users_membership (request_of "tok-bob" "bob@city.example" ∅) updated
  = (Val (membership_status "free"), updated).
Proof.
  intros updated.
  destruct (membership_read_follows_the_update
              (request_of "tok-bob" "bob@city.example" {["status" := JStr "free"]})
              city bob city (request_of "tok-bob" "bob@city.example" ∅))
    as (Hread & _).
  - apply verify_bob.
  - reflexivity.
  - reflexivity.
  - apply (Hread (JStr "free")
             {| email := "bob@city.example"; uid := "uid-bob";
                role := Some (str "citizen"); isBlocked := boolean false;
                isPremium := boolean false |} updated).
    + reflexivity.
    + reflexivity.
    + vm_compute. reflexivity.
    + reflexivity.
Defined.

(** X23 on the sample: a registration that asks for the role admin. *)
Lemma registration_never_overwrites_witness :
  let asked : jbody := {["email" := JStr "dave@city.example"; "role" := JStr "admin"]} in
  ∃ record,
    post_users (request_of "" "" asked) city
    = (Sent (ok (success_result {| matchedCount := 0; modifiedCount := 0 |})),
       set_users (users city ++ [record]) city)
    ∧ record !! "role" = Some (str "citizen").
Proof.
  intros asked.
  destruct (proj2 (registration_never_overwrites (request_of "" "" asked) city)
              "dave@city.example")
    as (_ & Hnew).
  - vm_compute. reflexivity.
  - discriminate.
  - destruct Hnew as (record & Hrun & _ & Hrole & _).
    + vm_compute. reflexivity.
    + exists record. split; [exact Hrun | exact Hrole].
Defined.

(** X24 on the sample: alice sets her name and asks for the role admin on
    the way; the name is stored and the role is not. *)
Lemma profile_update_touches_name_and_image_only_witness :
  let asked : jbody := {["name" := JStr "Alice"; "role" := JStr "admin"]} in
  ∃ res c' record',
    patch_users_profile (request_of "tok-alice" "" asked) city
    = (Sent (ok (success_result res)), set_users c' city)
    ∧ find_first [("email", str "alice@city.example")] c' = Some record'
    ∧ record' !! "name" = Some (str "Alice")
    ∧ record' !! "role" = Some (str "citizen").
Proof.
  intros asked.
  destruct (profile_update_touches_name_and_image_only
              (request_of "tok-alice" "" asked) city alice city)
    as (record & res & c' & record' & Hrecord & Hrun & _ & Hfind & _ & Hname & _ & Hother).
  - apply verify_alice.
  - exists res, c', record'. split; [exact Hrun|]. split; [exact Hfind|].
    split; [exact Hname|].
    rewrite (Hother "role").
    + assert (record = user_doc "alice@city.example" "citizen" false) as ->.
      { apply (inj Some). rewrite <- Hrecord. vm_compute. reflexivity. }
      vm_compute. reflexivity.
    + rewrite !elem_of_cons, elem_of_nil. intros [|[|[|[]]]]; discriminate.
Defined.

(** X25 on the sample: carol, a staff member, reads an issue that is not
    assigned to her. *)
Lemma single_issue_read_access_witness :
  get_issues_id (request_of "tok-carol" id1 ∅) city
  = (Sent (fail 403 (message "Forbidden: Not assigned to you")), city).
Proof.
  pose proof (single_issue_read_access (request_of "tok-carol" id1 ∅)
                city carol city id1
                (issue_doc id1 "alice@city.example" "pending" None ["bob@city.example"]))
    as Hread.
  cbv zeta in Hread.
  destruct Hread as (_ & Hstaff & _).
  - apply verify_carol.
  - vm_compute. reflexivity.
  - vm_compute. reflexivity.
  - rewrite Hstaff by reflexivity. vm_compute. reflexivity.
Defined.
